(** * Envelope file storage and delivery: a shallow embedding

    The development follows the TypeScript sources

    - [apps/remix/server/api/files/files.helpers.ts]
      ([handleEnvelopeItemFileRequest]) and the [filesRoute] handlers that
      live next to it,
    - [packages/lib/universal/upload/put-file.server.ts]
      ([putPdfFileServerSide], [putNormalizedPdfFileServerSide],
      [putFileServerSide], [putFileInDatabase], [putFileInS3]),
    - [packages/lib/server-only/document/audit-log-query.ts]
      ([queryAuditLogs]).

    Asynchronous functions are embedded as computations in a state and
    exception monad over a [World]; JavaScript values that may be
    [undefined] or [null] are options; byte arrays are [list byte];
    JavaScript strings are [string]. *)

From Stdlib Require Import ZArith Lia Strings.Byte Ascii String List.
From Stdlib Require Import Permutation DecimalString DecimalZ.
From stdpp Require Import base option list strings gmap.

Local Open Scope Z_scope.

(** ** Bytes *)

Definition Z_of_byte (b : byte) : Z := Z.of_N (Byte.to_N b).

Definition byte_of_Z (z : Z) : byte :=
  match Byte.of_N (Z.to_N (z mod 256)) with
  | Some b => b
  | None => x00
  end.

(** [utf8ToBytes]: a [string] is kept as the sequence of its UTF-8 code
    units, so the conversion is the identity on the underlying bytes. *)
Definition utf8ToBytes (s : string) : list byte := list_byte_of_string s.

(** ** [Buffer.prototype.toString('hex')] *)

Module Hex.

Definition digit (n : Z) : ascii :=
  if n <? 10 then ascii_of_N (Z.to_N (48 + n))
  else ascii_of_N (Z.to_N (87 + n)).

Definition of_byte (b : byte) : list ascii :=
  [digit (Z.shiftr (Z_of_byte b) 4); digit (Z.land (Z_of_byte b) 15)].

Fixpoint chars (bs : list byte) : list ascii :=
  match bs with
  | [] => []
  | b :: bs' => of_byte b ++ chars bs'
  end.

Definition toString (bs : list byte) : string :=
  string_of_list_ascii (chars bs).

End Hex.

(** ** SHA-256

    Modelled from the spec: the import [sha256] of
    [@documenso/lib/universal/crypto] is not part of the sources at hand.
    The spec describes it as "a deterministic one-way hash of the exact
    bytes ... encoded as a fixed-width hex string"; the name fixes the
    function, which is written out here after FIPS 180-4 on 32-bit words
    held in [Z]. A string argument is hashed through its UTF-8 bytes. *)

Module Sha256.

Definition mask32 : Z := 0xffffffff.

Definition add32 (a b : Z) : Z := Z.land (a + b) mask32.

Definition rotr (n x : Z) : Z :=
  Z.lor (Z.shiftr x n) (Z.land (Z.shiftl x (32 - n)) mask32).

Definition shr (n x : Z) : Z := Z.shiftr x n.

Definition not32 (x : Z) : Z := Z.lxor x mask32.

Definition Ch (x y z : Z) : Z :=
  Z.lxor (Z.land x y) (Z.land (not32 x) z).

Definition Maj (x y z : Z) : Z :=
  Z.lxor (Z.lxor (Z.land x y) (Z.land x z)) (Z.land y z).

Definition bigSigma0 (x : Z) : Z :=
  Z.lxor (Z.lxor (rotr 2 x) (rotr 13 x)) (rotr 22 x).

Definition bigSigma1 (x : Z) : Z :=
  Z.lxor (Z.lxor (rotr 6 x) (rotr 11 x)) (rotr 25 x).

Definition smallSigma0 (x : Z) : Z :=
  Z.lxor (Z.lxor (rotr 7 x) (rotr 18 x)) (shr 3 x).

Definition smallSigma1 (x : Z) : Z :=
  Z.lxor (Z.lxor (rotr 17 x) (rotr 19 x)) (shr 10 x).

(** The constants are those of FIPS 180-4: the first thirty-two bits of the
    fractional parts of the cube roots (for [K]) and of the square roots
    (for [IV]) of the first primes. *)
Definition is_prime (p : Z) : bool :=
  forallb (fun d => negb (p mod d =? 0)) (seqZ 2 (p - 2)).

Definition primes : list Z := List.filter is_prime (seqZ 2 310).

(** The integer cube root, one bit at a time from bit 40 downwards. *)
Fixpoint cube_root_bits (bit : nat) (n r : Z) : Z :=
  match bit with
  | O => r
  | S bit' =>
      let r' := r + 2 ^ Z.of_nat bit' in
      cube_root_bits bit' n (if r' * r' * r' <=? n then r' else r)
  end.

Definition cube_root (n : Z) : Z := cube_root_bits 40 n 0.

Definition frac_cube_root (p : Z) : Z :=
  Z.land (cube_root (Z.shiftl p 96)) mask32.

Definition frac_square_root (p : Z) : Z :=
  Z.land (Z.sqrt (Z.shiftl p 64)) mask32.

Definition K : list Z := Eval vm_compute in map frac_cube_root primes.

(** The eight working variables, also the chaining value. *)
Record state : Type := State {
  sa : Z; sb : Z; sc : Z; sd : Z; se : Z; sf : Z; sg : Z; sh : Z
}.

Definition state_of_list (l : list Z) : state :=
  State (nth 0 l 0) (nth 1 l 0) (nth 2 l 0) (nth 3 l 0)
        (nth 4 l 0) (nth 5 l 0) (nth 6 l 0) (nth 7 l 0).

Definition IV : state :=
  Eval vm_compute in state_of_list (map frac_square_root (firstn 8 primes)).

(** Big-endian packing of bytes into words and back. *)
Definition be32 (b0 b1 b2 b3 : byte) : Z :=
  Z.lor (Z.lor (Z.shiftl (Z_of_byte b0) 24) (Z.shiftl (Z_of_byte b1) 16))
        (Z.lor (Z.shiftl (Z_of_byte b2) 8) (Z_of_byte b3)).

Definition bytes_of_word (w : Z) : list byte :=
  [ byte_of_Z (Z.shiftr w 24); byte_of_Z (Z.shiftr w 16);
    byte_of_Z (Z.shiftr w 8); byte_of_Z w ].

Fixpoint words_of_bytes (bs : list byte) : list Z :=
  match bs with
  | b0 :: b1 :: b2 :: b3 :: rest => be32 b0 b1 b2 b3 :: words_of_bytes rest
  | _ => []
  end.

(** Padding: the byte 0x80, zero bytes up to 56 modulo 64, and the bit
    length of the message as a 64-bit big-endian integer. *)
Definition bytes_of_len (bits : Z) : list byte :=
  bytes_of_word (Z.shiftr bits 32) ++ bytes_of_word (Z.land bits mask32).

Definition pad (msg : list byte) : list byte :=
  let len := Z.of_nat (length msg) in
  let zeros := Z.to_nat ((55 - len) mod 64) in
  msg ++ x80 :: repeat x00 zeros ++ bytes_of_len (8 * len).

(** Message schedule: [win] is the sliding window of the last sixteen
    words; every step emits its oldest word and appends the next one. *)
Definition next_word (win : list Z) : Z :=
  add32 (add32 (smallSigma1 (nth 14 win 0)) (nth 9 win 0))
        (add32 (smallSigma0 (nth 1 win 0)) (nth 0 win 0)).

Fixpoint schedule (n : nat) (win : list Z) : list Z :=
  match n with
  | O => win
  | S n' =>
      match win with
      | [] => []
      | w0 :: rest => w0 :: schedule n' (rest ++ [next_word win])
      end
  end.

Definition round (s : state) (kw : Z * Z) : state :=
  let t1 := add32 (add32 (add32 (sh s) (bigSigma1 (se s)))
                         (add32 (Ch (se s) (sf s) (sg s)) (fst kw)))
                  (snd kw) in
  let t2 := add32 (bigSigma0 (sa s)) (Maj (sa s) (sb s) (sc s)) in
  State (add32 t1 t2) (sa s) (sb s) (sc s) (add32 (sd s) t1) (se s) (sf s) (sg s).

Definition compress (s : state) (block : list Z) : state :=
  let w := schedule 48 block in
  let r := fold_left round (combine K w) s in
  State (add32 (sa s) (sa r)) (add32 (sb s) (sb r))
        (add32 (sc s) (sc r)) (add32 (sd s) (sd r))
        (add32 (se s) (se r)) (add32 (sf s) (sf r))
        (add32 (sg s) (sg r)) (add32 (sh s) (sh r)).

(** The blocks of the padded message, sixteen words each. [fuel] bounds
    the number of blocks; [hash] passes the number of words. *)
Fixpoint blocks (fuel : nat) (s : state) (ws : list Z) : state :=
  match fuel with
  | O => s
  | S fuel' =>
      match ws with
      | [] => s
      | _ => blocks fuel' (compress s (firstn 16 ws)) (skipn 16 ws)
      end
  end.

Definition digest (s : state) : list byte :=
  bytes_of_word (sa s) ++ bytes_of_word (sb s) ++
  bytes_of_word (sc s) ++ bytes_of_word (sd s) ++
  bytes_of_word (se s) ++ bytes_of_word (sf s) ++
  bytes_of_word (sg s) ++ bytes_of_word (sh s).

Definition hash (msg : list byte) : list byte :=
  let ws := words_of_bytes (pad msg) in
  digest (blocks (length ws) IV ws).

End Sha256.

(** [sha256] of [@documenso/lib/universal/crypto], applied to a string. *)
Definition sha256 (value : string) : list byte :=
  Sha256.hash (utf8ToBytes value).

(** The spec's [fingerprint(bytes)]: the hash of a byte sequence as a
    lower-case hexadecimal string. *)
Definition fingerprint (bytes : list byte) : string :=
  Hex.toString (Sha256.hash bytes).

(** ** Base64

    [base64] of [@scure/base] is the RFC 4648 alphabet with [=] padding:
    three bytes become four characters, a tail of one or two bytes is
    padded; decoding is strict and throws (here: [None]) on a length that is
    not a multiple of four, on a character outside the alphabet, on
    misplaced padding and on non-zero trailing bits. *)

Module Base64.

Definition alphabet : list ascii :=
  list_ascii_of_string
    "ABCDEFGHIJKLMNOPQRSTUVWXYZabcdefghijklmnopqrstuvwxyz0123456789+/".

Definition pad_char : ascii := "="%char.

Definition is_pad (c : ascii) : bool := Ascii.eqb c pad_char.

Definition char_of_sextet (n : Z) : ascii := nth (Z.to_nat n) alphabet pad_char.

Definition sextet_of_char (c : ascii) : option Z :=
  let n := Z.of_N (N_of_ascii c) in
  if (65 <=? n) && (n <=? 90) then Some (n - 65)
  else if (97 <=? n) && (n <=? 122) then Some (n - 71)
  else if (48 <=? n) && (n <=? 57) then Some (n + 4)
  else if n =? 43 then Some 62
  else if n =? 47 then Some 63
  else None.

(** Twenty-four bits out of three bytes, and the four sextets of them. *)
Definition group (b0 b1 b2 : Z) : Z :=
  Z.lor (Z.shiftl b0 16) (Z.lor (Z.shiftl b1 8) b2).

Definition sextet (i : Z) (n : Z) : Z := Z.land (Z.shiftr n (18 - 6 * i)) 63.

Definition ungroup (s0 s1 s2 s3 : Z) : Z :=
  Z.lor (Z.lor (Z.shiftl s0 18) (Z.shiftl s1 12)) (Z.lor (Z.shiftl s2 6) s3).

Definition octet (i : Z) (n : Z) : byte :=
  byte_of_Z (Z.land (Z.shiftr n (16 - 8 * i)) 255).

Fixpoint encode_chars (bs : list byte) : list ascii :=
  match bs with
  | [] => []
  | [b0] =>
      let n := group (Z_of_byte b0) 0 0 in
      [char_of_sextet (sextet 0 n); char_of_sextet (sextet 1 n);
       pad_char; pad_char]
  | [b0; b1] =>
      let n := group (Z_of_byte b0) (Z_of_byte b1) 0 in
      [char_of_sextet (sextet 0 n); char_of_sextet (sextet 1 n);
       char_of_sextet (sextet 2 n); pad_char]
  | b0 :: b1 :: b2 :: rest =>
      let n := group (Z_of_byte b0) (Z_of_byte b1) (Z_of_byte b2) in
      char_of_sextet (sextet 0 n) :: char_of_sextet (sextet 1 n) ::
      char_of_sextet (sextet 2 n) :: char_of_sextet (sextet 3 n) ::
      encode_chars rest
  end.

Definition encode (bs : list byte) : string :=
  string_of_list_ascii (encode_chars bs).

(** A group of four characters without padding. *)
Definition decode_full (c0 c1 c2 c3 : ascii) : option (list byte) :=
  s0 ← sextet_of_char c0;
  s1 ← sextet_of_char c1;
  s2 ← sextet_of_char c2;
  s3 ← sextet_of_char c3;
  let n := ungroup s0 s1 s2 s3 in
  Some [octet 0 n; octet 1 n; octet 2 n].

(** The last group, which alone may end in one or two [=]. *)
Definition decode_last (c0 c1 c2 c3 : ascii) : option (list byte) :=
  if is_pad c3 then
    if is_pad c2 then
      s0 ← sextet_of_char c0;
      s1 ← sextet_of_char c1;
      let n := ungroup s0 s1 0 0 in
      if Z.land s1 15 =? 0 then Some [octet 0 n] else None
    else
      s0 ← sextet_of_char c0;
      s1 ← sextet_of_char c1;
      s2 ← sextet_of_char c2;
      let n := ungroup s0 s1 s2 0 in
      if Z.land s2 3 =? 0 then Some [octet 0 n; octet 1 n] else None
  else decode_full c0 c1 c2 c3.

Fixpoint decode_chars (cs : list ascii) : option (list byte) :=
  match cs with
  | [] => Some []
  | c0 :: c1 :: c2 :: c3 :: rest =>
      match rest with
      | [] => decode_last c0 c1 c2 c3
      | _ =>
          t ← decode_full c0 c1 c2 c3;
          r ← decode_chars rest;
          Some (t ++ r)
      end
  | _ => None
  end.

Definition decode (s : string) : option (list byte) :=
  decode_chars (list_ascii_of_string s).

End Base64.

(** ** JavaScript strings *)

(** [s.endsWith(suffix)] *)
Definition endsWith (s suffix : string) : bool :=
  let n := String.length s in
  let m := String.length suffix in
  (m <=? n)%nat && String.eqb (substring (n - m) m s) suffix.

(** [s.startsWith(p)] *)
Definition startsWith (s p : string) : bool := String.prefix p s.

(** [title.replace(/\.pdf$/, '')]: the pattern is anchored at the end of the
    string, so at most the final [.pdf] is removed. *)
Definition strip_pdf_suffix (title : string) : string :=
  if endsWith title ".pdf"
  then substring 0 (String.length title - 4) title
  else title.

(** ** Data model *)

(** Prisma's [DocumentDataType]; the spec calls the two variants
    [INLINE_BYTES] and [OBJECT_STORE_KEY]. *)
Inductive DocumentDataType : Type := BYTES_64 | S3_PATH.

Inductive DocumentStatus : Type := DRAFT | PENDING | COMPLETED | REJECTED.

Inductive Version : Type := signed | original.

(** A [DocumentData] row: [data] is the current payload, [initialData] the
    one stored at creation; both are read according to [type]. *)
Record DocumentData : Type := {
  dd_id : nat;
  dd_type : DocumentDataType;
  dd_data : string;
  dd_initialData : string
}.

Record EnvelopeItem : Type := {
  item_id : string;
  item_envelopeId : string;
  item_title : string;
  item_documentData : option DocumentData
}.

Record Envelope : Type := {
  envelope_id : string;
  envelope_status : DocumentStatus;
  envelope_teamId : Z;
  envelope_qrToken : option string;
  envelope_recipients : list string   (* the recipients' tokens *)
}.

Record Database : Type := {
  db_envelopes : list Envelope;
  db_envelopeItems : list EnvelopeItem;
  db_documentData : list DocumentData
}.

(** The [File] of an upload; [size] is the length of the contents. *)
Record File : Type := {
  file_name : string;
  file_type : string;
  file_contents : list byte
}.

Definition file_size (f : File) : Z := Z.of_nat (length (file_contents f)).

(** ** Requests and responses (Hono) *)

Record Request : Type := {
  req_headers : gmap string string;
  req_query : gmap string string
}.

(** [c.req.header(name)] *)
Definition req_header (r : Request) (name : string) : option string :=
  req_headers r !! name.

Inductive Json : Type :=
| JError (error : string)
| JDocumentData (d : DocumentData).

Inductive Body : Type :=
| BodyNull
| BodyBytes (bytes : list byte)
| BodyJson (j : Json).

Record Response : Type := {
  res_status : Z;
  res_headers : gmap string string;
  res_body : Body
}.

(** ** The world of one request

    Everything a handler can read or change: the relational store, the
    external object store and whether it can be reached, the response
    headers collected in the Hono context, and a trace of the calls made to
    the storage backend. *)

Inductive StorageCall : Type :=
| CallGet (type : DocumentDataType) (data : string)
| CallPut (file : File).

Record World : Type := {
  database : Database;
  objectStore : gmap string (list byte);
  objectStoreOnline : bool;
  contextHeaders : gmap string string;
  storageCalls : list StorageCall
}.

(** ** Exceptions and the handler monad *)

Inductive Exn : Type :=
| AppError (code : string)
| JsError (message : string).

Inductive Outcome (A : Type) : Type :=
| Return (a : A)
| Throw (e : Exn).
Arguments Return {A} a.
Arguments Throw {A} e.

Definition M (A : Type) : Type := World -> Outcome A * World.

#[export] Instance M_ret : MRet M := fun A a w => (Return a, w).

#[export] Instance M_bind : MBind M := fun A B f m w =>
  match m w with
  | (Return a, w') => f a w'
  | (Throw e, w') => (Throw e, w')
  end.

#[export] Instance M_fmap : FMap M := fun A B f m w =>
  match m w with
  | (Return a, w') => (Return (f a), w')
  | (Throw e, w') => (Throw e, w')
  end.

Definition throw {A : Type} (e : Exn) : M A := fun w => (Throw e, w).

(** [m.catch(h)] and [try { m } catch (e) { h e }] *)
Definition catch {A : Type} (m : M A) (h : Exn -> M A) : M A := fun w =>
  match m w with
  | (Return a, w') => (Return a, w')
  | (Throw e, w') => h e w'
  end.

Definition get_world : M World := fun w => (Return w, w).

Definition record_call (c : StorageCall) : M unit := fun w =>
  (Return tt,
   {| database := database w;
      objectStore := objectStore w;
      objectStoreOnline := objectStoreOnline w;
      contextHeaders := contextHeaders w;
      storageCalls := storageCalls w ++ [c] |}).

(** [c.header(name, value)] *)
Definition c_header (name value : string) : M unit := fun w =>
  (Return tt,
   {| database := database w;
      objectStore := objectStore w;
      objectStoreOnline := objectStoreOnline w;
      contextHeaders := <[name := value]> (contextHeaders w);
      storageCalls := storageCalls w |}).

(** [c.body(data, status)]: the response carries the headers set so far. *)
Definition c_body (data : Body) (status : Z) : M Response := fun w =>
  (Return {| res_status := status;
             res_headers := contextHeaders w;
             res_body := data |}, w).

(** [c.json(object, status)]; the content type that Hono adds for JSON is
    left out of the header map. *)
Definition c_json (object : Json) (status : Z) : M Response :=
  c_body (BodyJson object) status.

(** ** Collaborators outside the sources

    Functions and constants that the handlers import from modules that are
    not part of the sources at hand; they are taken as given. A promise that
    rejects is [None]. *)

Record User : Type := { user_id : Z }.

Record PdfDocument : Type := {
  pdf_isEncrypted : bool;
  pdf_normalized : list byte   (* the bytes saved after normalization *)
}.

Record Services : Type := {
  (** [getOptionalSession(c)]: [session.user] *)
  getOptionalSession : Request -> option User;
  (** [verifyEmbeddingPresignToken({ token })]: the [userId] of the token *)
  verifyEmbeddingPresignToken : string -> option Z;
  (** [getTeamById({ userId, teamId })]: rejects when the user is not a
      member of the team *)
  getTeamById : Z -> Z -> option unit;
  (** [PDFDocument.load(arrayBuffer)] of pdf-lib *)
  PDFDocument_load : list byte -> option PdfDocument;
  (** the key under which [uploadS3File] stores a file of a given name *)
  generateKey : string -> string;
  (** [env('NEXT_PUBLIC_UPLOAD_TRANSPORT')] *)
  NEXT_PUBLIC_UPLOAD_TRANSPORT : option string;
  (** [APP_DOCUMENT_UPLOAD_SIZE_LIMIT], in megabytes *)
  APP_DOCUMENT_UPLOAD_SIZE_LIMIT : Z
}.

Section Subsystem.

Context (svc : Services).

(** ** Storage backend: get *)

(** Modelled from the spec: [getFileServerSide] of
    [universal/upload/get-file.server] is not part of the sources at
    hand. "Inline: ... [get] decodes the same encoding"; "Object-store:
    ... [get] fetches the object by key. Network failure surfaces as a
    distinct error kind". A rejected promise is a [Throw]. *)
Definition getFileServerSide (type : DocumentDataType) (data : string)
  : M (list byte) :=
  _ ← record_call (CallGet type data);
  match type with
  | BYTES_64 =>
      match Base64.decode data with
      | Some binaryData => mret binaryData
      | None => throw (JsError "invalid base64")
      end
  | S3_PATH =>
      w ← get_world;
      if objectStoreOnline w then
        match objectStore w !! data with
        | Some object => mret object
        | None => throw (JsError "Failed to get file")
        end
      else throw (JsError "network failure")
  end.

(** ** Serving an envelope item *)

(** Modelled from the spec: [contentDisposition] of the package
    [content-disposition]; "for downloads [Content-Disposition:
    attachment; filename=<title>[_signed].pdf]" with the name quoted. *)
Definition contentDisposition (filename : string) : string :=
  "attachment; filename=" +:+ String (ascii_of_nat 34)
    (filename +:+ String (ascii_of_nat 34) "").

Definition documentDataToUse (documentData : DocumentData) (version : Version)
  : string :=
  match version with
  | signed => dd_data documentData
  | original => dd_initialData documentData
  end.

(** [Buffer.from(sha256(documentDataToUse)).toString('hex')] *)
Definition etag_of (documentData : DocumentData) (version : Version) : string :=
  Hex.toString (sha256 (documentDataToUse documentData version)).

Definition is_COMPLETED (status : DocumentStatus) : bool :=
  match status with COMPLETED => true | _ => false end.

Definition handleEnvelopeItemFileRequest
    (title : string) (status : DocumentStatus) (documentData : DocumentData)
    (version : Version) (isDownload : bool) (req : Request) : M Response :=
  let documentDataToUse := documentDataToUse documentData version in
  let etag := Hex.toString (sha256 documentDataToUse) in
  if bool_decide (req_header req "If-None-Match" = Some etag) && negb isDownload
  then c_body BodyNull 304
  else
    file ← catch (Some <$> getFileServerSide (dd_type documentData) documentDataToUse)
                 (fun error => mret None);
    match file with
    | None => c_json (JError "File not found") 404
    | Some file =>
        _ ← c_header "Content-Type" "application/pdf";
        _ ← c_header "ETag" etag;
        _ ← (if negb isDownload then
               if is_COMPLETED status
               then c_header "Cache-Control" "public, max-age=31536000, immutable"
               else c_header "Cache-Control" "public, max-age=0, must-revalidate"
             else mret tt);
        _ ← (if isDownload then
               let baseTitle := strip_pdf_suffix title in
               let suffix :=
                 match version with signed => "_signed.pdf" | original => ".pdf" end in
               let filename := baseTitle +:+ suffix in
               _ ← c_header "Content-Disposition" (contentDisposition filename);
               _ ← c_header "Cache-Control" "no-cache, no-store, must-revalidate";
               _ ← c_header "Pragma" "no-cache";
               c_header "Expires" "0"
             else mret tt);
        c_body (BodyBytes file) 200
    end.

(** The spec's table of cache policies, by envelope status and
    [isDownload]. *)
Definition cache_control_policy (status : DocumentStatus) (isDownload : bool)
  : string :=
  if isDownload then "no-cache, no-store, must-revalidate"
  else if is_COMPLETED status then "public, max-age=31536000, immutable"
  else "public, max-age=0, must-revalidate".

(** ** Queries of the routes *)

(** [prisma.envelope.findFirst({ where: { id }, include: { envelopeItems:
    { where: { id: envelopeItemId }, include: { documentData } } } })] *)
Definition envelope_findFirst (db : Database) (envelopeId envelopeItemId : string)
  : option (Envelope * list EnvelopeItem) :=
  envelope ← List.find (fun e => String.eqb (envelope_id e) envelopeId)
               (db_envelopes db);
  Some (envelope,
        List.filter (fun i => String.eqb (item_envelopeId i) (envelope_id envelope)
                              && String.eqb (item_id i) envelopeItemId)
                    (db_envelopeItems db)).

Definition envelope_of (db : Database) (i : EnvelopeItem) : option Envelope :=
  List.find (fun e => String.eqb (envelope_id e) (item_envelopeId i))
            (db_envelopes db).

(** The two shapes of [envelopeWhereQuery]. *)
Inductive EnvelopeWhere : Type :=
| WhereRecipientToken (token : string)   (* recipients: { some: { token } } *)
| WhereQrToken (token : string).         (* qrToken: token *)

Definition envelope_matches (q : EnvelopeWhere) (e : Envelope) : bool :=
  match q with
  | WhereRecipientToken token =>
      existsb (String.eqb token) (envelope_recipients e)
  | WhereQrToken token =>
      match envelope_qrToken e with
      | Some t => String.eqb t token
      | None => false
      end
  end.

(** [prisma.envelopeItem.findUnique({ where: { id, envelope: q },
    include: { envelope: true, documentData: true } })] *)
Definition envelopeItem_findUnique (db : Database) (envelopeItemId : string)
    (q : EnvelopeWhere) : option (EnvelopeItem * Envelope) :=
  let hit (i : EnvelopeItem) : bool :=
    String.eqb (item_id i) envelopeItemId &&
    match envelope_of db i with
    | Some e => envelope_matches q e
    | None => false
    end in
  i ← List.find hit (db_envelopeItems db);
  e ← envelope_of db i;
  Some (i, e).

Definition envelopeWhereQuery (token : string) : EnvelopeWhere :=
  if startsWith token "qr_" then WhereQrToken token
  else WhereRecipientToken token.

(** JavaScript truthiness of an optional string: [if (token)]. *)
Definition truthy_string (o : option string) : bool :=
  match o with
  | Some s => negb (String.eqb s "")
  | None => false
  end.

(** ** The retrieval routes *)

(** The part shared by the two session routes once a [userId] is known. *)
Definition serve_for_user (userId : Z) (envelopeId envelopeItemId : string)
    (version : Version) (isDownload : bool) (req : Request) : M Response :=
  w ← get_world;
  match envelope_findFirst (database w) envelopeId envelopeItemId with
  | None => c_json (JError "Envelope not found") 404
  | Some (envelope, envelopeItems) =>
      match envelopeItems with
      | [] => c_json (JError "Envelope item not found") 404
      | envelopeItem :: _ =>
          match getTeamById svc userId (envelope_teamId envelope) with
          | None =>
              c_json (JError "User does not have access to the team that this envelope is associated with") 403
          | Some team =>
              match item_documentData envelopeItem with
              | None => c_json (JError "Document data not found") 404
              | Some documentData =>
                  handleEnvelopeItemFileRequest (item_title envelopeItem)
                    (envelope_status envelope) documentData version isDownload req
              end
          end
      end
  end.

(** [GET /envelope/:envelopeId/envelopeItem/:envelopeItemId] *)
Definition get_envelope_item (envelopeId envelopeItemId : string) (req : Request)
  : M Response :=
  let token := req_query req !! "token" in
  let session := getOptionalSession svc req in
  let userId := user_id <$> session in
  let userId :=
    if truthy_string token then
      match token with
      | Some token => verifyEmbeddingPresignToken svc token
      | None => None
      end
    else userId in
  (* [!userId]: [undefined], or the number 0 *)
  match userId with
  | None => c_json (JError "Unauthorized") 401
  | Some userId =>
      if userId =? 0 then c_json (JError "Unauthorized") 401
      else serve_for_user userId envelopeId envelopeItemId signed false req
  end.

(** [GET /envelope/:envelopeId/envelopeItem/:envelopeItemId/download/:version?] *)
Definition get_envelope_item_download (envelopeId envelopeItemId : string)
    (version : Version) (req : Request) : M Response :=
  match getOptionalSession svc req with
  | None => c_json (JError "Unauthorized") 401
  | Some user =>
      serve_for_user (user_id user) envelopeId envelopeItemId version true req
  end.

(** The part shared by the two token routes. *)
Definition serve_for_token (token envelopeItemId : string)
    (version : Version) (isDownload : bool) (req : Request) : M Response :=
  w ← get_world;
  match envelopeItem_findUnique (database w) envelopeItemId
          (envelopeWhereQuery token) with
  | None => c_json (JError "Envelope item not found") 404
  | Some (envelopeItem, envelope) =>
      match item_documentData envelopeItem with
      | None => c_json (JError "Document data not found") 404
      | Some documentData =>
          handleEnvelopeItemFileRequest (item_title envelopeItem)
            (envelope_status envelope) documentData version isDownload req
      end
  end.

(** [GET /token/:token/envelopeItem/:envelopeItemId] *)
Definition get_token_item (token envelopeItemId : string) (req : Request)
  : M Response :=
  serve_for_token token envelopeItemId signed false req.

(** [GET /token/:token/envelopeItem/:envelopeItemId/download/:version?] *)
Definition get_token_item_download (token envelopeItemId : string)
    (version : Version) (req : Request) : M Response :=
  serve_for_token token envelopeItemId version true req.

(** ** Storage backend: put *)

Definition putFileInDatabase (file : File) : M (DocumentDataType * string) :=
  let binaryData := file_contents file in
  let asciiData := Base64.encode binaryData in
  mret (BYTES_64, asciiData).

(** Modelled from the spec: [uploadS3File] of [./server-actions] is not
    part of the sources at hand. "[put] uploads to an external object
    store under a generated key"; a failed call "is reported immediately,
    never silently retried". *)
Definition uploadS3File (file : File) : M string := fun w =>
  if objectStoreOnline w then
    let key := generateKey svc (file_name file) in
    (Return key,
     {| database := database w;
        objectStore := <[key := file_contents file]> (objectStore w);
        objectStoreOnline := objectStoreOnline w;
        contextHeaders := contextHeaders w;
        storageCalls := storageCalls w |})
  else (Throw (JsError "network failure"), w).

(** The logging and telemetry calls of the source write to the console
    only and are left out. *)
Definition putFileInS3 (file : File) : M (DocumentDataType * string) :=
  key ← uploadS3File file;
  mret (S3_PATH, key).

Definition putFileServerSide (file : File) : M (DocumentDataType * string) :=
  _ ← record_call (CallPut file);
  match NEXT_PUBLIC_UPLOAD_TRANSPORT svc with
  | Some transport =>
      if String.eqb transport "s3" then putFileInS3 file
      else putFileInDatabase file
  | None => putFileInDatabase file
  end.

(** Modelled from the spec: [createDocumentData] of
    [server-only/document-data/create-document-data] is not part of the
    sources at hand. The "persisted [DocumentData{type, data}]" is
    "handed to the collaborator layer for record creation"; the new row
    starts with [initialData] equal to [data]. An insert that the database
    rejects is not modelled. *)
Definition createDocumentData (type : DocumentDataType) (data : string)
  : M DocumentData := fun w =>
  let db := database w in
  let row := {| dd_id := length (db_documentData db);
                dd_type := type;
                dd_data := data;
                dd_initialData := data |} in
  (Return row,
   {| database := {| db_envelopes := db_envelopes db;
                     db_envelopeItems := db_envelopeItems db;
                     db_documentData := db_documentData db ++ [row] |};
      objectStore := objectStore w;
      objectStoreOnline := objectStoreOnline w;
      contextHeaders := contextHeaders w;
      storageCalls := storageCalls w |}).

(** ** Validation and upload *)

(** [file.name.endsWith('.pdf') ? file.name : `${file.name}.pdf`] *)
Definition pdf_file_name (name : string) : string :=
  if endsWith name ".pdf" then name else name +:+ ".pdf".

Definition putPdfFileServerSide (file : File) : M DocumentData :=
  let isEncryptedDocumentsAllowed := false in
  let arrayBuffer := file_contents file in
  pdf ← match PDFDocument_load svc arrayBuffer with
        | Some pdf => mret pdf
        | None => throw (AppError "INVALID_DOCUMENT_FILE")
        end;
  if negb isEncryptedDocumentsAllowed && pdf_isEncrypted pdf
  then throw (AppError "INVALID_DOCUMENT_FILE")
  else
    let file := {| file_name := pdf_file_name (file_name file);
                   file_type := file_type file;
                   file_contents := file_contents file |} in
    '(type, data) ← putFileServerSide file;
    createDocumentData type data.

(** Modelled from the spec: [normalizePdf] of [server-only/pdf/normalize-pdf]
    is not part of the sources at hand. "A normalization variant
    additionally rewrites internal PDF structure ... before the bytes are
    handed to StorageBackend"; the path is "validate+normalize", and
    validation "rejects: documents that fail structural parsing; encrypted
    documents" with [InvalidDocumentFile]. *)
Definition normalizePdf (pdf : list byte) : M (list byte) :=
  match PDFDocument_load svc pdf with
  | None => throw (AppError "INVALID_DOCUMENT_FILE")
  | Some pdfDoc =>
      if pdf_isEncrypted pdfDoc then throw (AppError "INVALID_DOCUMENT_FILE")
      else mret (pdf_normalized pdfDoc)
  end.

Definition putNormalizedPdfFileServerSide (file : File) : M DocumentData :=
  let buffer := file_contents file in
  normalized ← normalizePdf buffer;
  let fileName := pdf_file_name (file_name file) in
  documentData ← putFileServerSide
                   {| file_name := fileName;
                      file_type := "application/pdf";
                      file_contents := normalized |};
  createDocumentData (fst documentData) (snd documentData).

(** [POST /upload-pdf]; [file] is the validated form field. *)
Definition post_upload_pdf (file : option File) : M Response :=
  let MAX_FILE_SIZE := APP_DOCUMENT_UPLOAD_SIZE_LIMIT svc * 1024 * 1024 in
  catch
    (match file with
     | None => c_json (JError "No file provided") 400
     | Some file =>
         if file_size file >? MAX_FILE_SIZE
         then c_json (JError "File too large") 400
         else
           result ← putNormalizedPdfFileServerSide file;
           c_json (JDocumentData result) 200
     end)
    (fun error => c_json (JError "Upload failed") 500).

End Subsystem.

(** ** Audit-log listing ([audit-log-query.ts]) *)

Module AuditLog.

Record DocumentAuditLog : Type := {
  log_id : string;
  log_envelopeId : string;
  log_createdAt : Z;
  log_type : string;
  log_isResending : bool   (* [data.isResending] is [true] *)
}.

Definition RECENT_ACTIVITY_EVENT_TYPES : list string :=
  [ "DOCUMENT_COMPLETED"; "DOCUMENT_CREATED"; "DOCUMENT_DELETED";
    "DOCUMENT_OPENED"; "DOCUMENT_RECIPIENT_COMPLETED";
    "DOCUMENT_RECIPIENT_REJECTED"; "DOCUMENT_SENT";
    "DOCUMENT_MOVED_TO_TEAM" ]%string.

(** The conditions that occur under [OR] in the where clause. *)
Inductive Condition : Type :=
| TypeIn (types : list string)
| TypeWithResending (type : string).   (* type, and data.isResending = true *)

Record WhereInput : Type := {
  where_envelopeId : string;
  where_OR : option (list Condition)
}.

Definition buildAuditLogWhereClause (envelope : Envelope)
    (filterForRecentActivity : option bool) : WhereInput :=
  let baseWhereClause :=
    {| where_envelopeId := envelope_id envelope; where_OR := None |} in
  match filterForRecentActivity with
  | Some true =>
      let recentActivityConditions :=
        [ TypeIn RECENT_ACTIVITY_EVENT_TYPES; TypeWithResending "EMAIL_SENT" ] in
      {| where_envelopeId := where_envelopeId baseWhereClause;
         where_OR := Some recentActivityConditions |}
  | _ => baseWhereClause
  end.

Definition holds (c : Condition) (l : DocumentAuditLog) : bool :=
  match c with
  | TypeIn types => existsb (String.eqb (log_type l)) types
  | TypeWithResending type => String.eqb (log_type l) type && log_isResending l
  end.

Definition matches (w : WhereInput) (l : DocumentAuditLog) : bool :=
  String.eqb (log_envelopeId l) (where_envelopeId w) &&
  match where_OR w with
  | Some conditions => existsb (fun c => holds c l) conditions
  | None => true
  end.

(** Ordering: [keyof DocumentAuditLog] and a direction. *)
Inductive Column : Type := col_id | col_envelopeId | col_createdAt | col_type.
Inductive Direction : Type := asc | desc.

Record OrderBy : Type := { column : Column; direction : Direction }.

Definition string_leb (a b : string) : bool :=
  match String.compare a b with Gt => false | _ => true end.

Definition column_leb (c : Column) (a b : DocumentAuditLog) : bool :=
  match c with
  | col_id => string_leb (log_id a) (log_id b)
  | col_envelopeId => string_leb (log_envelopeId a) (log_envelopeId b)
  | col_createdAt => log_createdAt a <=? log_createdAt b
  | col_type => string_leb (log_type a) (log_type b)
  end.

Definition order_leb (c : Column) (d : Direction) (a b : DocumentAuditLog) : bool :=
  match d with
  | asc => column_leb c a b
  | desc => column_leb c b a
  end.

Fixpoint insert_sorted (leb : DocumentAuditLog -> DocumentAuditLog -> bool)
    (x : DocumentAuditLog) (l : list DocumentAuditLog) : list DocumentAuditLog :=
  match l with
  | [] => [x]
  | y :: l' => if leb x y then x :: l else y :: insert_sorted leb x l'
  end.

Definition sort_rows (leb : DocumentAuditLog -> DocumentAuditLog -> bool)
    (l : list DocumentAuditLog) : list DocumentAuditLog :=
  fold_right (insert_sorted leb) [] l.

(** [cursor: { id }]: the listing starts at the row with that id. The
    database places the cursor by the value of the order column of that
    row; the two readings give the same rows when no two selected rows have
    the same value in that column. *)
Fixpoint from_cursor (id : string) (l : list DocumentAuditLog)
  : list DocumentAuditLog :=
  match l with
  | [] => []
  | x :: l' => if String.eqb (log_id x) id then l else from_cursor id l'
  end.

(** The rows a query selects before [take] cuts them. *)
Definition selected (table : list DocumentAuditLog) (w : WhereInput)
    (c : Column) (d : Direction) (cursor : option string) (skip : Z)
  : list DocumentAuditLog :=
  let rows := sort_rows (order_leb c d) (List.filter (matches w) table) in
  let rows := match cursor with Some id => from_cursor id rows | None => rows end in
  skipn (Z.to_nat skip) rows.

(** [prisma.documentAuditLog.findMany({ where, skip, take, orderBy,
    cursor })]; a negative [take] reads backwards from the end. *)
Definition findMany (table : list DocumentAuditLog) (w : WhereInput)
    (skip take : Z) (c : Column) (d : Direction) (cursor : option string)
  : list DocumentAuditLog :=
  if take <? 0 then
    let rows := sort_rows (order_leb c d) (List.filter (matches w) table) in
    let rows :=
      match cursor with Some id => from_cursor id (rev rows) | None => rev rows end in
    rev (firstn (Z.to_nat (- take)) (skipn (Z.to_nat skip) rows))
  else firstn (Z.to_nat take) (selected table w c d cursor skip).

(** [prisma.documentAuditLog.count({ where })] *)
Definition count_rows (table : list DocumentAuditLog) (w : WhereInput) : Z :=
  Z.of_nat (length (List.filter (matches w) table)).

(** A JavaScript number that may come out of a division by zero. *)
Inductive JsNumber : Type := Finite (z : Z) | Infinity | NaN.

(** [Math.ceil(count / perPage)] for integers [count >= 0] and [perPage]. *)
Definition ceil_div (count perPage : Z) : JsNumber :=
  if perPage =? 0 then (if count =? 0 then NaN else Infinity)
  else Finite (- ((- count) / perPage)).

(** [array[i]] *)
Definition js_index {A : Type} (l : list A) (i : Z) : option A :=
  if i <? 0 then None else nth_error l (Z.to_nat i).

(** [array.slice(0, end)] *)
Definition js_slice0 {A : Type} (l : list A) (end_ : Z) : list A :=
  if end_ <? 0 then firstn (Z.to_nat (Z.of_nat (length l) + end_)) l
  else firstn (Z.to_nat end_) l.

(** [array.map(f)] for an [f] that may throw. *)
Fixpoint map_throwing {A B : Type} (f : A -> option B) (l : list A)
  : option (list B) :=
  match l with
  | [] => Some []
  | x :: l' =>
      match f x with
      | None => None
      | Some y =>
          match map_throwing f l' with
          | None => None
          | Some ys => Some (y :: ys)
          end
      end
  end.

Record FindResult : Type := {
  r_data : list DocumentAuditLog;
  r_count : Z;
  r_currentPage : Z;
  r_perPage : Z;
  r_totalPages : JsNumber;
  r_nextCursor : option string
}.

Section Query.

(** [parseDocumentAuditLogData] of [utils/document-audit-logs] is not
    part of the sources at hand; it validates a row and throws ([None])
    on one that does not pass. *)
Variable parseDocumentAuditLogData : DocumentAuditLog -> option DocumentAuditLog.

(** The table [DocumentAuditLog] as the query finds it. *)
Variable table : list DocumentAuditLog.

Definition queryAuditLogs (envelope : Envelope) (page perPage : option Z)
    (orderBy : option OrderBy) (cursor : option string)
    (filterForRecentActivity : option bool) : option FindResult :=
  let page := default 1 page in
  let perPage := default 30 perPage in
  let orderByColumn := default col_createdAt (column <$> orderBy) in
  let orderByDirection := default desc (direction <$> orderBy) in
  let whereClause := buildAuditLogWhereClause envelope filterForRecentActivity in
  let normalizedPage := Z.max page 1 in
  let skip := (normalizedPage - 1) * perPage in
  let cursor :=
    match cursor with
    | Some id => if String.eqb id "" then None else Some id
    | None => None
    end in
  let data := findMany table whereClause skip (perPage + 1)
                orderByColumn orderByDirection cursor in
  let count := count_rows table whereClause in
  match map_throwing parseDocumentAuditLogData data with
  | None => None
  | Some allParsedData =>
      let hasNextPage := Z.of_nat (length allParsedData) >? perPage in
      let parsedData :=
        if hasNextPage then js_slice0 allParsedData perPage else allParsedData in
      let result nextCursor :=
        {| r_data := parsedData;
           r_count := count;
           r_currentPage := normalizedPage;
           r_perPage := perPage;
           r_totalPages := ceil_div count perPage;
           r_nextCursor := nextCursor |} in
      if hasNextPage then
        match js_index allParsedData perPage with
        | Some row => Some (result (Some (log_id row)))
        | None => None   (* reading [.id] of [undefined] throws *)
        end
      else Some (result None)
  end.

End Query.

End AuditLog.

(** ** Concrete scenarios *)

Module Scenario.

(** A ten-byte plaintext PDF stub. *)
Definition stub : list byte := utf8ToBytes "%PDF-1.4"%string ++ [x0a; x0a].

Definition no_services : Services :=
  {| getOptionalSession := fun _ => None;
     verifyEmbeddingPresignToken := fun _ => None;
     getTeamById := fun _ _ => None;
     PDFDocument_load := fun _ => None;
     generateKey := fun name => ("key/" +:+ name)%string;
     NEXT_PUBLIC_UPLOAD_TRANSPORT := None;
     APP_DOCUMENT_UPLOAD_SIZE_LIMIT := 50 |}.

Definition empty_database : Database :=
  {| db_envelopes := []; db_envelopeItems := []; db_documentData := [] |}.

Definition empty_world : World :=
  {| database := empty_database;
     objectStore := ∅;
     objectStoreOnline := true;
     contextHeaders := ∅;
     storageCalls := [] |}.

Definition plain_request : Request :=
  {| req_headers := ∅; req_query := ∅ |}.

(** The row that an inline upload of [stub] creates. *)
Definition inline_stub : DocumentData :=
  {| dd_id := 0;
     dd_type := BYTES_64;
     dd_data := Base64.encode stub;
     dd_initialData := Base64.encode stub |}.

(** An envelope of team 7 with one item and one recipient. *)
Definition contract : Envelope :=
  {| envelope_id := "envelope_1";
     envelope_status := PENDING;
     envelope_teamId := 7;
     envelope_qrToken := Some "qr_42"%string;
     envelope_recipients := ["tok_alice"%string] |}.

Definition contract_item : EnvelopeItem :=
  {| item_id := "item_1";
     item_envelopeId := "envelope_1";
     item_title := "contract.pdf";
     item_documentData := Some inline_stub |}.

Definition signing_world : World :=
  {| database := {| db_envelopes := [contract];
                    db_envelopeItems := [contract_item];
                    db_documentData := [inline_stub] |};
     objectStore := ∅;
     objectStoreOnline := true;
     contextHeaders := ∅;
     storageCalls := [] |}.

(** A signed-in user 3 who is a member of no team. *)
Definition outsider_services : Services :=
  {| getOptionalSession := fun _ => Some {| user_id := 3 |};
     verifyEmbeddingPresignToken := fun _ => None;
     getTeamById := fun _ _ => None;
     PDFDocument_load := fun _ => None;
     generateKey := fun name => ("key/" +:+ name)%string;
     NEXT_PUBLIC_UPLOAD_TRANSPORT := None;
     APP_DOCUMENT_UPLOAD_SIZE_LIMIT := 50 |}.

(** An object kept in the object store, and the store out of reach. *)
Definition stored_object : DocumentData :=
  {| dd_id := 1;
     dd_type := S3_PATH;
     dd_data := "abc123/contract.pdf";
     dd_initialData := "abc123/contract.pdf" |}.

Definition offline_world : World :=
  {| database := empty_database;
     objectStore := {[ "abc123/contract.pdf"%string := stub ]};
     objectStoreOnline := false;
     contextHeaders := ∅;
     storageCalls := [] |}.

(** Every upload parses as an encrypted PDF; the object store is the
    configured backend. *)
Definition encrypted_services : Services :=
  {| getOptionalSession := fun _ => None;
     verifyEmbeddingPresignToken := fun _ => None;
     getTeamById := fun _ _ => None;
     PDFDocument_load :=
       fun bytes => Some {| pdf_isEncrypted := true; pdf_normalized := bytes |};
     generateKey := fun name => ("key/" +:+ name)%string;
     NEXT_PUBLIC_UPLOAD_TRANSPORT := Some "s3"%string;
     APP_DOCUMENT_UPLOAD_SIZE_LIMIT := 50 |}.

Definition stub_file : File :=
  {| file_name := "contract";
     file_type := "application/pdf";
     file_contents := stub |}.

(** A configuration that admits no upload at all: the limit is 0 MB. *)
Definition tiny_limit_services : Services :=
  {| getOptionalSession := fun _ => None;
     verifyEmbeddingPresignToken := fun _ => None;
     getTeamById := fun _ _ => None;
     PDFDocument_load := fun _ => None;
     generateKey := fun name => ("key/" +:+ name)%string;
     NEXT_PUBLIC_UPLOAD_TRANSPORT := None;
     APP_DOCUMENT_UPLOAD_SIZE_LIMIT := 0 |}.

(** Three audit-log rows of the envelope [contract]. *)
Definition audit_row (id type : string) (createdAt : Z) : AuditLog.DocumentAuditLog :=
  {| AuditLog.log_id := id;
     AuditLog.log_envelopeId := "envelope_1";
     AuditLog.log_createdAt := createdAt;
     AuditLog.log_type := type;
     AuditLog.log_isResending := false |}.

Definition audit_table : list AuditLog.DocumentAuditLog :=
  [ audit_row "log_a" "DOCUMENT_CREATED" 100;
    audit_row "log_b" "DOCUMENT_SENT" 200;
    audit_row "log_c" "DOCUMENT_OPENED" 300 ].

End Scenario.

Module TokenScenario.

(** A second envelope, whose recipient holds [tok_mallory], next to the
    envelope [contract] with its item [item_1]. *)
Definition other_contract : Envelope :=
  {| envelope_id := "envelope_2";
     envelope_status := PENDING;
     envelope_teamId := 8;
     envelope_qrToken := None;
     envelope_recipients := ["tok_mallory"%string] |}.

Definition two_envelopes_world : World :=
  {| database := {| db_envelopes := [Scenario.contract; other_contract];
                    db_envelopeItems := [Scenario.contract_item];
                    db_documentData := [Scenario.inline_stub] |};
     objectStore := ∅;
     objectStoreOnline := true;
     contextHeaders := ∅;
     storageCalls := [] |}.

End TokenScenario.

Module UploadScenario.
(** Every upload parses as a plain PDF that normalization leaves alone; the
    inline backend is configured. *)
Definition plain_pdf_services : Services :=
  {| getOptionalSession := fun _ => None;
     verifyEmbeddingPresignToken := fun _ => None;
     getTeamById := fun _ _ => None;
     PDFDocument_load :=
       fun bytes => Some {| pdf_isEncrypted := false; pdf_normalized := bytes |};
     generateKey := fun name => ("key/" +:+ name)%string;
     NEXT_PUBLIC_UPLOAD_TRANSPORT := None;
     APP_DOCUMENT_UPLOAD_SIZE_LIMIT := 50 |}.
End UploadScenario.

(** ** E-signature telemetry ([esign-telemetry.ts]) *)

Module Telemetry.

(** The values that travel through the log entry: primitives, [Error]
    objects, and the object without enumerable properties, [{}]. *)
Inductive JsValue : Type :=
| JsString (s : string)
| JsNumber (n : Z)
| JsBoolean (b : bool)
| JsNull
| JsUndefined
| JsError (message : string)
| JsEmptyObject.

Definition truthy (v : JsValue) : bool :=
  match v with
  | JsString s => negb (String.eqb s "")
  | JsNumber n => negb (n =? 0)
  | JsBoolean b => b
  | JsNull | JsUndefined => false
  | JsError _ | JsEmptyObject => true
  end.

(** [String(value)] *)
Definition String_ (v : JsValue) : string :=
  match v with
  | JsString s => s
  | JsNumber n => NilZero.string_of_int (Z.to_int n)
  | JsBoolean true => "true"
  | JsBoolean false => "false"
  | JsNull => "null"
  | JsUndefined => "undefined"
  | JsError message => "Error: " +:+ message
  | JsEmptyObject => "[object Object]"
  end.

(** What [JSON.stringify] writes for the value of a field: nothing for
    [undefined], so that the field is left out; [{}] for an [Error] object,
    whose message and stack are not enumerable; the value itself
    otherwise. *)
Definition JSON_value (v : JsValue) : option JsValue :=
  match v with
  | JsUndefined => None
  | JsError _ => Some JsEmptyObject
  | _ => Some v
  end.

(** [JSON.stringify(object)], as the fields of the object that is written. *)
Definition JSON_stringify (object : gmap string JsValue) : gmap string JsValue :=
  omap JSON_value object.

Inductive Status : Type := ok | error.

Record Options : Type := {
  traceId : string;
  step : string;
  status : option Status;
  orgId : option string;
  userId : option JsValue;
  documentId : option JsValue;
  error_ : option JsValue;
  extra : option (list (string * JsValue))   (* [Object.entries(extra)] *)
}.

(** What reaches the console: a warning, or the text of one JSON object,
    kept as the fields that the text has. *)
Inductive ConsoleEvent : Type :=
| Warn (message : string)
| Log (entry : gmap string JsValue).

(** The key under which a field of [extra] is logged. *)
Definition extra_key (key : string) : string :=
  if startsWith key "esign." || startsWith key "org_" ||
     startsWith key "user_" || startsWith key "document_"
  then key
  else "esign." +:+ key.

(** [Object.entries(extra).reduce(...)], started from [acc]. *)
Definition reduce_extra (entries : list (string * JsValue))
    (acc : gmap string JsValue) : gmap string JsValue :=
  fold_left (fun acc kv => <[extra_key (fst kv) := snd kv]> acc) entries acc.

(** [value && { [key]: f(value) }] spread into [entry]. *)
Definition spread_if (key : string) (value : option JsValue)
    (f : JsValue -> JsValue) (entry : gmap string JsValue) : gmap string JsValue :=
  match value with
  | Some v => if truthy v then <[key := f v]> entry else entry
  | None => entry
  end.

Definition is_error (status : Status) (error : option JsValue) : bool :=
  match status with
  | error => true
  | ok => match error with Some e => truthy e | None => false end
  end.

(** The four name spaces of a log entry. *)
Definition namespaced (key : string) : bool :=
  startsWith key "esign." || startsWith key "org_" ||
  startsWith key "user_" || startsWith key "document_".

Definition keys_namespaced (m : gmap string JsValue) : Prop :=
  forall k, is_Some (m !! k) -> namespaced k = true.

Section Environment.

(** [process.env.DD_SERVICE] and [new Date().toISOString()] *)
Variable DD_SERVICE : option string.
Variable now : string.

Definition logEsignEvent (opts : Options) : ConsoleEvent :=
  let status := default ok (status opts) in
  let extra := default [] (extra opts) in
  if String.eqb (traceId opts) "" then
    Warn "[esignTelemetry] Missing traceId, skipping event"
  else if String.eqb (step opts) "" then
    Warn "[esignTelemetry] Missing step, skipping event"
  else
    let service :=
      match DD_SERVICE with
      | Some s => if String.eqb s "" then "conecta-sign"%string else s
      | None => "conecta-sign"%string
      end in
    let logEntry : gmap string JsValue :=
      reduce_extra extra
        (spread_if "esign.error_message" (error_ opts)
           (fun e => match e with
                     | JsError message => JsString message
                     | _ => JsString (String_ e)
                     end)
           (spread_if "document_id" (documentId opts) (fun v => JsString (String_ v))
              (spread_if "user_id" (userId opts) (fun v => JsString (String_ v))
                 (spread_if "org_id" (JsString <$> orgId opts) (fun v => v)
                    (<["esign.service" := JsString service]>
                       (<["esign.status" :=
                            JsString (match status with
                                      | ok => "ok" | error => "error" end)]>
                          (<["esign.step" := JsString (step opts)]>
                             (<["esign.trace_id" := JsString (traceId opts)]>
                                ∅)))))))) in
    let logMessage :=
      if is_error status (error_ opts)
      then "[E-SIGN ERROR] " +:+ step opts
      else "[E-SIGN] " +:+ step opts in
    Log (JSON_stringify
           (logEntry ∪
            <["message" := JsString logMessage]>
              (<["level" := JsString (if is_error status (error_ opts)
                                      then "ERROR" else "INFO")]>
                 (<["timestamp" := JsString now]> ∅)))).

(** [Date.now()] and [Math.random().toString(36).substr(2, 9)], as text *)
Variable now_ms : string.
Variable random_suffix : string.

Record Sources : Type := {
  src_traceId : option string;
  (** [requestMetadata.traceId], absent also when there is no
      [requestMetadata] or no such field in it *)
  src_requestMetadata_traceId : option string;
  (** [meta?.traceId] *)
  src_meta_traceId : option string
}.

Definition truthy_text (o : option string) : bool :=
  match o with
  | Some s => negb (String.eqb s "")
  | None => false
  end.

Definition extractTraceId (sources : option Sources) : string :=
  let sources :=
    default {| src_traceId := None;
               src_requestMetadata_traceId := None;
               src_meta_traceId := None |} sources in
  if truthy_text (src_traceId sources) then default "" (src_traceId sources)
  else if truthy_text (src_requestMetadata_traceId sources)
       then default "" (src_requestMetadata_traceId sources)
  else if truthy_text (src_meta_traceId sources)
       then default "" (src_meta_traceId sources)
  else "esign_" +:+ now_ms +:+ "_" +:+ random_suffix.

(** The event that [putFileInS3] logs once the upload has returned [key]. *)
Definition s3_upload_event (file : File) (key : string) : ConsoleEvent :=
  let traceId :=
    extractTraceId (Some {| src_traceId := None;
                            src_requestMetadata_traceId := None;
                            src_meta_traceId := None |}) in
  logEsignEvent
    {| traceId := traceId;
       step := "sign_s3_upload_complete";
       status := Some ok;
       orgId := None;
       userId := None;
       documentId := None;
       error_ := None;
       extra := Some [ ("fileName"%string, JsString (file_name file));
                       ("fileSize"%string, JsNumber (file_size file));
                       ("s3Key"%string, JsString key) ] |}.

End Environment.

End Telemetry.

(** ** The callers of [queryAuditLogs] ([find-document-audit-logs.ts]) *)

Module AuditLogApi.

Import AuditLog.

(** The [id] option of [getEnvelopeWhereInput]. *)
Inductive EnvelopeIdOptions : Type :=
| IdDocumentId (id : Z)         (* { type: 'documentId', id } *)
| IdEnvelopeId (id : string).   (* { type: 'envelopeId', id } *)

Inductive EnvelopeType : Type := DOCUMENT | TEMPLATE.

(** [String(n)] for an integer. *)
Definition decimal (n : Z) : string := NilZero.string_of_int (Z.to_int n).

(** [/^\d+$/.test(s)] together with [Number(s)]: the number that a
    non-empty string of decimal digits denotes, and nothing for any other
    string. The number is exact, as [Number] is up to 2^53. *)
Definition legacy_document_id (s : string) : option Z :=
  Z.of_uint <$> NilZero.uint_of_string s.

Section Callers.

Variable parseDocumentAuditLogData : DocumentAuditLog -> option DocumentAuditLog.
Variable table : list DocumentAuditLog.

(** [getEnvelopeWhereInput({ id, type, userId, teamId })], which is not part
    of the sources at hand, followed by [prisma.envelope.findUnique] on the
    where-input that it returns. *)
Variable findEnvelope :
  EnvelopeIdOptions -> option EnvelopeType -> Z -> Z -> Outcome (option Envelope).

Definition query_or_throw (envelope : option Envelope) (page perPage : option Z)
    (orderBy : option OrderBy) (cursor : option string)
    (filterForRecentActivity : option bool) : Outcome FindResult :=
  match envelope with
  | None => Throw (AppError "NOT_FOUND")
  | Some envelope =>
      match queryAuditLogs parseDocumentAuditLogData table envelope page perPage
              orderBy cursor filterForRecentActivity with
      | Some result => Return result
      | None => Throw (JsError "queryAuditLogs")
      end
  end.

Definition findDocumentAuditLogs (userId teamId documentId : Z)
    (page perPage : option Z) (orderBy : option OrderBy)
    (cursor : option string) (filterForRecentActivity : option bool)
  : Outcome FindResult :=
  match findEnvelope (IdDocumentId documentId) (Some DOCUMENT) userId teamId with
  | Throw e => Throw e
  | Return envelope =>
      query_or_throw envelope page perPage orderBy cursor filterForRecentActivity
  end.

Definition findEnvelopeAuditLogs (userId teamId : Z) (envelopeId : string)
    (page perPage : option Z) (orderBy : option OrderBy)
    (cursor : option string) (filterForRecentActivity : option bool)
  : Outcome FindResult :=
  let isLegacyDocumentId := legacy_document_id envelopeId in
  let idConfig :=
    match isLegacyDocumentId with
    | Some number => IdDocumentId number
    | None => IdEnvelopeId envelopeId
    end in
  let type :=
    match isLegacyDocumentId with
    | Some _ => Some DOCUMENT
    | None => None
    end in
  match findEnvelope idConfig type userId teamId with
  | Throw e => Throw e
  | Return envelope =>
      query_or_throw envelope page perPage orderBy cursor filterForRecentActivity
  end.

End Callers.

End AuditLogApi.

(** * Properties *)

(** ** Test vectors *)

Example sha256_constants :
  length Sha256.K = 64%nat /\
  nth 0 Sha256.K 0 = 0x428a2f98 /\ nth 63 Sha256.K 0 = 0xc67178f2 /\
  Sha256.sa Sha256.IV = 0x6a09e667 /\ Sha256.sh Sha256.IV = 0x5be0cd19.
Proof. vm_compute. auto. Qed.

Example sha256_abc :
  Hex.toString (sha256 "abc") =
  "ba7816bf8f01cfea414140de5dae2223b00361a396177a9cb410ff61f20015ad"%string.
Proof. vm_compute. reflexivity. Qed.

Example sha256_empty :
  Hex.toString (sha256 "") =
  "e3b0c44298fc1c149afbf4c8996fb92427ae41e4649b934ca495991b7852b855"%string.
Proof. vm_compute. reflexivity. Qed.

Example sha256_two_blocks :
  Hex.toString
    (sha256 "abcdbcdecdefdefgefghfghighijhijkijkljklmklmnlmnomnopnopq") =
  "248d6a61d20638b8e5c026930c3e6039a33ce45964ff2167f6ecedd419db06c1"%string.
Proof. vm_compute. reflexivity. Qed.

Example base64_encode_foobar :
  Base64.encode (utf8ToBytes "foobar") = "Zm9vYmFy"%string /\
  Base64.encode (utf8ToBytes "fooba") = "Zm9vYmE="%string /\
  Base64.encode (utf8ToBytes "foob") = "Zm9vYg=="%string.
Proof. vm_compute. auto. Qed.

Example base64_decode_strict :
  Base64.decode "Zm9vYg==" = Some (utf8ToBytes "foob") /\
  Base64.decode "Zm9vYh==" = None /\
  Base64.decode "Zm9vYg=" = None /\
  Base64.decode "Zm9v!mFy" = None.
Proof. vm_compute. auto. Qed.

(** A conjunction whose right part may use the left one. *)
Lemma and_use_left (P Q : Prop) : P -> (P -> Q) -> P /\ Q.
Proof. intros p q. exact (conj p (q p)). Defined.

(** ** Bytes and base64 *)

Lemma Z_of_byte_range (b : byte) : 0 <= Z_of_byte b < 256.
Proof.
  unfold Z_of_byte. pose proof (Byte.to_N_bounded b) as H.
  lia.
Qed.

Lemma byte_of_Z_of_byte (b : byte) : byte_of_Z (Z_of_byte b) = b.
Proof.
  unfold byte_of_Z, Z_of_byte.
  pose proof (Z_of_byte_range b) as H. unfold Z_of_byte in H.
  rewrite Z.mod_small by lia. rewrite N2Z.id.
  by rewrite Byte.of_to_N.
Qed.

Lemma lor_shiftl_add (a b k : Z) :
  0 <= k -> 0 <= b < 2 ^ k -> Z.lor (Z.shiftl a k) b = a * 2 ^ k + b.
Proof.
  intros Hk Hb.
  rewrite Z.shiftl_mul_pow2 by lia.
  rewrite <- Z.lxor_lor, <- Z.add_nocarry_lxor; try done.
  all: apply Z.bits_inj'; intros i Hi; rewrite Z.land_spec, Z.bits_0.
  all: destruct (Z.lt_ge_cases i k) as [Hlt|Hge].
  all: try (rewrite Z.mul_pow2_bits_low by lia; done).
  all: rewrite <- (Z.mod_small b (2 ^ k)) by lia.
  all: rewrite (Z.mod_pow2_bits_high b k i) by lia.
  all: apply andb_false_r.
Qed.

Section Base64_roundtrip.
Import Base64.

Lemma sextet_char_inverse (s : Z) :
  0 <= s < 64 ->
  sextet_of_char (char_of_sextet s) = Some s /\ is_pad (char_of_sextet s) = false.
Proof.
  intros Hs.
  assert (Hin : s ∈ seqZ 0 64) by (apply elem_of_seqZ; lia).
  clear Hs. revert s Hin. apply Forall_forall.
  vm_compute. repeat (constructor; [split; reflexivity|]). constructor.
Qed.

Lemma group_add (b0 b1 b2 : Z) :
  0 <= b1 < 256 -> 0 <= b2 < 256 ->
  group b0 b1 b2 = b0 * 65536 + b1 * 256 + b2.
Proof.
  intros H1 H2. unfold group.
  rewrite (lor_shiftl_add b1 b2 8) by lia.
  rewrite (lor_shiftl_add b0 _ 16) by lia. lia.
Qed.

Lemma ungroup_add (s0 s1 s2 s3 : Z) :
  0 <= s1 < 64 -> 0 <= s2 < 64 -> 0 <= s3 < 64 ->
  ungroup s0 s1 s2 s3 = s0 * 262144 + s1 * 4096 + s2 * 64 + s3.
Proof.
  intros H1 H2 H3. unfold ungroup.
  rewrite (lor_shiftl_add s2 s3 6) by lia.
  rewrite (Z.shiftl_mul_pow2 s1 12) by lia.
  rewrite (lor_shiftl_add s0 (s1 * 2 ^ 12) 18) by lia.
  replace (s0 * 2 ^ 18 + s1 * 2 ^ 12) with (Z.shiftl (s0 * 64 + s1) 12)
    by (rewrite Z.shiftl_mul_pow2; lia).
  rewrite (lor_shiftl_add _ (s2 * 2 ^ 6 + s3) 12) by lia. lia.
Qed.

Lemma sextet_div (i n : Z) :
  0 <= i <= 3 -> sextet i n = (n / 2 ^ (18 - 6 * i)) mod 64.
Proof.
  intros Hi. unfold sextet.
  rewrite Z.shiftr_div_pow2 by lia.
  change 63 with (Z.ones 6). rewrite Z.land_ones by lia. reflexivity.
Qed.

Lemma octet_div (i n : Z) :
  0 <= i <= 2 -> octet i n = byte_of_Z ((n / 2 ^ (16 - 8 * i)) mod 256).
Proof.
  intros Hi. unfold octet.
  rewrite Z.shiftr_div_pow2 by lia.
  change 255 with (Z.ones 8). rewrite Z.land_ones by lia. reflexivity.
Qed.

Lemma sextet_range (i n : Z) : 0 <= i <= 3 -> 0 <= sextet i n < 64.
Proof. intros Hi. rewrite sextet_div by done. apply Z.mod_pos_bound. lia. Qed.

Lemma group_range (b0 b1 b2 : byte) :
  0 <= group (Z_of_byte b0) (Z_of_byte b1) (Z_of_byte b2) < 16777216.
Proof.
  pose proof (Z_of_byte_range b0). pose proof (Z_of_byte_range b1).
  pose proof (Z_of_byte_range b2). rewrite group_add by lia. lia.
Qed.

Lemma regroup (n : Z) :
  0 <= n < 16777216 ->
  ungroup (sextet 0 n) (sextet 1 n) (sextet 2 n) (sextet 3 n) = n.
Proof.
  intros Hn.
  rewrite ungroup_add by (apply sextet_range; lia).
  rewrite !sextet_div by lia. change (2 ^ (18 - 6 * 0)) with 262144.
  change (2 ^ (18 - 6 * 1)) with 4096.
  change (2 ^ (18 - 6 * 2)) with 64.
  change (2 ^ (18 - 6 * 3)) with 1.
  Z.div_mod_to_equations. lia.
Qed.

Lemma octets_of_group (b0 b1 b2 : byte) :
  let n := group (Z_of_byte b0) (Z_of_byte b1) (Z_of_byte b2) in
  octet 0 n = b0 /\ octet 1 n = b1 /\ octet 2 n = b2.
Proof.
  intros n. subst n.
  pose proof (Z_of_byte_range b0). pose proof (Z_of_byte_range b1).
  pose proof (Z_of_byte_range b2).
  rewrite !octet_div by lia. rewrite group_add by lia.
  change (2 ^ (16 - 8 * 0)) with 65536.
  change (2 ^ (16 - 8 * 1)) with 256.
  change (2 ^ (16 - 8 * 2)) with 1.
  repeat split.
  - rewrite <- (byte_of_Z_of_byte b0) at 2.
    f_equal. Z.div_mod_to_equations. lia.
  - rewrite <- (byte_of_Z_of_byte b1) at 2.
    f_equal. Z.div_mod_to_equations. lia.
  - rewrite <- (byte_of_Z_of_byte b2) at 2.
    f_equal. Z.div_mod_to_equations. lia.
Qed.

Lemma decode_full_encode (b0 b1 b2 : byte) :
  let n := group (Z_of_byte b0) (Z_of_byte b1) (Z_of_byte b2) in
  decode_full (char_of_sextet (sextet 0 n)) (char_of_sextet (sextet 1 n))
              (char_of_sextet (sextet 2 n)) (char_of_sextet (sextet 3 n))
  = Some [b0; b1; b2].
Proof.
  intros n. unfold decode_full.
  rewrite (proj1 (sextet_char_inverse _ (sextet_range 0 n ltac:(lia)))).
  rewrite (proj1 (sextet_char_inverse _ (sextet_range 1 n ltac:(lia)))).
  rewrite (proj1 (sextet_char_inverse _ (sextet_range 2 n ltac:(lia)))).
  rewrite (proj1 (sextet_char_inverse _ (sextet_range 3 n ltac:(lia)))).
  cbn [mbind option_bind]. rewrite regroup by apply group_range.
  subst n. destruct (octets_of_group b0 b1 b2) as (-> & -> & ->). reflexivity.
Qed.

Lemma decode_last_encode3 (b0 b1 b2 : byte) :
  let n := group (Z_of_byte b0) (Z_of_byte b1) (Z_of_byte b2) in
  decode_last (char_of_sextet (sextet 0 n)) (char_of_sextet (sextet 1 n))
              (char_of_sextet (sextet 2 n)) (char_of_sextet (sextet 3 n))
  = Some [b0; b1; b2].
Proof.
  intros n. unfold decode_last.
  rewrite (proj2 (sextet_char_inverse _ (sextet_range 3 n ltac:(lia)))).
  apply decode_full_encode.
Qed.

Lemma decode_last_encode2 (b0 b1 : byte) :
  let n := group (Z_of_byte b0) (Z_of_byte b1) 0 in
  decode_last (char_of_sextet (sextet 0 n)) (char_of_sextet (sextet 1 n))
              (char_of_sextet (sextet 2 n)) pad_char
  = Some [b0; b1].
Proof.
  intros n. unfold decode_last.
  change (is_pad pad_char) with true. cbv iota.
  rewrite (proj2 (sextet_char_inverse _ (sextet_range 2 n ltac:(lia)))).
  rewrite (proj1 (sextet_char_inverse _ (sextet_range 0 n ltac:(lia)))).
  rewrite (proj1 (sextet_char_inverse _ (sextet_range 1 n ltac:(lia)))).
  rewrite (proj1 (sextet_char_inverse _ (sextet_range 2 n ltac:(lia)))).
  cbn [mbind option_bind].
  pose proof (Z_of_byte_range b0) as R0. pose proof (Z_of_byte_range b1) as R1.
  assert (Hn : n = Z_of_byte b0 * 65536 + Z_of_byte b1 * 256)
    by (subst n; rewrite group_add by lia; lia).
  assert (H3 : sextet 3 n = 0).
  { rewrite sextet_div by lia. change (2 ^ (18 - 6 * 3)) with 1.
    rewrite Hn. Z.div_mod_to_equations. lia. }
  assert (Hlow : Z.land (sextet 2 n) 3 = 0).
  { change 3 with (Z.ones 2). rewrite Z.land_ones by lia.
    rewrite sextet_div by lia. change (2 ^ (18 - 6 * 2)) with 64.
    change (2 ^ 2) with 4. rewrite Hn. Z.div_mod_to_equations. lia. }
  rewrite Hlow. change (0 =? 0) with true. cbv iota.
  pose proof (regroup n ltac:(lia)) as Hu. rewrite H3 in Hu. rewrite Hu.
  subst n. change (group (Z_of_byte b0) (Z_of_byte b1) 0)
    with (group (Z_of_byte b0) (Z_of_byte b1) (Z_of_byte x00)).
  destruct (octets_of_group b0 b1 x00) as (-> & -> & _). reflexivity.
Qed.

Lemma decode_last_encode1 (b0 : byte) :
  let n := group (Z_of_byte b0) 0 0 in
  decode_last (char_of_sextet (sextet 0 n)) (char_of_sextet (sextet 1 n))
              pad_char pad_char
  = Some [b0].
Proof.
  intros n. unfold decode_last.
  change (is_pad pad_char) with true. cbv iota.
  rewrite (proj1 (sextet_char_inverse _ (sextet_range 0 n ltac:(lia)))).
  rewrite (proj1 (sextet_char_inverse _ (sextet_range 1 n ltac:(lia)))).
  cbn [mbind option_bind].
  pose proof (Z_of_byte_range b0) as R0.
  assert (Hn : n = Z_of_byte b0 * 65536)
    by (subst n; rewrite group_add by lia; lia).
  assert (H2 : sextet 2 n = 0).
  { rewrite sextet_div by lia. change (2 ^ (18 - 6 * 2)) with 64.
    rewrite Hn. Z.div_mod_to_equations. lia. }
  assert (H3 : sextet 3 n = 0).
  { rewrite sextet_div by lia. change (2 ^ (18 - 6 * 3)) with 1.
    rewrite Hn. Z.div_mod_to_equations. lia. }
  assert (Hlow : Z.land (sextet 1 n) 15 = 0).
  { change 15 with (Z.ones 4). rewrite Z.land_ones by lia.
    rewrite sextet_div by lia. change (2 ^ (18 - 6 * 1)) with 4096.
    change (2 ^ 4) with 16. rewrite Hn. Z.div_mod_to_equations. lia. }
  rewrite Hlow. change (0 =? 0) with true. cbv iota.
  pose proof (regroup n ltac:(lia)) as Hu. rewrite H2, H3 in Hu. rewrite Hu.
  subst n. change (group (Z_of_byte b0) 0 0)
    with (group (Z_of_byte b0) (Z_of_byte x00) (Z_of_byte x00)).
  destruct (octets_of_group b0 x00 x00) as (-> & _ & _). reflexivity.
Qed.

Lemma encode_chars_nil (bs : list byte) : encode_chars bs = [] -> bs = [].
Proof. destruct bs as [|b0 [|b1 [|b2 rest]]]; simpl; congruence. Qed.

Lemma list_ind3 {A : Type} (P : list A -> Prop) :
  P [] -> (forall a, P [a]) -> (forall a b, P [a; b]) ->
  (forall a b c l, P l -> P (a :: b :: c :: l)) ->
  forall l, P l.
Proof.
  intros H0 H1 H2 H3. fix IH 1.
  intros [|a [|b [|c l]]]; [apply H0 | apply H1 | apply H2 | apply H3, IH].
Qed.

Lemma decode_chars_encode_chars (bs : list byte) :
  decode_chars (encode_chars bs) = Some bs.
Proof.
  induction bs as [|b0|b0 b1|b0 b1 b2 rest IH] using list_ind3.
  - reflexivity.
  - apply decode_last_encode1.
  - apply decode_last_encode2.
  - cbn [encode_chars decode_chars].
    destruct (encode_chars rest) as [|c cs] eqn:E.
    + apply encode_chars_nil in E. subst rest. apply decode_last_encode3.
    + rewrite decode_full_encode. cbn [mbind option_bind].
      rewrite IH. reflexivity.
Qed.

Lemma decode_encode (bs : list byte) : decode (encode bs) = Some bs.
Proof.
  unfold decode, encode. rewrite list_ascii_of_string_of_list_ascii.
  apply decode_chars_encode_chars.
Qed.

End Base64_roundtrip.

(** ** Serving an envelope item *)

Ltac run_monad :=
  unfold mbind, M_bind, mret, M_ret, fmap, M_fmap, catch, throw,
    c_json, c_body, c_header, get_world, record_call in *;
  simpl in *.

Section Handler_facts.

Context (svc : Services).

(** [getFileServerSide] leaves a [CallGet] in the trace and changes nothing
    else. *)
Lemma getFileServerSide_world (type : DocumentDataType) (data : string) (w : World) :
  snd (getFileServerSide type data w) =
  {| database := database w;
     objectStore := objectStore w;
     objectStoreOnline := objectStoreOnline w;
     contextHeaders := contextHeaders w;
     storageCalls := storageCalls w ++ [CallGet type data] |}.
Proof.
  unfold getFileServerSide, mbind, M_bind, record_call. simpl.
  destruct type.
  - destruct (Base64.decode data); reflexivity.
  - unfold get_world. simpl. destruct (objectStoreOnline w); [|reflexivity].
    destruct (objectStore w !! data); reflexivity.
Qed.

Lemma sha256_length (value : string) : length (sha256 value) = 32%nat.
Proof. reflexivity. Qed.

Lemma hex_chars_length (bs : list byte) :
  length (Hex.chars bs) = (2 * length bs)%nat.
Proof. induction bs as [|b bs IH]; simpl; [reflexivity | rewrite IH; lia]. Qed.

Lemma string_of_list_ascii_length (l : list ascii) :
  String.length (string_of_list_ascii l) = length l.
Proof. induction l as [|c l IH]; simpl; [reflexivity | by rewrite IH]. Qed.

Lemma etag_length (documentData : DocumentData) (version : Version) :
  String.length (etag_of documentData version) = 64%nat.
Proof.
  unfold etag_of, Hex.toString.
  rewrite string_of_list_ascii_length, hex_chars_length, sha256_length.
  reflexivity.
Qed.

(** The three ways in which the handler answers. *)
Lemma handle_not_modified title status documentData version isDownload req w :
  req_header req "If-None-Match" = Some (etag_of documentData version) ->
  isDownload = false ->
  handleEnvelopeItemFileRequest title status documentData version isDownload req w
  = (Return {| res_status := 304;
               res_headers := contextHeaders w;
               res_body := BodyNull |}, w).
Proof.
  intros Hinm ->. unfold handleEnvelopeItemFileRequest.
  fold (etag_of documentData version).
  rewrite bool_decide_eq_true_2 by done. reflexivity.
Qed.

Lemma handle_file_missing title status documentData version isDownload req w e w1 :
  ~ (req_header req "If-None-Match" = Some (etag_of documentData version)
     /\ isDownload = false) ->
  getFileServerSide (dd_type documentData)
    (documentDataToUse documentData version) w = (Throw e, w1) ->
  handleEnvelopeItemFileRequest title status documentData version isDownload req w
  = (Return {| res_status := 404;
               res_headers := contextHeaders w1;
               res_body := BodyJson (JError "File not found") |}, w1).
Proof.
  intros Hcond Hget. unfold handleEnvelopeItemFileRequest.
  fold (etag_of documentData version).
  destruct (bool_decide _ && negb isDownload) eqn:Hb.
  - apply andb_prop in Hb as [Hd Hn]. apply bool_decide_eq_true_1 in Hd.
    destruct isDownload; [discriminate|]. exfalso. by apply Hcond.
  - run_monad. rewrite Hget. reflexivity.
Qed.

Lemma handle_file_served title status documentData version isDownload req w file w1 :
  ~ (req_header req "If-None-Match" = Some (etag_of documentData version)
     /\ isDownload = false) ->
  getFileServerSide (dd_type documentData)
    (documentDataToUse documentData version) w = (Return file, w1) ->
  exists resp w',
    handleEnvelopeItemFileRequest title status documentData version isDownload req w
    = (Return resp, w') /\
    res_status resp = 200 /\
    res_body resp = BodyBytes file /\
    res_headers resp = contextHeaders w' /\
    storageCalls w' = storageCalls w1 /\
    res_headers resp !! "ETag" = Some (etag_of documentData version) /\
    res_headers resp !! "Content-Type" = Some "application/pdf" /\
    res_headers resp !! "Cache-Control" = Some (cache_control_policy status isDownload) /\
    (isDownload = true ->
       res_headers resp !! "Pragma" = Some "no-cache" /\
       res_headers resp !! "Expires" = Some "0").
Proof.
  intros Hcond Hget. unfold handleEnvelopeItemFileRequest.
  fold (etag_of documentData version).
  destruct (bool_decide _ && negb isDownload) eqn:Hb.
  - apply andb_prop in Hb as [Hd Hn]. apply bool_decide_eq_true_1 in Hd.
    destruct isDownload; [discriminate|]. exfalso. by apply Hcond.
  - run_monad. rewrite Hget. unfold cache_control_policy.
    destruct isDownload; [|destruct (is_COMPLETED status)]; simpl;
      eexists _, _; (split; [reflexivity|]); simpl;
      repeat split; try done;
      repeat (rewrite lookup_insert_ne by done); by rewrite ?lookup_insert_eq.
Qed.

Lemma handle_cases title status documentData version isDownload req w :
  let etag := etag_of documentData version in
  let read := getFileServerSide (dd_type documentData)
                (documentDataToUse documentData version) w in
  let h := handleEnvelopeItemFileRequest title status documentData version
             isDownload req w in
  (req_header req "If-None-Match" = Some etag /\ isDownload = false /\
   h = (Return {| res_status := 304; res_headers := contextHeaders w;
                  res_body := BodyNull |}, w))
  \/
  (~ (req_header req "If-None-Match" = Some etag /\ isDownload = false) /\
   exists e w1, read = (Throw e, w1) /\
     h = (Return {| res_status := 404; res_headers := contextHeaders w1;
                    res_body := BodyJson (JError "File not found") |}, w1))
  \/
  (~ (req_header req "If-None-Match" = Some etag /\ isDownload = false) /\
   exists file w1 resp w', read = (Return file, w1) /\
     h = (Return resp, w') /\ res_status resp = 200 /\
     res_body resp = BodyBytes file /\
     storageCalls w' = storageCalls w1 /\
     res_headers resp !! "ETag" = Some etag /\
     res_headers resp !! "Cache-Control" = Some (cache_control_policy status isDownload) /\
     (isDownload = true ->
        res_headers resp !! "Pragma" = Some "no-cache" /\
        res_headers resp !! "Expires" = Some "0")).
Proof.
  intros etag read h.
  destruct (decide (req_header req "If-None-Match" = Some etag /\ isDownload = false))
    as [[Hinm Hd]|Hcond].
  - left. repeat split; try done. by apply handle_not_modified.
  - right. subst read h.
    destruct (getFileServerSide (dd_type documentData)
                (documentDataToUse documentData version) w)
      as [[file|e] w1] eqn:Hread.
    + right. split; [done|].
      destruct (handle_file_served title status documentData version isDownload
                  req w file w1 Hcond Hread)
        as (resp & w' & Hh & H200 & Hbody & _ & Hcalls & Hetag & _ & Hcc & Hdl).
      by exists file, w1, resp, w'.
    + left. split; [done|]. exists e, w1. split; [done|].
      by eapply handle_file_missing.
Qed.

(** C1 (amended). A 200 response of [handleEnvelopeItemFileRequest] carries
    as its ETag the SHA-256, in 64 lower-case hexadecimal characters, of the
    stored string that selects the bytes, [documentData.data] for the signed
    version and [documentData.initialData] for the original: the base64
    text under the inline backend, the storage key under the object store. *)
Theorem etag_is_hash_of_stored_string
    title status documentData version isDownload req w resp w' :
  handleEnvelopeItemFileRequest title status documentData version isDownload req w
    = (Return resp, w') ->
  res_status resp = 200 ->
  res_headers resp !! "ETag"
    = Some (fingerprint (utf8ToBytes (documentDataToUse documentData version))) /\
  String.length (fingerprint (utf8ToBytes (documentDataToUse documentData version)))
    = 64%nat.
Proof.
  intros Hh H200. split; [|apply (etag_length documentData version)].
  destruct (handle_cases title status documentData version isDownload req w)
    as [(_ & _ & H) | [(_ & e & w1 & _ & H) | (_ & file & w1 & r & w2 & _ & H & _ & _ & _ & Hetag & _)]];
    rewrite H in Hh; inversion Hh; subst; try discriminate.
  exact Hetag.
Qed.

(** C2 (amended). The handler always answers; the answer is 304 exactly when
    the [If-None-Match] header equals the ETag that the handler sends, the
    hex SHA-256 of the stored string selected by the version (not the
    fingerprint of the bytes served), and the request is not a download, and
    then the body is empty; a download whose bytes can be read is answered
    200 with those bytes, whatever the header says. *)
Theorem not_modified_iff_match_and_view
    title status documentData version isDownload req w :
  exists resp w',
    handleEnvelopeItemFileRequest title status documentData version isDownload req w
      = (Return resp, w') /\
    (res_status resp = 304 <->
       req_header req "If-None-Match"
         = Some (fingerprint (utf8ToBytes (documentDataToUse documentData version))) /\
       isDownload = false) /\
    (res_status resp = 304 -> res_body resp = BodyNull) /\
    (isDownload = true ->
     forall file w1,
       getFileServerSide (dd_type documentData)
         (documentDataToUse documentData version) w = (Return file, w1) ->
       res_status resp = 200 /\ res_body resp = BodyBytes file).
Proof.
  change (fingerprint (utf8ToBytes (documentDataToUse documentData version)))
    with (etag_of documentData version).
  destruct (handle_cases title status documentData version isDownload req w)
    as [(Hinm & Hd & H) | [(Hn & e & w1 & Hr & H) | (Hn & file & w1 & r & w2 & Hr & H & H200 & Hbody & _)]].
  - eexists _, _. split; [exact H|]. simpl. repeat split; try done; congruence.
  - eexists _, _. split; [exact H|]. simpl. repeat split; try done; congruence.
  - exists r, w2. split; [exact H|]. rewrite H200.
    repeat split; try done; try tauto; congruence.
Qed.

(** C4. On a 200 response the [Cache-Control] header is the policy that the
    table gives for the envelope status and [isDownload], and a download
    also carries [Pragma: no-cache] and [Expires: 0]. *)
Theorem cache_control_by_status_and_download
    title status documentData version isDownload req w resp w' :
  handleEnvelopeItemFileRequest title status documentData version isDownload req w
    = (Return resp, w') ->
  res_status resp = 200 ->
  res_headers resp !! "Cache-Control"
    = Some (match isDownload, status with
            | true, _ => "no-cache, no-store, must-revalidate"
            | false, COMPLETED => "public, max-age=31536000, immutable"
            | false, _ => "public, max-age=0, must-revalidate"
            end) /\
  (isDownload = true ->
     res_headers resp !! "Pragma" = Some "no-cache" /\
     res_headers resp !! "Expires" = Some "0").
Proof.
  intros Hh H200.
  destruct (handle_cases title status documentData version isDownload req w)
    as [(_ & _ & H) | [(_ & e & w1 & _ & H) | (_ & file & w1 & r & w2 & _ & H & _ & _ & _ & _ & Hcc & Hdl)]];
    rewrite H in Hh; inversion Hh; subst; try discriminate.
  split; [|exact Hdl].
  rewrite Hcc. unfold cache_control_policy. by destruct isDownload, status.
Qed.

(** C9. A 304 answer leaves the world as it was: no [getFileServerSide]
    call is recorded and no bytes are read; and the 304 does not depend on
    the world, since the same request is answered 304 in every world. *)
Theorem not_modified_reads_no_storage
    title status documentData version isDownload req w resp w' :
  handleEnvelopeItemFileRequest title status documentData version isDownload req w
    = (Return resp, w') ->
  res_status resp = 304 ->
  w' = w /\ storageCalls w' = storageCalls w /\
  forall w2, exists resp2,
    handleEnvelopeItemFileRequest title status documentData version isDownload req w2
      = (Return resp2, w2) /\ res_status resp2 = 304.
Proof.
  intros Hh H304.
  destruct (handle_cases title status documentData version isDownload req w)
    as [(Hinm & Hd & H) | [(_ & e & w1 & _ & H) | (_ & file & w1 & r & w2 & _ & H & H200 & _)]];
    rewrite H in Hh; inversion Hh; subst; try discriminate.
  - repeat split. intros w2. eexists. split.
    + by apply handle_not_modified.
    + reflexivity.
  - rewrite H200 in H304. discriminate.
Qed.

(** C7 (amended). When reading the bytes fails, the handler answers 404 with
    the fixed body [{ error: 'File not found' }], which says nothing about
    the failure; and it never answers anything but 200, 304 or 404. *)
Theorem storage_failure_is_file_not_found
    title status documentData version isDownload req w e w1 :
  ~ (req_header req "If-None-Match" = Some (etag_of documentData version)
     /\ isDownload = false) ->
  getFileServerSide (dd_type documentData)
    (documentDataToUse documentData version) w = (Throw e, w1) ->
  handleEnvelopeItemFileRequest title status documentData version isDownload req w
    = (Return {| res_status := 404;
                 res_headers := contextHeaders w1;
                 res_body := BodyJson (JError "File not found") |}, w1) /\
  forall w2 resp2 w2',
    handleEnvelopeItemFileRequest title status documentData version isDownload req w2
      = (Return resp2, w2') ->
    res_status resp2 = 200 \/ res_status resp2 = 304 \/ res_status resp2 = 404.
Proof.
  intros Hcond Hget. split; [by apply (handle_file_missing _ _ _ _ _ _ _ e)|].
  intros w2 resp2 w2' Hh.
  destruct (handle_cases title status documentData version isDownload req w2)
    as [(_ & _ & H) | [(_ & e' & w3 & _ & H) | (_ & file & w3 & r & w4 & _ & H & H200 & _)]];
    rewrite H in Hh; inversion Hh; subst; auto.
Qed.

End Handler_facts.

(** C1, counterexample. Under the inline backend the ten stored bytes come
    back with status 200, and the ETag is not the fingerprint of these
    bytes. *)
Lemma etag_is_not_fingerprint_of_served_bytes :
  exists resp w',
    handleEnvelopeItemFileRequest "stub.pdf" DRAFT Scenario.inline_stub signed
      false Scenario.plain_request Scenario.empty_world = (Return resp, w') /\
    res_status resp = 200 /\
    res_body resp = BodyBytes Scenario.stub /\
    res_headers resp !! "ETag" <> Some (fingerprint Scenario.stub).
Proof.
  destruct (handle_file_served "stub.pdf" DRAFT Scenario.inline_stub signed false
              Scenario.plain_request Scenario.empty_world Scenario.stub
              (snd (getFileServerSide BYTES_64 (Base64.encode Scenario.stub)
                      Scenario.empty_world)))
    as (resp & w' & Hh & H200 & Hbody & _ & _ & Hetag & _).
  - intros [H _]. vm_compute in H. discriminate.
  - vm_compute. reflexivity.
  - exists resp, w'. repeat split; try done.
    rewrite Hetag. intros H. vm_compute in H. discriminate.
Qed.

(** C2, counterexample. A view request presents the fingerprint of the ten
    bytes that the handler serves: the ETag is the hash of their base64 text,
    so the request is answered 200 with the full body, not 304. *)
Lemma fingerprint_of_served_bytes_is_not_answered_304 :
  let req := {| req_headers :=
                  {[ "If-None-Match"%string := fingerprint Scenario.stub ]};
                req_query := ∅ |} in
  exists resp w',
    handleEnvelopeItemFileRequest "stub.pdf" PENDING Scenario.inline_stub signed
      false req Scenario.empty_world = (Return resp, w') /\
    res_body resp = BodyBytes Scenario.stub /\
    req_header req "If-None-Match" = Some (fingerprint Scenario.stub) /\
    res_status resp = 200 /\
    res_status resp <> 304.
Proof.
  intros req. eexists _, _. split; [vm_compute; reflexivity|].
  repeat split. simpl. discriminate.
Qed.

Lemma etag_is_hash_of_stored_string_witness :
  exists resp w',
    handleEnvelopeItemFileRequest "stub.pdf" DRAFT Scenario.inline_stub signed
      false Scenario.plain_request Scenario.empty_world = (Return resp, w') /\
    res_status resp = 200 /\
    res_headers resp !! "ETag"
      = Some (fingerprint (utf8ToBytes (Base64.encode Scenario.stub))) /\
    String.length (fingerprint (utf8ToBytes (Base64.encode Scenario.stub)))
      = 64%nat.
Proof.
  eexists _, _. apply and_assoc. apply and_use_left.
  - split; [vm_compute; reflexivity | reflexivity].
  - intros [H1 H2].
    exact (etag_is_hash_of_stored_string _ _ _ _ _ _ _ _ _ H1 H2).
Defined.

Lemma cache_control_by_status_and_download_witness :
  exists resp w',
    handleEnvelopeItemFileRequest "stub.pdf" COMPLETED Scenario.inline_stub
      signed false Scenario.plain_request Scenario.empty_world
      = (Return resp, w') /\
    res_status resp = 200 /\
    res_headers resp !! "Cache-Control"
      = Some "public, max-age=31536000, immutable"%string /\
    (false = true ->
       res_headers resp !! "Pragma" = Some "no-cache"%string /\
       res_headers resp !! "Expires" = Some "0"%string).
Proof.
  eexists _, _. apply and_assoc. apply and_use_left.
  - split; [vm_compute; reflexivity | reflexivity].
  - intros [H1 H2].
    exact (cache_control_by_status_and_download _ _ _ _ _ _ _ _ _ H1 H2).
Defined.

(** A view request that presents the current ETag. *)
Lemma not_modified_reads_no_storage_witness :
  let req := {| req_headers :=
                  {[ "If-None-Match"%string := etag_of Scenario.inline_stub signed ]};
                req_query := ∅ |} in
  exists resp w',
    handleEnvelopeItemFileRequest "stub.pdf" PENDING Scenario.inline_stub
      signed false req Scenario.empty_world = (Return resp, w') /\
    res_status resp = 304 /\
    w' = Scenario.empty_world /\
    storageCalls w' = storageCalls Scenario.empty_world /\
    forall w2, exists resp2,
      handleEnvelopeItemFileRequest "stub.pdf" PENDING Scenario.inline_stub
        signed false req w2 = (Return resp2, w2) /\ res_status resp2 = 304.
Proof.
  intros req. eexists _, _. apply and_assoc. apply and_use_left.
  - split; [vm_compute; reflexivity | reflexivity].
  - intros [H1 H2].
    exact (not_modified_reads_no_storage _ _ _ _ _ _ _ _ _ H1 H2).
Defined.

(** C7, counterexample. The object is in the store but the store cannot be
    reached: the read fails, and the answer is 404, not 500. *)
Lemma storage_failure_is_not_answered_500 :
  exists e w1 resp w',
    getFileServerSide S3_PATH "abc123/contract.pdf" Scenario.offline_world
      = (Throw e, w1) /\
    handleEnvelopeItemFileRequest "contract.pdf" PENDING Scenario.stored_object
      signed false Scenario.plain_request Scenario.offline_world
      = (Return resp, w') /\
    res_status resp = 404 /\
    res_status resp <> 500.
Proof.
  eexists _, _, _, _. split; [|split; [|split]].
  - vm_compute. reflexivity.
  - vm_compute. reflexivity.
  - reflexivity.
  - simpl. discriminate.
Qed.

Lemma storage_failure_is_file_not_found_witness :
  exists w1,
    handleEnvelopeItemFileRequest "contract.pdf" PENDING Scenario.stored_object
      signed true Scenario.plain_request Scenario.offline_world
    = (Return {| res_status := 404;
                 res_headers := contextHeaders w1;
                 res_body := BodyJson (JError "File not found") |}, w1) /\
    forall w2 resp2 w2',
      handleEnvelopeItemFileRequest "contract.pdf" PENDING Scenario.stored_object
        signed true Scenario.plain_request w2 = (Return resp2, w2') ->
      res_status resp2 = 200 \/ res_status resp2 = 304 \/ res_status resp2 = 404.
Proof.
  eexists.
  apply (storage_failure_is_file_not_found "contract.pdf" PENDING
           Scenario.stored_object signed true Scenario.plain_request
           Scenario.offline_world (JsError "network failure")).
  - intros [_ H]. discriminate H.
  - vm_compute. reflexivity.
Defined.

(** ** The retrieval routes *)

Lemma find_none_of_all_false {A : Type} (f : A -> bool) (l : list A) :
  (forall x, In x l -> f x = false) -> List.find f l = None.
Proof.
  induction l as [|x l IH]; intros H; simpl; [reflexivity|].
  rewrite (H x) by (left; reflexivity).
  apply IH. intros y Hy. apply H. right. exact Hy.
Qed.

Lemma envelope_of_In (db : Database) (i : EnvelopeItem) (e : Envelope) :
  envelope_of db i = Some e ->
  In e (db_envelopes db) /\ envelope_id e = item_envelopeId i.
Proof.
  unfold envelope_of. intros H. apply find_some in H as [Hin Heq].
  split; [exact Hin|]. by apply String.eqb_eq.
Qed.

(** What a hit of the token query means: the item has the requested id, and
    its own envelope lists the token among its recipients. *)
Lemma envelopeItem_findUnique_recipient db envelopeItemId token i e :
  envelopeItem_findUnique db envelopeItemId (WhereRecipientToken token) = Some (i, e) ->
  In i (db_envelopeItems db) /\ item_id i = envelopeItemId /\
  In e (db_envelopes db) /\ envelope_id e = item_envelopeId i /\
  In token (envelope_recipients e).
Proof.
  unfold envelopeItem_findUnique. intros H.
  destruct (List.find _ (db_envelopeItems db)) as [i'|] eqn:Hfind; [|discriminate].
  simpl in H. destruct (envelope_of db i') as [e'|] eqn:He; [|discriminate].
  simpl in H. inversion H; subst i' e'. clear H.
  apply find_some in Hfind as [Hin Hhit]. rewrite He in Hhit.
  apply andb_prop in Hhit as [Hid Hm].
  apply envelope_of_In in He as [HeIn HeId].
  repeat split; try done.
  - by apply String.eqb_eq.
  - simpl in Hm. apply existsb_exists in Hm as (t & Ht & Heq).
    apply String.eqb_eq in Heq. by subst t.
Qed.

Lemma envelopeItem_findUnique_none db envelopeItemId q :
  (forall e, In e (db_envelopes db) -> envelope_matches q e = false) ->
  envelopeItem_findUnique db envelopeItemId q = None.
Proof.
  intros H. unfold envelopeItem_findUnique.
  rewrite find_none_of_all_false; [reflexivity|].
  intros i _. destruct (envelope_of db i) as [e|] eqn:He.
  - apply envelope_of_In in He as [Hin _]. rewrite (H e Hin). apply andb_false_r.
  - apply andb_false_r.
Qed.

Lemma envelopeItem_findUnique_not_accepted db envelopeItemId q :
  (forall i e, In i (db_envelopeItems db) -> item_id i = envelopeItemId ->
               envelope_of db i = Some e -> envelope_matches q e = false) ->
  envelopeItem_findUnique db envelopeItemId q = None.
Proof.
  intros H. unfold envelopeItem_findUnique.
  rewrite find_none_of_all_false; [reflexivity|].
  intros i Hi. destruct (String.eqb (item_id i) envelopeItemId) eqn:Hid;
    [|reflexivity].
  apply String.eqb_eq in Hid. simpl.
  destruct (envelope_of db i) as [e|] eqn:He; [|reflexivity].
  by apply (H i e).
Qed.

Section Route_facts.

Context (svc : Services).

Lemma serve_for_token_not_accepted token envelopeItemId version isDownload req w :
  (forall i e, In i (db_envelopeItems (database w)) ->
               item_id i = envelopeItemId ->
               envelope_of (database w) i = Some e ->
               envelope_matches (envelopeWhereQuery token) e = false) ->
  exists resp,
    serve_for_token token envelopeItemId version isDownload req w
      = (Return resp, w) /\
    res_status resp = 404 /\
    res_body resp = BodyJson (JError "Envelope item not found").
Proof.
  intros H. unfold serve_for_token. run_monad.
  rewrite envelopeItem_findUnique_not_accepted by exact H.
  eexists. by repeat split.
Qed.

Lemma serve_for_user_forbidden userId envelopeId envelopeItemId version isDownload
    req w envelope envelopeItem rest :
  envelope_findFirst (database w) envelopeId envelopeItemId
    = Some (envelope, envelopeItem :: rest) ->
  getTeamById svc userId (envelope_teamId envelope) = None ->
  exists resp,
    serve_for_user svc userId envelopeId envelopeItemId version isDownload req w
      = (Return resp, w) /\
    res_status resp = 403.
Proof.
  intros Hfind Hteam. unfold serve_for_user. run_monad. rewrite Hfind, Hteam.
  eexists. by split.
Qed.

Lemma serve_for_token_served token envelopeItemId version isDownload req w
    envelopeItem envelope documentData file w1 :
  startsWith token "qr_" = false ->
  envelopeItem_findUnique (database w) envelopeItemId (WhereRecipientToken token)
    = Some (envelopeItem, envelope) ->
  item_documentData envelopeItem = Some documentData ->
  ~ (req_header req "If-None-Match" = Some (etag_of documentData version)
     /\ isDownload = false) ->
  getFileServerSide (dd_type documentData)
    (documentDataToUse documentData version) w = (Return file, w1) ->
  exists resp w',
    serve_for_token token envelopeItemId version isDownload req w
      = (Return resp, w') /\
    res_status resp = 200 /\ res_body resp = BodyBytes file.
Proof.
  intros Hqr Hfind Hdd Hinm Hget.
  unfold serve_for_token, envelopeWhereQuery. rewrite Hqr.
  unfold mbind at 1, M_bind at 1, get_world at 1. simpl.
  rewrite Hfind, Hdd.
  destruct (handle_file_served (item_title envelopeItem)
              (envelope_status envelope) documentData version isDownload
              req w file w1 Hinm Hget)
    as (resp & w' & Hh & H200 & Hbody & _).
  by exists resp, w'.
Qed.

(** C3 (amended). On the two session routes a request without a session
    (and, on the view route, without a presign token that verifies) is
    answered 401; on the two token routes a token that the envelope of the
    requested item does not accept, be it a recipient token of another
    envelope, is answered 404 and never 401; on the two session routes a
    signed-in user who is not a member of the team of an existing envelope
    and item is answered 403 (on the view route when the request carries no
    token); on the two token routes a recipient token that the query accepts,
    for an item whose bytes can be read, is answered 200 with those bytes (on
    the view route when the request does not present the ETag). *)
Theorem authorization_outcomes :
  (forall envelopeId envelopeItemId req w,
     getOptionalSession svc req = None ->
     (forall t, req_query req !! "token" = Some t ->
                verifyEmbeddingPresignToken svc t = None) ->
     exists resp,
       get_envelope_item svc envelopeId envelopeItemId req w = (Return resp, w) /\
       res_status resp = 401 /\ res_body resp = BodyJson (JError "Unauthorized"))
  /\
  (forall envelopeId envelopeItemId version req w,
     getOptionalSession svc req = None ->
     exists resp,
       get_envelope_item_download svc envelopeId envelopeItemId version req w
         = (Return resp, w) /\
       res_status resp = 401 /\ res_body resp = BodyJson (JError "Unauthorized"))
  /\
  (forall token envelopeItemId req w,
     (forall i e, In i (db_envelopeItems (database w)) ->
                  item_id i = envelopeItemId ->
                  envelope_of (database w) i = Some e ->
                  envelope_matches (envelopeWhereQuery token) e = false) ->
     exists resp,
       get_token_item token envelopeItemId req w = (Return resp, w) /\
       res_status resp = 404 /\
       res_body resp = BodyJson (JError "Envelope item not found"))
  /\
  (forall token envelopeItemId version req w,
     (forall i e, In i (db_envelopeItems (database w)) ->
                  item_id i = envelopeItemId ->
                  envelope_of (database w) i = Some e ->
                  envelope_matches (envelopeWhereQuery token) e = false) ->
     exists resp,
       get_token_item_download token envelopeItemId version req w
         = (Return resp, w) /\
       res_status resp = 404 /\
       res_body resp = BodyJson (JError "Envelope item not found"))
  /\
  (forall envelopeId envelopeItemId req w user envelope envelopeItem rest,
     getOptionalSession svc req = Some user ->
     user_id user <> 0 ->
     truthy_string (req_query req !! "token") = false ->
     envelope_findFirst (database w) envelopeId envelopeItemId
       = Some (envelope, envelopeItem :: rest) ->
     getTeamById svc (user_id user) (envelope_teamId envelope) = None ->
     exists resp,
       get_envelope_item svc envelopeId envelopeItemId req w = (Return resp, w) /\
       res_status resp = 403)
  /\
  (forall envelopeId envelopeItemId version req w user envelope envelopeItem rest,
     getOptionalSession svc req = Some user ->
     envelope_findFirst (database w) envelopeId envelopeItemId
       = Some (envelope, envelopeItem :: rest) ->
     getTeamById svc (user_id user) (envelope_teamId envelope) = None ->
     exists resp,
       get_envelope_item_download svc envelopeId envelopeItemId version req w
         = (Return resp, w) /\
       res_status resp = 403)
  /\
  (forall token envelopeItemId req w envelopeItem envelope documentData file w1,
     startsWith token "qr_" = false ->
     envelopeItem_findUnique (database w) envelopeItemId (WhereRecipientToken token)
       = Some (envelopeItem, envelope) ->
     item_documentData envelopeItem = Some documentData ->
     req_header req "If-None-Match" <> Some (etag_of documentData signed) ->
     getFileServerSide (dd_type documentData) (dd_data documentData) w
       = (Return file, w1) ->
     exists resp w',
       get_token_item token envelopeItemId req w = (Return resp, w') /\
       res_status resp = 200 /\ res_body resp = BodyBytes file)
  /\
  (forall token envelopeItemId version req w envelopeItem envelope documentData
          file w1,
     startsWith token "qr_" = false ->
     envelopeItem_findUnique (database w) envelopeItemId (WhereRecipientToken token)
       = Some (envelopeItem, envelope) ->
     item_documentData envelopeItem = Some documentData ->
     getFileServerSide (dd_type documentData)
       (documentDataToUse documentData version) w = (Return file, w1) ->
     exists resp w',
       get_token_item_download token envelopeItemId version req w
         = (Return resp, w') /\
       res_status resp = 200 /\ res_body resp = BodyBytes file).
Proof.
  repeat apply conj.
  - intros envelopeId envelopeItemId req w Hs Htok.
    unfold get_envelope_item. rewrite Hs.
    destruct (req_query req !! "token") as [t|] eqn:Hq; simpl.
    + rewrite (Htok t eq_refl).
      destruct (negb (String.eqb t "")); eexists; by repeat split.
    + eexists. by repeat split.
  - intros envelopeId envelopeItemId version req w Hs.
    unfold get_envelope_item_download. rewrite Hs. eexists. by repeat split.
  - intros token envelopeItemId req w H.
    by apply serve_for_token_not_accepted.
  - intros token envelopeItemId version req w H.
    by apply serve_for_token_not_accepted.
  - intros envelopeId envelopeItemId req w user envelope envelopeItem rest
      Hs Hid Htok Hfind Hteam.
    unfold get_envelope_item. rewrite Hs, Htok. simpl.
    rewrite (proj2 (Z.eqb_neq _ _) Hid).
    by eapply serve_for_user_forbidden.
  - intros envelopeId envelopeItemId version req w user envelope envelopeItem rest
      Hs Hfind Hteam.
    unfold get_envelope_item_download. rewrite Hs.
    by eapply serve_for_user_forbidden.
  - intros token envelopeItemId req w envelopeItem envelope documentData file w1
      Hqr Hfind Hdd Hinm Hget.
    apply (serve_for_token_served token envelopeItemId signed false req w
             envelopeItem envelope documentData file w1); try done.
    by intros [? _].
  - intros token envelopeItemId version req w envelopeItem envelope documentData
      file w1 Hqr Hfind Hdd Hget.
    apply (serve_for_token_served token envelopeItemId version true req w
             envelopeItem envelope documentData file w1); try done.
    by intros [_ ?].
Qed.

End Route_facts.

(** C3, counterexample. Nobody is signed in, the request carries no presign
    token, and [tok_mallory] is not a recipient token of the envelope: the
    token route answers 404, not 401. *)
Lemma unknown_recipient_token_is_answered_404 :
  getOptionalSession Scenario.no_services Scenario.plain_request = None /\
  req_query Scenario.plain_request !! "token" = None /\
  ~ In "tok_mallory"%string (envelope_recipients Scenario.contract) /\
  exists resp w',
    get_token_item "tok_mallory" "item_1" Scenario.plain_request
      Scenario.signing_world = (Return resp, w') /\
    res_status resp = 404 /\
    res_status resp <> 401.
Proof.
  repeat split; try reflexivity.
  - simpl. intros [H|[]]. discriminate.
  - eexists _, _. split; [vm_compute; reflexivity|]. split; [reflexivity|].
    simpl. discriminate.
Qed.

Lemma authorization_outcomes_witness :
  (exists resp,
     get_envelope_item Scenario.no_services "envelope_1" "item_1"
       Scenario.plain_request Scenario.signing_world
       = (Return resp, Scenario.signing_world) /\ res_status resp = 401) /\
  (exists resp,
     get_token_item "tok_mallory" "item_1" Scenario.plain_request
       TokenScenario.two_envelopes_world
       = (Return resp, TokenScenario.two_envelopes_world) /\
     res_status resp = 404) /\
  (exists resp,
     get_envelope_item Scenario.outsider_services "envelope_1" "item_1"
       Scenario.plain_request Scenario.signing_world
       = (Return resp, Scenario.signing_world) /\ res_status resp = 403) /\
  (exists resp,
     get_envelope_item_download Scenario.outsider_services "envelope_1" "item_1"
       original Scenario.plain_request Scenario.signing_world
       = (Return resp, Scenario.signing_world) /\ res_status resp = 403) /\
  (exists resp w',
     get_token_item "tok_alice" "item_1" Scenario.plain_request
       Scenario.signing_world = (Return resp, w') /\
     res_status resp = 200 /\ res_body resp = BodyBytes Scenario.stub).
Proof.
  destruct (authorization_outcomes Scenario.no_services)
    as (H401 & _ & H404 & _ & _ & _ & H200 & _).
  destruct (authorization_outcomes Scenario.outsider_services)
    as (_ & _ & _ & _ & H403 & H403d & _ & _).
  repeat apply conj.
  - destruct (H401 "envelope_1"%string "item_1"%string Scenario.plain_request
                Scenario.signing_world) as (resp & Hr & Hs & _).
    + reflexivity.
    + intros t Ht. vm_compute in Ht. discriminate.
    + by exists resp.
  - destruct (H404 "tok_mallory"%string "item_1"%string Scenario.plain_request
                TokenScenario.two_envelopes_world) as (resp & Hr & Hs & _).
    + intros i e [<-|[]] _ He. vm_compute in He. inversion He; subst e.
      reflexivity.
    + by exists resp.
  - apply (H403 _ _ _ _ {| user_id := 3 |} Scenario.contract
             Scenario.contract_item []); try reflexivity.
    simpl. discriminate.
  - apply (H403d _ _ _ _ _ {| user_id := 3 |} Scenario.contract
             Scenario.contract_item []); reflexivity.
  - apply (H200 _ _ _ _ Scenario.contract_item Scenario.contract
             Scenario.inline_stub Scenario.stub
             (snd (getFileServerSide BYTES_64 (Base64.encode Scenario.stub)
                     Scenario.signing_world))).
    + reflexivity.
    + reflexivity.
    + reflexivity.
    + intros H. vm_compute in H. discriminate.
    + vm_compute. reflexivity.
Defined.

(** ** Upload and the storage backends *)

Section Upload_facts.

Context (svc : Services).

Lemma normalizePdf_encrypted (bytes : list byte) (pdf : PdfDocument) (w : World) :
  PDFDocument_load svc bytes = Some pdf ->
  pdf_isEncrypted pdf = true ->
  normalizePdf svc bytes w = (Throw (AppError "INVALID_DOCUMENT_FILE"), w).
Proof. intros Hload Henc. unfold normalizePdf. by rewrite Hload, Henc. Qed.

(** The normalizing upload reaches storage only through a normalization
    that returned. *)
Lemma putNormalized_propagates (file : File) (w : World) (e : Exn) (w1 : World) :
  normalizePdf svc (file_contents file) w = (Throw e, w1) ->
  putNormalizedPdfFileServerSide svc file w = (Throw e, w1).
Proof.
  intros H. unfold putNormalizedPdfFileServerSide.
  unfold mbind at 1, M_bind at 1. by rewrite H.
Qed.

(** C5 (amended). An encrypted PDF makes [putPdfFileServerSide] and
    [putNormalizedPdfFileServerSide] fail with [INVALID_DOCUMENT_FILE] in an
    unchanged world, so that no storage call has been made; [POST
    /upload-pdf] catches the failure and answers 400 for an oversized file
    and otherwise 500 with [{ error: 'Upload failed' }], again in an
    unchanged world. *)
Theorem encrypted_pdf_never_reaches_storage (file : File) (pdf : PdfDocument) (w : World) :
  PDFDocument_load svc (file_contents file) = Some pdf ->
  pdf_isEncrypted pdf = true ->
  putPdfFileServerSide svc file w = (Throw (AppError "INVALID_DOCUMENT_FILE"), w) /\
  putNormalizedPdfFileServerSide svc file w
    = (Throw (AppError "INVALID_DOCUMENT_FILE"), w) /\
  exists resp,
    post_upload_pdf svc (Some file) w = (Return resp, w) /\
    (res_status resp = 400 \/
     res_status resp = 500 /\ res_body resp = BodyJson (JError "Upload failed")).
Proof.
  intros Hload Henc.
  assert (Hnorm : putNormalizedPdfFileServerSide svc file w
                  = (Throw (AppError "INVALID_DOCUMENT_FILE"), w))
    by (apply putNormalized_propagates; by eapply normalizePdf_encrypted).
  repeat split.
  - unfold putPdfFileServerSide. rewrite Hload. run_monad. by rewrite Henc.
  - exact Hnorm.
  - unfold post_upload_pdf, catch.
    destruct (file_size file >? _).
    + eexists. split; [reflexivity|]. by left.
    + unfold mbind, M_bind. rewrite Hnorm.
      eexists. split; [reflexivity|]. by right.
Qed.

(** C8. A missing file and a file larger than the configured number of
    megabytes are answered 400, and the world is as before: nothing was put
    into storage and no row was created. *)
Theorem missing_or_oversized_upload_is_rejected (file : option File) (w : World) :
  (file = None \/
   exists f, file = Some f /\
             file_size f > APP_DOCUMENT_UPLOAD_SIZE_LIMIT svc * 1024 * 1024) ->
  exists resp,
    post_upload_pdf svc file w = (Return resp, w) /\
    res_status resp = 400 /\
    res_body resp = BodyJson (JError (match file with
                                      | None => "No file provided"
                                      | Some _ => "File too large"
                                      end)).
Proof.
  intros [->|(f & -> & Hsize)]; unfold post_upload_pdf, catch.
  - eexists. repeat split.
  - rewrite (proj2 (Z.gtb_gt _ _)) by lia. eexists. repeat split.
Qed.

(** The object-store upload followed by a read. *)
Lemma putFileInS3_get (file : File) (w : World) type data w' :
  putFileInS3 svc file w = (Return (type, data), w') ->
  forall w1, objectStore w1 = objectStore w' ->
             objectStoreOnline w1 = objectStoreOnline w' ->
  fst (getFileServerSide type data w1) = Return (file_contents file).
Proof.
  unfold putFileInS3, uploadS3File. run_monad.
  destruct (objectStoreOnline w) eqn:Hon; [|discriminate].
  intros H. inversion H; subst; clear H. simpl.
  intros w1 Hstore Honline. unfold getFileServerSide. run_monad.
  rewrite Honline, Hstore. by rewrite lookup_insert_eq.
Qed.

Lemma putFileInDatabase_get (file : File) (w : World) type data w' :
  putFileInDatabase file w = (Return (type, data), w') ->
  forall w1, fst (getFileServerSide type data w1) = Return (file_contents file).
Proof.
  unfold putFileInDatabase. run_monad.
  intros H. inversion H; subst; clear H.
  intros w1. unfold getFileServerSide. run_monad.
  by rewrite decode_encode.
Qed.

(** C6. Whichever backend the configuration selects, what [putFileServerSide]
    returns is read back by [getFileServerSide] as the bytes of the file;
    the inline backend always returns, with type [BYTES_64] and the base64
    text of the bytes, and the object-store backend returns whenever the
    store can be reached. *)
Theorem storage_round_trip :
  (forall file w,
     putFileInDatabase file w
     = (Return (BYTES_64, Base64.encode (file_contents file)), w) /\
     fst (getFileServerSide BYTES_64 (Base64.encode (file_contents file)) w)
     = Return (file_contents file))
  /\
  (forall file w,
     objectStoreOnline w = true ->
     exists key w',
       putFileInS3 svc file w = (Return (S3_PATH, key), w') /\
       fst (getFileServerSide S3_PATH key w') = Return (file_contents file))
  /\
  (forall file w type data w',
     putFileServerSide svc file w = (Return (type, data), w') ->
     fst (getFileServerSide type data w') = Return (file_contents file))
  /\
  (forall file w,
     NEXT_PUBLIC_UPLOAD_TRANSPORT svc <> Some "s3"%string \/ objectStoreOnline w = true ->
     exists type data w',
       putFileServerSide svc file w = (Return (type, data), w')).
Proof.
  repeat apply conj.
  - intros file w. split; [reflexivity|].
    by apply (putFileInDatabase_get file w BYTES_64 _ w).
  - intros file w Hon.
    destruct (putFileInS3 svc file w) as [[[t k]|e] w'] eqn:Hput.
    + assert (t = S3_PATH) as ->.
      { revert Hput. unfold putFileInS3, uploadS3File. run_monad.
        rewrite Hon. by intros [= <- _ _]. }
      exists k, w'. split; [reflexivity|]. by eapply putFileInS3_get.
    + revert Hput. unfold putFileInS3, uploadS3File. run_monad.
      rewrite Hon. discriminate.
  - intros file w type data w' Hput.
    unfold putFileServerSide in Hput.
    unfold mbind at 1, M_bind at 1, record_call in Hput. simpl in Hput.
    destruct (NEXT_PUBLIC_UPLOAD_TRANSPORT svc) as [transport|];
      [destruct (String.eqb transport "s3")|].
    + by eapply putFileInS3_get.
    + by eapply putFileInDatabase_get.
    + by eapply putFileInDatabase_get.
  - intros file w Hcfg. unfold putFileServerSide.
    unfold mbind at 1, M_bind at 1, record_call. simpl.
    destruct (NEXT_PUBLIC_UPLOAD_TRANSPORT svc) as [transport|] eqn:Ht;
      [destruct (String.eqb transport "s3") eqn:Hs3|].
    + destruct Hcfg as [Hne|Hon].
      * apply String.eqb_eq in Hs3. by subst transport.
      * unfold putFileInS3, uploadS3File. run_monad. rewrite Hon. by eexists _, _, _.
    + by eexists _, _, _.
    + by eexists _, _, _.
Qed.

End Upload_facts.

(** C5, counterexample. The uploaded file parses as an encrypted PDF; the
    route does not fail with [INVALID_DOCUMENT_FILE] but answers 500 with
    [{ error: 'Upload failed' }]. *)
Lemma upload_route_hides_invalid_document_file :
  exists pdf resp w',
    PDFDocument_load Scenario.encrypted_services
      (file_contents Scenario.stub_file) = Some pdf /\
    pdf_isEncrypted pdf = true /\
    post_upload_pdf Scenario.encrypted_services (Some Scenario.stub_file)
      Scenario.empty_world = (Return resp, w') /\
    res_status resp = 500 /\
    res_body resp = BodyJson (JError "Upload failed") /\
    fst (post_upload_pdf Scenario.encrypted_services (Some Scenario.stub_file)
           Scenario.empty_world)
      <> Throw (AppError "INVALID_DOCUMENT_FILE").
Proof.
  eexists _, _, _. repeat apply conj; try reflexivity.
  vm_compute. discriminate.
Qed.

Lemma encrypted_pdf_never_reaches_storage_witness :
  putPdfFileServerSide Scenario.encrypted_services Scenario.stub_file
    Scenario.empty_world
    = (Throw (AppError "INVALID_DOCUMENT_FILE"), Scenario.empty_world) /\
  putNormalizedPdfFileServerSide Scenario.encrypted_services Scenario.stub_file
    Scenario.empty_world
    = (Throw (AppError "INVALID_DOCUMENT_FILE"), Scenario.empty_world) /\
  exists resp,
    post_upload_pdf Scenario.encrypted_services (Some Scenario.stub_file)
      Scenario.empty_world = (Return resp, Scenario.empty_world) /\
    (res_status resp = 400 \/
     res_status resp = 500 /\ res_body resp = BodyJson (JError "Upload failed")).
Proof.
  apply (encrypted_pdf_never_reaches_storage Scenario.encrypted_services
           Scenario.stub_file
           {| pdf_isEncrypted := true; pdf_normalized := Scenario.stub |}
           Scenario.empty_world).
  - reflexivity.
  - reflexivity.
Defined.

Lemma missing_or_oversized_upload_is_rejected_witness :
  exists resp,
    post_upload_pdf Scenario.tiny_limit_services (Some Scenario.stub_file)
      Scenario.empty_world = (Return resp, Scenario.empty_world) /\
    res_status resp = 400 /\
    res_body resp = BodyJson (JError "File too large").
Proof.
  apply (missing_or_oversized_upload_is_rejected Scenario.tiny_limit_services
           (Some Scenario.stub_file) Scenario.empty_world).
  right. exists Scenario.stub_file. split; [reflexivity|].
  vm_compute. reflexivity.
Defined.

(** ** Audit-log listing *)

Section AuditLog_facts.

Import AuditLog.

Lemma In_insert_sorted leb (x y : DocumentAuditLog) (l : list DocumentAuditLog) :
  In x (insert_sorted leb y l) -> x = y \/ In x l.
Proof.
  induction l as [|z l IH]; simpl.
  - intros [<-|[]]. by left.
  - destruct (leb y z); simpl.
    + intros [<-|H]; [by left | by right].
    + intros [<-|H]; [right; by left|].
      destruct (IH H) as [->|Hin]; [by left | right; by right].
Qed.

Lemma In_sort_rows leb (x : DocumentAuditLog) (l : list DocumentAuditLog) :
  In x (sort_rows leb l) -> In x l.
Proof.
  induction l as [|y l IH]; simpl; [done|].
  intros H. apply In_insert_sorted in H as [->|H]; [by left | right; by apply IH].
Qed.

Lemma In_from_cursor id (x : DocumentAuditLog) (l : list DocumentAuditLog) :
  In x (from_cursor id l) -> In x l.
Proof.
  induction l as [|y l IH]; simpl; [done|].
  destruct (String.eqb (log_id y) id); [done|].
  intros H. right. by apply IH.
Qed.

Lemma In_skipn_In {A : Type} (n : nat) (x : A) (l : list A) :
  In x (skipn n l) -> In x l.
Proof.
  revert l. induction n as [|n IH]; intros [|y l]; simpl; try done.
  intros H. right. by apply IH.
Qed.

Lemma In_firstn_In {A : Type} (n : nat) (x : A) (l : list A) :
  In x (firstn n l) -> In x l.
Proof.
  revert l. induction n as [|n IH]; intros [|y l]; simpl; try done.
  intros [<-|H]; [by left | right; by apply IH].
Qed.

Lemma In_selected table w c d cursor skip (x : DocumentAuditLog) :
  In x (selected table w c d cursor skip) -> In x table.
Proof.
  unfold selected. intros H. apply In_skipn_In in H.
  assert (Hs : In x (sort_rows (order_leb c d) (List.filter (matches w) table))).
  { destruct cursor; [by eapply In_from_cursor | done]. }
  apply In_sort_rows in Hs. by apply filter_In in Hs as [Hs _].
Qed.

Lemma map_throwing_total {A B : Type} (f : A -> option B) (l : list A) :
  (forall x, In x l -> is_Some (f x)) ->
  exists ys, map_throwing f l = Some ys /\ length ys = length l.
Proof.
  induction l as [|x l IH]; intros H; simpl.
  - by exists [].
  - destruct (H x (or_introl eq_refl)) as [y ->].
    destruct IH as (ys & -> & Hlen); [intros z Hz; apply H; by right|].
    exists (y :: ys). simpl. by rewrite Hlen.
Qed.

Lemma nth_error_is_Some {A : Type} (l : list A) (n : nat) :
  (n < length l)%nat -> is_Some (nth_error l n).
Proof.
  intros H. destruct (nth_error l n) eqn:E; [by eexists|].
  apply nth_error_None in E. lia.
Qed.

(** C10. For a page size that is not negative and rows that all pass
    [parseDocumentAuditLogData], [queryAuditLogs] returns; its [data] has at
    most [perPage] entries; [nextCursor] is defined exactly when the query,
    before [take] cuts it, selects more than [perPage] rows; and
    [currentPage] is the larger of [page] and 1. *)
Theorem queryAuditLogs_page
    (parse : DocumentAuditLog -> option DocumentAuditLog)
    (table : list DocumentAuditLog) (envelope : Envelope)
    (page perPage : option Z) (orderBy : option OrderBy)
    (cursor : option string) (filterForRecentActivity : option bool) :
  let page' := default 1 page in
  let perPage' := default 30 perPage in
  let rows :=
    selected table (buildAuditLogWhereClause envelope filterForRecentActivity)
      (default col_createdAt (column <$> orderBy))
      (default desc (direction <$> orderBy))
      (match cursor with
       | Some id => if String.eqb id "" then None else Some id
       | None => None
       end)
      ((Z.max page' 1 - 1) * perPage') in
  0 <= perPage' ->
  (forall row, In row table -> is_Some (parse row)) ->
  exists r,
    queryAuditLogs parse table envelope page perPage orderBy cursor
      filterForRecentActivity = Some r /\
    Z.of_nat (length (r_data r)) <= perPage' /\
    (is_Some (r_nextCursor r) <-> Z.of_nat (length rows) > perPage') /\
    r_currentPage r = Z.max page' 1 /\
    (page' <= 0 -> r_currentPage r = 1).
Proof.
  intros page' perPage' rows Hper Hparse.
  unfold queryAuditLogs. fold page' perPage'.
  unfold findMany. rewrite (proj2 (Z.ltb_ge _ _)) by lia.
  fold rows.
  destruct (map_throwing_total parse (firstn (Z.to_nat (perPage' + 1)) rows))
    as (allParsedData & -> & Hlen).
  { intros x Hx. apply Hparse. apply In_firstn_In in Hx.
    by apply In_selected in Hx. }
  rewrite length_firstn in Hlen.
  destruct (Z.of_nat (length allParsedData) >? perPage') eqn:Hnext.
  - apply Z.gtb_gt in Hnext.
    unfold js_index. rewrite (proj2 (Z.ltb_ge _ _)) by lia.
    destruct (nth_error_is_Some allParsedData (Z.to_nat perPage')) as [row ->];
      [lia|].
    eexists. split; [reflexivity|]. simpl.
    unfold js_slice0. rewrite (proj2 (Z.ltb_ge _ _)) by lia.
    rewrite length_firstn. repeat split; try lia; by eexists.
  - rewrite Z.gtb_ltb in Hnext. apply Z.ltb_ge in Hnext.
    eexists. split; [reflexivity|]. simpl.
    repeat split; try lia.
    intros [? [=]].
Qed.

End AuditLog_facts.

(** Page 0 with two rows per page over three rows: the two newest rows, the
    third as the next cursor, and page 1 reported. *)
Example queryAuditLogs_first_page :
  AuditLog.queryAuditLogs Some Scenario.audit_table Scenario.contract
    (Some 0) (Some 2) None None None
  = Some {| AuditLog.r_data :=
              [ Scenario.audit_row "log_c" "DOCUMENT_OPENED" 300;
                Scenario.audit_row "log_b" "DOCUMENT_SENT" 200 ];
            AuditLog.r_count := 3;
            AuditLog.r_currentPage := 1;
            AuditLog.r_perPage := 2;
            AuditLog.r_totalPages := AuditLog.Finite 2;
            AuditLog.r_nextCursor := Some "log_a"%string |}.
Proof. vm_compute. reflexivity. Qed.

(** A negative page size makes the function throw. *)
Example queryAuditLogs_negative_perPage :
  AuditLog.queryAuditLogs Some Scenario.audit_table Scenario.contract
    (Some 1) (Some (-1)) None None None = None.
Proof. vm_compute. reflexivity. Qed.

Lemma queryAuditLogs_page_witness :
  exists r,
    AuditLog.queryAuditLogs Some Scenario.audit_table Scenario.contract
      (Some 0) (Some 2) None None None = Some r /\
    Z.of_nat (length (AuditLog.r_data r)) <= 2 /\
    (is_Some (AuditLog.r_nextCursor r) <->
     Z.of_nat (length (AuditLog.selected Scenario.audit_table
                         (AuditLog.buildAuditLogWhereClause Scenario.contract None)
                         AuditLog.col_createdAt AuditLog.desc None
                         ((Z.max 0 1 - 1) * 2))) > 2) /\
    AuditLog.r_currentPage r = Z.max 0 1 /\
    (0 <= 0 -> AuditLog.r_currentPage r = 1).
Proof.
  apply (queryAuditLogs_page Some Scenario.audit_table Scenario.contract
           (Some 0) (Some 2) None None None).
  - simpl. lia.
  - intros row _. by eexists.
Defined.

(** ** More on the retrieval routes *)

Section Route_more.

Context (svc : Services).

Lemma handle_status title status documentData version isDownload req w :
  exists resp w',
    handleEnvelopeItemFileRequest title status documentData version isDownload req w
      = (Return resp, w') /\
    (res_status resp = 200 \/ res_status resp = 304 \/ res_status resp = 404).
Proof.
  destruct (handle_cases title status documentData version isDownload req w)
    as [(_ & _ & H) | [(_ & e & w1 & _ & H) | (_ & file & w1 & r & w2 & _ & H & H200 & _)]];
    eexists _, _; (split; [exact H|]); simpl; auto.
Qed.

(** X2. The session routes always answer once the user is known. The
    answer is 403 exactly when the envelope and the item exist and the user
    is not a member of the envelope's team; a missing envelope or item is
    answered 404 before membership is looked at, in an unchanged world. *)
Theorem forbidden_iff_item_exists_without_team
    (userId : Z) (envelopeId envelopeItemId : string) (version : Version)
    (isDownload : bool) (req : Request) (w : World) :
  exists resp w',
    serve_for_user svc userId envelopeId envelopeItemId version isDownload req w
      = (Return resp, w') /\
    (res_status resp = 403 <->
       exists envelope envelopeItem rest,
         envelope_findFirst (database w) envelopeId envelopeItemId
           = Some (envelope, envelopeItem :: rest) /\
         getTeamById svc userId (envelope_teamId envelope) = None) /\
    (envelope_findFirst (database w) envelopeId envelopeItemId = None ->
       res_status resp = 404 /\ w' = w) /\
    (forall envelope,
       envelope_findFirst (database w) envelopeId envelopeItemId
         = Some (envelope, []) ->
       res_status resp = 404 /\ w' = w).
Proof.
  unfold serve_for_user. unfold mbind at 1, M_bind at 1, get_world at 1. simpl.
  destruct (envelope_findFirst (database w) envelopeId envelopeItemId)
    as [[envelope [|envelopeItem rest]]|] eqn:Hfind.
  - eexists _, _. split; [reflexivity|]. simpl. repeat split; try done.
    + intros (? & ? & ? & [=] & _).
  - destruct (getTeamById svc userId (envelope_teamId envelope)) as [[]|] eqn:Hteam.
    + destruct (item_documentData envelopeItem) as [documentData|].
      * destruct (handle_status (item_title envelopeItem) (envelope_status envelope)
                    documentData version isDownload req w)
          as (resp & w' & Hh & Hst).
        exists resp, w'. split; [exact Hh|]. repeat split; try done.
        -- intros H403. rewrite H403 in Hst. by destruct Hst as [|[|]].
        -- intros (e & i & r & [= <- <- <-] & Hnone). congruence.
      * eexists _, _. split; [reflexivity|]. simpl. repeat split; try done.
        intros (e & i & r & [= <- <- <-] & Hnone). congruence.
    + eexists _, _. split; [reflexivity|]. simpl. repeat split; try done.
      intros _. by exists envelope, envelopeItem, rest.
  - eexists _, _. split; [reflexivity|]. simpl. repeat split; try done.
    intros (? & ? & ? & [=] & _).
Qed.

End Route_more.

Lemma envelopeItem_findUnique_hit db envelopeItemId q i e :
  envelopeItem_findUnique db envelopeItemId q = Some (i, e) ->
  In i (db_envelopeItems db) /\ item_id i = envelopeItemId /\
  In e (db_envelopes db) /\ envelope_id e = item_envelopeId i /\
  envelope_matches q e = true.
Proof.
  unfold envelopeItem_findUnique. intros H.
  destruct (List.find _ (db_envelopeItems db)) as [i'|] eqn:Hfind; [|discriminate].
  simpl in H. destruct (envelope_of db i') as [e'|] eqn:He; [|discriminate].
  simpl in H. inversion H; subst i' e'. clear H.
  apply find_some in Hfind as [Hin Hhit]. rewrite He in Hhit.
  apply andb_prop in Hhit as [Hid Hm].
  apply envelope_of_In in He as [HeIn HeId].
  repeat split; try done. by apply String.eqb_eq.
Qed.

Section Token_scope.

(** X3. Whenever a token route answers anything but 404, the item it served
    has the requested id, belongs to an envelope of the store, and that
    envelope accepts the token: as its QR token when the token starts with
    [qr_], as the token of one of its recipients otherwise. The answer is
    that of [handleEnvelopeItemFileRequest] on this item's document data. *)
Theorem token_opens_only_its_own_envelope
    (token envelopeItemId : string) (version : Version) (isDownload : bool)
    (req : Request) (w : World) (resp : Response) (w' : World) :
  serve_for_token token envelopeItemId version isDownload req w = (Return resp, w') ->
  res_status resp <> 404 ->
  exists envelopeItem envelope documentData,
    In envelopeItem (db_envelopeItems (database w)) /\
    item_id envelopeItem = envelopeItemId /\
    In envelope (db_envelopes (database w)) /\
    envelope_id envelope = item_envelopeId envelopeItem /\
    (if startsWith token "qr_"
     then envelope_qrToken envelope = Some token
     else In token (envelope_recipients envelope)) /\
    item_documentData envelopeItem = Some documentData /\
    handleEnvelopeItemFileRequest (item_title envelopeItem)
      (envelope_status envelope) documentData version isDownload req w
      = (Return resp, w').
Proof.
  unfold serve_for_token. unfold mbind at 1, M_bind at 1, get_world at 1. simpl.
  destruct (envelopeItem_findUnique (database w) envelopeItemId
              (envelopeWhereQuery token)) as [[i e]|] eqn:Hfind.
  - destruct (item_documentData i) as [dd|] eqn:Hdd.
    + intros Hh Hst.
      apply envelopeItem_findUnique_hit in Hfind as (Hi & Hid & He & Heid & Hm).
      exists i, e, dd. repeat split; try done.
      unfold envelopeWhereQuery in Hm.
      destruct (startsWith token "qr_"); simpl in Hm.
      * destruct (envelope_qrToken e) as [t|]; [|discriminate].
        apply String.eqb_eq in Hm. by subst t.
      * apply existsb_exists in Hm as (t & Ht & Heq).
        apply String.eqb_eq in Heq. by subst t.
    + intros [= <- <-] Hst. by destruct Hst.
  - intros [= <- <-] Hst. by destruct Hst.
Qed.

End Token_scope.

Section Presign.

(** X1. On the view route a non-empty [token] query parameter replaces the
    session: two configurations that verify the token alike and agree on
    team membership give the same answer whatever their sessions are, and a
    token that does not verify is answered 401 even for a signed-in user. *)
Theorem presign_token_replaces_session
    (svc1 svc2 : Services) (envelopeId envelopeItemId token : string)
    (req : Request) (w : World) :
  req_query req !! "token" = Some token ->
  token <> ""%string ->
  verifyEmbeddingPresignToken svc1 token = verifyEmbeddingPresignToken svc2 token ->
  (forall userId teamId, getTeamById svc1 userId teamId = getTeamById svc2 userId teamId) ->
  get_envelope_item svc1 envelopeId envelopeItemId req w
    = get_envelope_item svc2 envelopeId envelopeItemId req w /\
  (verifyEmbeddingPresignToken svc1 token = None ->
   get_envelope_item svc1 envelopeId envelopeItemId req w
   = (Return {| res_status := 401; res_headers := contextHeaders w;
                res_body := BodyJson (JError "Unauthorized") |}, w)).
Proof.
  intros Hq Hne Hv Ht.
  assert (Htruthy : truthy_string (Some token) = true).
  { simpl. apply negb_true_iff. by apply String.eqb_neq. }
  unfold get_envelope_item. rewrite Hq, Htruthy, <- Hv. split.
  - destruct (verifyEmbeddingPresignToken svc1 token) as [u|]; [|reflexivity].
    destruct (u =? 0); [reflexivity|].
    unfold serve_for_user, mbind, M_bind, get_world.
    destruct (envelope_findFirst _ _ _) as [[e [|i r]]|]; try reflexivity.
    by rewrite Ht.
  - by intros ->.
Qed.

End Presign.

Lemma presign_token_replaces_session_witness :
  let req := {| req_headers := ∅; req_query := {[ "token"%string := "expired"%string ]} |} in
  get_envelope_item Scenario.outsider_services "envelope_1" "item_1" req
      Scenario.signing_world
    = get_envelope_item Scenario.no_services "envelope_1" "item_1" req
        Scenario.signing_world /\
  (verifyEmbeddingPresignToken Scenario.outsider_services "expired" = None ->
   get_envelope_item Scenario.outsider_services "envelope_1" "item_1" req
     Scenario.signing_world
   = (Return {| res_status := 401;
                res_headers := contextHeaders Scenario.signing_world;
                res_body := BodyJson (JError "Unauthorized") |},
      Scenario.signing_world)).
Proof.
  intros req.
  apply (presign_token_replaces_session Scenario.outsider_services
           Scenario.no_services "envelope_1" "item_1" "expired" req
           Scenario.signing_world).
  - reflexivity.
  - discriminate.
  - reflexivity.
  - reflexivity.
Defined.

Lemma token_opens_only_its_own_envelope_witness :
  exists resp w',
    serve_for_token "qr_42" "item_1" signed false Scenario.plain_request
      Scenario.signing_world = (Return resp, w') /\
    res_status resp <> 404 /\
    exists envelopeItem envelope documentData,
      In envelopeItem (db_envelopeItems (database Scenario.signing_world)) /\
      item_id envelopeItem = "item_1"%string /\
      In envelope (db_envelopes (database Scenario.signing_world)) /\
      envelope_id envelope = item_envelopeId envelopeItem /\
      (if startsWith "qr_42" "qr_"
       then envelope_qrToken envelope = Some "qr_42"%string
       else In "qr_42"%string (envelope_recipients envelope)) /\
      item_documentData envelopeItem = Some documentData /\
      handleEnvelopeItemFileRequest (item_title envelopeItem)
        (envelope_status envelope) documentData signed false
        Scenario.plain_request Scenario.signing_world = (Return resp, w').
Proof.
  eexists _, _. apply and_assoc. apply and_use_left.
  - split; [vm_compute; reflexivity | simpl; discriminate].
  - intros [H1 H2].
    exact (token_opens_only_its_own_envelope _ _ _ _ _ _ _ _ H1 H2).
Defined.

(** ** File names *)

Lemma string_length_app (s t : string) :
  String.length (s +:+ t) = (String.length s + String.length t)%nat.
Proof. induction s as [|c s IH]; simpl; [reflexivity | by rewrite IH]. Qed.

Lemma substring_all (t : string) : substring 0 (String.length t) t = t.
Proof. induction t as [|c t IH]; simpl; [reflexivity | by rewrite IH]. Qed.

Lemma substring_app_tail (s t : string) :
  substring (String.length s) (String.length t) (s +:+ t) = t.
Proof. induction s as [|c s IH]; simpl; [apply substring_all | exact IH]. Qed.

Lemma substring_split (k : nat) (t : string) :
  (k <= String.length t)%nat ->
  substring 0 k t +:+ substring k (String.length t - k) t = t.
Proof.
  revert t. induction k as [|k IH]; intros t Hk.
  - rewrite Nat.sub_0_r, substring_all. by destruct t.
  - destruct t as [|c t]; simpl in *; [lia|].
    change (String c (substring 0 k t +:+ substring k (String.length t - k) t)
            = String c t).
    f_equal. apply IH. lia.
Qed.

Lemma endsWith_app (s suffix : string) : endsWith (s +:+ suffix) suffix = true.
Proof.
  unfold endsWith. rewrite string_length_app.
  replace (String.length s + String.length suffix - String.length suffix)%nat
    with (String.length s) by lia.
  rewrite substring_app_tail, String.eqb_refl.
  apply andb_true_iff. split; [|reflexivity]. apply Nat.leb_le. lia.
Qed.

Lemma endsWith_split (t suffix : string) :
  endsWith t suffix = true ->
  substring 0 (String.length t - String.length suffix) t +:+ suffix = t.
Proof.
  unfold endsWith. intros H. apply andb_prop in H as [Hle Heq].
  apply Nat.leb_le in Hle. apply String.eqb_eq in Heq.
  pose proof (substring_split (String.length t - String.length suffix) t
                ltac:(lia)) as H.
  replace (String.length t - (String.length t - String.length suffix))%nat
    with (String.length suffix) in H by lia.
  by rewrite Heq in H.
Qed.

(** X5. The name under which an upload is stored always ends in [.pdf];
    normalizing twice changes nothing, and a name that already ends in
    [.pdf] is kept. *)
Theorem pdf_file_name_normal (name : string) :
  endsWith (pdf_file_name name) ".pdf" = true /\
  pdf_file_name (pdf_file_name name) = pdf_file_name name /\
  (endsWith name ".pdf" = true -> pdf_file_name name = name).
Proof.
  assert (H : endsWith (pdf_file_name name) ".pdf" = true).
  { unfold pdf_file_name. destruct (endsWith name ".pdf") eqn:E; [exact E|].
    apply endsWith_app. }
  repeat split; [exact H | | ].
  - unfold pdf_file_name at 1. by rewrite H.
  - intros E. unfold pdf_file_name. by rewrite E.
Qed.

Lemma strip_then_pdf (title : string) :
  strip_pdf_suffix title +:+ ".pdf" = pdf_file_name title.
Proof.
  unfold strip_pdf_suffix, pdf_file_name.
  destruct (endsWith title ".pdf") eqn:E; [|reflexivity].
  by apply (endsWith_split title ".pdf").
Qed.

(** ** Response headers *)

Lemma handle_served_headers title status documentData version isDownload req w file w1 :
  ~ (req_header req "If-None-Match" = Some (etag_of documentData version)
     /\ isDownload = false) ->
  getFileServerSide (dd_type documentData)
    (documentDataToUse documentData version) w = (Return file, w1) ->
  exists resp w',
    handleEnvelopeItemFileRequest title status documentData version isDownload req w
      = (Return resp, w') /\
    res_status resp = 200 /\
    res_headers resp =
      let base := <["ETag" := etag_of documentData version]>
                    (<["Content-Type" := "application/pdf"]> (contextHeaders w)) in
      if isDownload then
        <["Expires" := "0"]>
          (<["Pragma" := "no-cache"]>
             (<["Cache-Control" := "no-cache, no-store, must-revalidate"]>
                (<["Content-Disposition" :=
                     contentDisposition
                       (match version with
                        | signed => strip_pdf_suffix title +:+ "_signed.pdf"
                        | original => pdf_file_name title
                        end)]> base)))
      else <["Cache-Control" := cache_control_policy status false]> base.
Proof.
  intros Hcond Hget. unfold handleEnvelopeItemFileRequest.
  fold (etag_of documentData version).
  destruct (bool_decide _ && negb isDownload) eqn:Hb.
  - apply andb_prop in Hb as [Hd Hn]. apply bool_decide_eq_true_1 in Hd.
    destruct isDownload; [discriminate|]. exfalso. by apply Hcond.
  - pose proof (getFileServerSide_world (dd_type documentData)
                  (documentDataToUse documentData version) w) as Hw.
    rewrite Hget in Hw. simpl in Hw. subst w1.
    run_monad. rewrite Hget. unfold cache_control_policy.
    destruct isDownload; [|destruct (is_COMPLETED status)]; simpl;
      eexists _, _; (split; [reflexivity|]); simpl; (split; [reflexivity|]);
      try reflexivity.
    destruct version; simpl; [reflexivity|]. by rewrite strip_then_pdf.
Qed.

(** X4. A download that is answered 200 carries a [Content-Disposition]
    header for the title without a final [.pdf] followed by [_signed.pdf]
    for the signed version; for the original version the name is the title
    with [.pdf] ensured, the same name that the upload normalization
    gives. *)
Theorem download_attachment_name
    title status documentData version req w resp w' :
  handleEnvelopeItemFileRequest title status documentData version true req w
    = (Return resp, w') ->
  res_status resp = 200 ->
  res_headers resp !! "Content-Disposition"
    = Some (contentDisposition
              (match version with
               | signed => strip_pdf_suffix title +:+ "_signed.pdf"
               | original => pdf_file_name title
               end)).
Proof.
  intros Hh H200.
  destruct (handle_cases title status documentData version true req w)
    as [(_ & [=] & _) | [(_ & e & w1 & _ & H) | (Hn & file & w1 & r & w2 & Hr & _)]].
  - rewrite H in Hh. inversion Hh; subst. discriminate.
  - destruct (handle_served_headers title status documentData version true req w
                file w1 Hn Hr) as (resp1 & w1' & Hh1 & _ & Hhd).
    rewrite Hh1 in Hh. inversion Hh; subst. rewrite Hhd. simpl.
    repeat (rewrite lookup_insert_ne by done). by rewrite lookup_insert_eq.
Qed.

(** X6. A 304 answer carries the response headers as they were; any answer
    other than 200 leaves every header except [Content-Type], which a JSON
    body brings with it, as it was. A 200 answer changes at most
    [Content-Type], [ETag] and [Cache-Control] and, for a download only,
    [Content-Disposition], [Pragma] and [Expires]; every other header keeps
    its value. *)
Theorem handler_touches_only_its_headers
    title status documentData version isDownload req w resp w' (name : string) :
  handleEnvelopeItemFileRequest title status documentData version isDownload req w
    = (Return resp, w') ->
  (res_status resp = 304 -> res_headers resp = contextHeaders w) /\
  (res_status resp <> 200 -> name <> "Content-Type"%string ->
   res_headers resp !! name = contextHeaders w !! name) /\
  (name <> "Content-Type"%string -> name <> "ETag"%string ->
   name <> "Cache-Control"%string ->
   (isDownload = true ->
    name <> "Content-Disposition"%string /\ name <> "Pragma"%string /\
    name <> "Expires"%string) ->
   res_headers resp !! name = contextHeaders w !! name).
Proof.
  intros Hh.
  destruct (handle_cases title status documentData version isDownload req w)
    as [(_ & _ & H) | [(_ & e & w1 & Hr & H) | (Hn & file & w1 & r & w2 & Hr & _)]].
  - rewrite H in Hh. inversion Hh; subst. simpl. by repeat split.
  - rewrite H in Hh. inversion Hh; subst. simpl.
    pose proof (getFileServerSide_world (dd_type documentData)
                  (documentDataToUse documentData version) w) as Hw.
    rewrite Hr in Hw. simpl in Hw. subst w'. simpl. by repeat split.
  - destruct (handle_served_headers title status documentData version isDownload
                req w file w1 Hn Hr) as (resp1 & w1' & Hh1 & H200 & Hhd).
    rewrite Hh1 in Hh. inversion Hh; subst.
    split; [rewrite H200; discriminate|]. split; [by intros []|].
    intros H1 H2 H3 H4. rewrite Hhd. simpl.
    destruct isDownload.
    + destruct (H4 eq_refl) as (H5 & H6 & H7).
      by repeat (rewrite lookup_insert_ne by done).
    + by repeat (rewrite lookup_insert_ne by done).
Qed.

Lemma download_attachment_name_witness :
  exists resp w',
    handleEnvelopeItemFileRequest "contract.pdf" COMPLETED Scenario.inline_stub
      original true Scenario.plain_request Scenario.empty_world
      = (Return resp, w') /\
    res_status resp = 200 /\
    res_headers resp !! "Content-Disposition"
      = Some (contentDisposition (pdf_file_name "contract.pdf")).
Proof.
  eexists _, _. apply and_assoc. apply and_use_left.
  - split; [vm_compute; reflexivity | reflexivity].
  - intros [H1 H2].
    exact (download_attachment_name _ _ _ _ _ _ _ _ H1 H2).
Defined.

Lemma handler_touches_only_its_headers_witness :
  let w := {| database := Scenario.empty_database;
              objectStore := ∅;
              objectStoreOnline := true;
              contextHeaders := {[ "X-Frame-Options"%string := "DENY"%string ]};
              storageCalls := [] |} in
  exists resp w',
    handleEnvelopeItemFileRequest "contract.pdf" COMPLETED Scenario.inline_stub
      signed false Scenario.plain_request w = (Return resp, w') /\
    (res_status resp = 304 -> res_headers resp = contextHeaders w) /\
    (res_status resp <> 200 -> "Pragma"%string <> "Content-Type"%string ->
     res_headers resp !! "Pragma" = contextHeaders w !! "Pragma") /\
    ("Pragma"%string <> "Content-Type"%string ->
     "Pragma"%string <> "ETag"%string ->
     "Pragma"%string <> "Cache-Control"%string ->
     (false = true ->
      "Pragma"%string <> "Content-Disposition"%string /\
      "Pragma"%string <> "Pragma"%string /\
      "Pragma"%string <> "Expires"%string) ->
     res_headers resp !! "Pragma" = contextHeaders w !! "Pragma").
Proof.
  intros w. eexists _, _. apply and_use_left.
  - vm_compute. reflexivity.
  - intros H1.
    exact (handler_touches_only_its_headers _ _ _ _ _ _ _ _ _ "Pragma" H1).
Defined.

(** ** More on uploads *)

Section Upload_more.

Context (svc : Services).

(** What [putFileServerSide] does to the world, whether it returns or
    throws: one more call in the trace, and the relational store and the
    response headers as before. *)
Lemma putFileServerSide_world (file : File) (w : World) :
  let w' := snd (putFileServerSide svc file w) in
  database w' = database w /\
  contextHeaders w' = contextHeaders w /\
  storageCalls w' = storageCalls w ++ [CallPut file] /\
  (forall e, fst (putFileServerSide svc file w) = Throw e ->
             objectStore w' = objectStore w).
Proof.
  unfold putFileServerSide, putFileInS3, putFileInDatabase, uploadS3File.
  run_monad.
  destruct (NEXT_PUBLIC_UPLOAD_TRANSPORT svc) as [transport|];
    [destruct (String.eqb transport "s3")|]; simpl;
    try destruct (objectStoreOnline w); simpl; repeat split; try done.
Qed.

Lemma createDocumentData_spec type data (w : World) :
  exists row,
    createDocumentData type data w
    = (Return row,
       {| database :=
            {| db_envelopes := db_envelopes (database w);
               db_envelopeItems := db_envelopeItems (database w);
               db_documentData := db_documentData (database w) ++ [row] |};
          objectStore := objectStore w;
          objectStoreOnline := objectStoreOnline w;
          contextHeaders := contextHeaders w;
          storageCalls := storageCalls w |}) /\
    dd_type row = type /\ dd_data row = data /\ dd_initialData row = data.
Proof. unfold createDocumentData. eexists. split; [reflexivity|]. repeat split. Qed.

Lemma getFileServerSide_fst_ext type data (w1 w2 : World) :
  objectStore w1 = objectStore w2 ->
  objectStoreOnline w1 = objectStoreOnline w2 ->
  fst (getFileServerSide type data w1) = fst (getFileServerSide type data w2).
Proof.
  intros Hs Ho.
  destruct w1 as [db1 store1 online1 headers1 calls1].
  destruct w2 as [db2 store2 online2 headers2 calls2].
  simpl in Hs, Ho. subst.
  unfold getFileServerSide. run_monad.
  destruct type; simpl; [destruct (Base64.decode data); reflexivity|].
  destruct online2; [|reflexivity].
  destruct (store2 !! data); reflexivity.
Qed.

Lemma putFileServerSide_round_trip (file : File) (w : World) type data w' :
  putFileServerSide svc file w = (Return (type, data), w') ->
  fst (getFileServerSide type data w') = Return (file_contents file).
Proof.
  intros H. unfold putFileServerSide in H.
  unfold mbind at 1, M_bind at 1, record_call in H. simpl in H.
  destruct (NEXT_PUBLIC_UPLOAD_TRANSPORT svc) as [transport|];
    [destruct (String.eqb transport "s3")|].
  - by eapply putFileInS3_get.
  - by eapply putFileInDatabase_get.
  - by eapply putFileInDatabase_get.
Qed.

(** The upload shared by both entry points: store, then create the row. *)
Lemma put_then_create (file : File) (w : World) type data w1 row w' :
  putFileServerSide svc file w = (Return (type, data), w1) ->
  createDocumentData type data w1 = (Return row, w') ->
  dd_initialData row = dd_data row /\
  db_envelopes (database w') = db_envelopes (database w) /\
  db_envelopeItems (database w') = db_envelopeItems (database w) /\
  db_documentData (database w') = db_documentData (database w) ++ [row] /\
  storageCalls w' = storageCalls w ++ [CallPut file] /\
  contextHeaders w' = contextHeaders w /\
  fst (getFileServerSide (dd_type row) (dd_data row) w')
    = Return (file_contents file).
Proof.
  intros Hput Hcreate.
  destruct (putFileServerSide_world file w) as (Hdb & Hh & Hcalls & _).
  rewrite Hput in Hdb, Hh, Hcalls. simpl in Hdb, Hh, Hcalls.
  destruct (createDocumentData_spec type data w1) as (row1 & Hc & Ht & Hd & Hi).
  rewrite Hc in Hcreate. inversion Hcreate; subst row1 w'. clear Hcreate. simpl.
  rewrite Hdb, Hh, Hcalls, Hi, Hd, Ht. repeat split; try done.
  rewrite (getFileServerSide_fst_ext type data _ w1) by done.
  by eapply putFileServerSide_round_trip.
Qed.

(** X7. When [putPdfFileServerSide] returns a row, the file parsed as an
    unencrypted PDF, the row is the one new row of the table with
    [initialData] equal to [data], storage was called exactly once, with the
    file under its normalized name, and reading the row back gives the
    uploaded bytes unchanged. *)
Theorem validated_upload_reads_back (file : File) (w : World)
    (row : DocumentData) (w' : World) :
  putPdfFileServerSide svc file w = (Return row, w') ->
  (exists pdf, PDFDocument_load svc (file_contents file) = Some pdf /\
               pdf_isEncrypted pdf = false) /\
  dd_initialData row = dd_data row /\
  db_documentData (database w') = db_documentData (database w) ++ [row] /\
  storageCalls w'
    = storageCalls w ++
      [CallPut {| file_name := pdf_file_name (file_name file);
                  file_type := file_type file;
                  file_contents := file_contents file |}] /\
  fst (getFileServerSide (dd_type row) (dd_data row) w')
    = Return (file_contents file).
Proof.
  unfold putPdfFileServerSide.
  destruct (PDFDocument_load svc (file_contents file)) as [pdf|]; [|discriminate].
  unfold mbind at 1, M_bind at 1, mret, M_ret. simpl.
  destruct (pdf_isEncrypted pdf) eqn:Henc; [discriminate|].
  unfold mbind, M_bind.
  set (file' := {| file_name := pdf_file_name (file_name file);
                   file_type := file_type file;
                   file_contents := file_contents file |}).
  destruct (putFileServerSide svc file' w) as [[[type data]|e] w1] eqn:Hput;
    [|discriminate].
  intros Hcreate.
  destruct (put_then_create file' w type data w1 row w' Hput Hcreate)
    as (Hi & _ & _ & Hrows & Hcalls & _ & Hget).
  split; [by exists pdf|]. by repeat split.
Qed.


End Upload_more.

Lemma validated_upload_reads_back_witness :
  exists row w',
    putPdfFileServerSide UploadScenario.plain_pdf_services Scenario.stub_file
      Scenario.empty_world = (Return row, w') /\
    (exists pdf,
       PDFDocument_load UploadScenario.plain_pdf_services
         (file_contents Scenario.stub_file) = Some pdf /\
       pdf_isEncrypted pdf = false) /\
    dd_initialData row = dd_data row /\
    db_documentData (database w')
      = db_documentData (database Scenario.empty_world) ++ [row] /\
    storageCalls w'
      = storageCalls Scenario.empty_world ++
        [CallPut {| file_name := pdf_file_name (file_name Scenario.stub_file);
                    file_type := file_type Scenario.stub_file;
                    file_contents := file_contents Scenario.stub_file |}] /\
    fst (getFileServerSide (dd_type row) (dd_data row) w')
      = Return (file_contents Scenario.stub_file).
Proof.
  eexists _, _. apply and_use_left.
  - vm_compute. reflexivity.
  - intros H.
    exact (validated_upload_reads_back UploadScenario.plain_pdf_services _ _ _ _ H).
Defined.

(** ** More on the audit-log listing *)

Section AuditLog_more.

Import AuditLog.

Context (parse : DocumentAuditLog -> option DocumentAuditLog).
Context (table : list DocumentAuditLog).

Lemma In_selected_filter w c d cursor skip (x : DocumentAuditLog) :
  In x (selected table w c d cursor skip) -> In x (List.filter (matches w) table).
Proof.
  unfold selected. intros H. apply In_skipn_In in H.
  apply (In_sort_rows (order_leb c d)).
  destruct cursor; [by eapply In_from_cursor | done].
Qed.

Lemma map_throwing_In {A B : Type} (f : A -> option B) (l : list A) (ys : list B) :
  map_throwing f l = Some ys ->
  forall y, In y ys -> exists x, In x l /\ f x = Some y.
Proof.
  revert ys. induction l as [|x l IH]; simpl; intros ys H y Hy.
  - inversion H; subst. destruct Hy.
  - destruct (f x) as [y0|] eqn:Hf; [|discriminate].
    destruct (map_throwing f l) as [ys0|] eqn:Hm; [|discriminate].
    inversion H; subst. destruct Hy as [<-|Hy].
    + exists x. split; [by left | done].
    + destruct (IH ys0 eq_refl y Hy) as (x' & Hin & Hx'). exists x'. split; [by right | done].
Qed.

Lemma map_throwing_length {A B : Type} (f : A -> option B) (l : list A) (ys : list B) :
  map_throwing f l = Some ys -> length ys = length l.
Proof.
  revert ys. induction l as [|x l IH]; simpl; intros ys H.
  - by inversion H.
  - destruct (f x); [|discriminate].
    destruct (map_throwing f l) as [ys0|]; [|discriminate].
    inversion H; subst. simpl. by rewrite (IH ys0).
Qed.

Lemma parsed_then_negative_index_throws (perPage : Z) (l : list DocumentAuditLog) :
  perPage < 0 ->
  (Z.of_nat (length l) >? perPage) = true /\ js_index l perPage = None.
Proof.
  intros Hneg. split; [apply Z.gtb_gt; lia|].
  unfold js_index. by rewrite (proj2 (Z.ltb_lt _ _)) by lia.
Qed.

(** X9. With a negative [perPage] the function throws, whatever the table
    holds: [hasNextPage] is then always true and [allParsedData[perPage]] is
    [undefined]. *)
Theorem queryAuditLogs_negative_perPage_throws
    (envelope : Envelope) (page : option Z) (perPage : Z)
    (orderBy : option OrderBy) (cursor : option string)
    (filterForRecentActivity : option bool) :
  perPage < 0 ->
  queryAuditLogs parse table envelope page (Some perPage) orderBy cursor
    filterForRecentActivity = None.
Proof.
  intros Hneg. unfold queryAuditLogs. simpl default.
  destruct (map_throwing parse _) as [allParsedData|]; [|reflexivity].
  destruct (parsed_then_negative_index_throws perPage allParsedData Hneg)
    as [-> ->].
  reflexivity.
Qed.

(** The shape of every result. *)
Lemma queryAuditLogs_inv
    (envelope : Envelope) (page perPage : option Z)
    (orderBy : option OrderBy) (cursor : option string)
    (filterForRecentActivity : option bool) (r : FindResult) :
  let perPage' := default 30 perPage in
  let whereClause := buildAuditLogWhereClause envelope filterForRecentActivity in
  let rows :=
    selected table whereClause
      (default col_createdAt (column <$> orderBy))
      (default desc (direction <$> orderBy))
      (match cursor with
       | Some id => if String.eqb id "" then None else Some id
       | None => None
       end)
      ((Z.max (default 1 page) 1 - 1) * perPage') in
  queryAuditLogs parse table envelope page perPage orderBy cursor
    filterForRecentActivity = Some r ->
  0 <= perPage' /\
  r_perPage r = perPage' /\
  r_count r = count_rows table whereClause /\
  r_totalPages r = ceil_div (count_rows table whereClause) perPage' /\
  exists allParsedData,
    map_throwing parse (firstn (Z.to_nat (perPage' + 1)) rows) = Some allParsedData /\
    match r_nextCursor r with
    | Some c =>
        exists y, allParsedData = r_data r ++ [y] /\ log_id y = c /\
                  Z.of_nat (length (r_data r)) = perPage'
    | None => allParsedData = r_data r /\
              Z.of_nat (length allParsedData) <= perPage'
    end.
Proof.
  intros perPage' whereClause rows Hq.
  destruct (Z.lt_ge_cases perPage' 0) as [Hneg|Hpos].
  { exfalso. unfold queryAuditLogs in Hq. fold perPage' in Hq.
    destruct (map_throwing parse _) as [allParsedData|]; [|discriminate].
    destruct (parsed_then_negative_index_throws perPage' allParsedData Hneg)
      as [H1 H2].
    rewrite H1, H2 in Hq. discriminate. }
  split; [lia|].
  unfold queryAuditLogs in Hq. fold perPage' whereClause in Hq.
  unfold findMany in Hq. rewrite (proj2 (Z.ltb_ge _ _)) in Hq by lia.
  fold rows in Hq.
  destruct (map_throwing parse (firstn (Z.to_nat (perPage' + 1)) rows))
    as [allParsedData|] eqn:Hparse; [|discriminate].
  pose proof (map_throwing_length _ _ _ Hparse) as Hlen.
  rewrite length_firstn in Hlen.
  destruct (Z.of_nat (length allParsedData) >? perPage') eqn:Hnext.
  - apply Z.gtb_gt in Hnext.
    unfold js_index in Hq. rewrite (proj2 (Z.ltb_ge _ _)) in Hq by lia.
    destruct (nth_error allParsedData (Z.to_nat perPage')) as [row|] eqn:Hnth;
      [|discriminate].
    inversion Hq; subst r; clear Hq. simpl.
    repeat split. exists allParsedData. split; [reflexivity|].
    exists row. unfold js_slice0. rewrite (proj2 (Z.ltb_ge _ _)) by lia.
    assert (Hl : length allParsedData = S (Z.to_nat perPage')) by lia.
    split; [|split; [reflexivity | rewrite length_firstn; lia]].
    rewrite <- (firstn_skipn (Z.to_nat perPage') allParsedData) at 1.
    f_equal.
    pose proof (nth_error_split allParsedData (Z.to_nat perPage') Hnth)
      as (l1 & l2 & Heq & Hl1).
    rewrite Heq. rewrite skipn_app, <- Hl1, skipn_all, Nat.sub_diag. simpl.
    rewrite Heq in Hl. rewrite length_app in Hl. simpl in Hl.
    destruct l2; [reflexivity | simpl in Hl; lia].
  - rewrite Z.gtb_ltb in Hnext. apply Z.ltb_ge in Hnext.
    inversion Hq; subst r; clear Hq. simpl.
    repeat split. by exists allParsedData.
Qed.

(** X12. With a next cursor, [data] is a full page and the fetched rows parse
    to [data] followed by one more row, whose id is the cursor; without
    one, [data] is the parse of all the rows that the query selects, and
    these are at most [perPage]. *)
Theorem data_and_cursor_cover_fetched_rows
    (envelope : Envelope) (page perPage : option Z)
    (orderBy : option OrderBy) (cursor : option string)
    (filterForRecentActivity : option bool) (r : FindResult) :
  let perPage' := default 30 perPage in
  let rows :=
    selected table (buildAuditLogWhereClause envelope filterForRecentActivity)
      (default col_createdAt (column <$> orderBy))
      (default desc (direction <$> orderBy))
      (match cursor with
       | Some id => if String.eqb id "" then None else Some id
       | None => None
       end)
      ((Z.max (default 1 page) 1 - 1) * perPage') in
  queryAuditLogs parse table envelope page perPage orderBy cursor
    filterForRecentActivity = Some r ->
  match r_nextCursor r with
  | Some c =>
      exists y,
        map_throwing parse (firstn (Z.to_nat (perPage' + 1)) rows)
          = Some (r_data r ++ [y]) /\
        log_id y = c /\ Z.of_nat (length (r_data r)) = perPage'
  | None =>
      map_throwing parse rows = Some (r_data r) /\
      Z.of_nat (length rows) <= perPage'
  end.
Proof.
  intros perPage' rows Hq.
  destruct (queryAuditLogs_inv envelope page perPage orderBy cursor
              filterForRecentActivity r Hq)
    as (Hpos & _ & _ & _ & allParsedData & Hparse & Hshape).
  fold perPage' rows in Hparse.
  destruct (r_nextCursor r) as [c|].
  - destruct Hshape as (y & -> & Hid & Hlen). by exists y.
  - destruct Hshape as [-> Hshort].
    pose proof (map_throwing_length _ _ _ Hparse) as Hlen.
    rewrite length_firstn in Hlen.
    assert (Hle : Z.of_nat (length rows) <= perPage') by lia.
    split; [|exact Hle].
    rewrite firstn_all2 in Hparse by lia. exact Hparse.
Qed.

Lemma data_rows_from_table
    (envelope : Envelope) (page perPage : option Z)
    (orderBy : option OrderBy) (cursor : option string)
    (filterForRecentActivity : option bool) (r : FindResult) (y : DocumentAuditLog) :
  queryAuditLogs parse table envelope page perPage orderBy cursor
    filterForRecentActivity = Some r ->
  In y (r_data r) ->
  exists x,
    In x (List.filter
            (matches (buildAuditLogWhereClause envelope filterForRecentActivity))
            table) /\
    parse x = Some y.
Proof.
  intros Hq Hy.
  destruct (queryAuditLogs_inv envelope page perPage orderBy cursor
              filterForRecentActivity r Hq)
    as (_ & _ & _ & _ & allParsedData & Hparse & Hshape).
  assert (Hin : In y allParsedData).
  { destruct (r_nextCursor r).
    - destruct Hshape as (z & -> & _). apply in_or_app. by left.
    - by destruct Hshape as [-> _]. }
  destruct (map_throwing_In _ _ _ Hparse y Hin) as (x & Hx & Hpx).
  apply In_firstn_In in Hx. apply In_selected_filter in Hx.
  by exists x.
Qed.

Lemma matches_buildAuditLogWhereClause
    (envelope : Envelope) (filterForRecentActivity : option bool)
    (x : DocumentAuditLog) :
  matches (buildAuditLogWhereClause envelope filterForRecentActivity) x = true <->
  log_envelopeId x = envelope_id envelope /\
  (filterForRecentActivity = Some true ->
     In (log_type x) RECENT_ACTIVITY_EVENT_TYPES \/
     (log_type x = "EMAIL_SENT"%string /\ log_isResending x = true)).
Proof.
  unfold matches, buildAuditLogWhereClause.
  destruct filterForRecentActivity as [[]|]; simpl where_envelopeId; simpl where_OR;
    rewrite andb_true_iff, String.eqb_eq.
  - cbn [existsb holds]. rewrite orb_false_r, orb_true_iff, andb_true_iff.
    rewrite String.eqb_eq. split.
    + intros [He [Hin|Hre]]; (split; [done|]); intros _; [left|by right].
      apply existsb_exists in Hin as (t & Ht & Heq).
      apply String.eqb_eq in Heq. by subst t.
    + intros [He H]. split; [done|]. destruct (H eq_refl) as [Hin|Hre]; [left|by right].
      apply existsb_exists. exists (log_type x). split; [done|].
      apply String.eqb_refl.
  - split; [intros [He _]; by split | intros [He _]; by split].
  - split; [intros [He _]; by split | intros [He _]; by split].
Qed.

(** X10. Every entry of [data] is the parse of a row of the table that
    belongs to the given envelope; with [filterForRecentActivity] the row
    has one of the recent-activity types or is an [EMAIL_SENT] row that was
    a resend. *)
Theorem queryAuditLogs_rows_belong_to_envelope
    (envelope : Envelope) (page perPage : option Z)
    (orderBy : option OrderBy) (cursor : option string)
    (filterForRecentActivity : option bool) (r : FindResult) (y : DocumentAuditLog) :
  queryAuditLogs parse table envelope page perPage orderBy cursor
    filterForRecentActivity = Some r ->
  In y (r_data r) ->
  exists x,
    In x table /\ parse x = Some y /\
    log_envelopeId x = envelope_id envelope /\
    (filterForRecentActivity = Some true ->
       In (log_type x) RECENT_ACTIVITY_EVENT_TYPES \/
       (log_type x = "EMAIL_SENT"%string /\ log_isResending x = true)).
Proof.
  intros Hq Hy.
  destruct (data_rows_from_table envelope page perPage orderBy cursor
              filterForRecentActivity r y Hq Hy) as (x & Hx & Hpx).
  apply filter_In in Hx as [Hxt Hm].
  apply matches_buildAuditLogWhereClause in Hm as [He Hrecent].
  by exists x.
Qed.

Lemma ceil_div_bounds (count perPage : Z) :
  0 < perPage ->
  exists n, ceil_div count perPage = Finite n /\
            (n - 1) * perPage < count <= n * perPage.
Proof.
  intros Hpos. unfold ceil_div. rewrite (proj2 (Z.eqb_neq _ _)) by lia.
  eexists. split; [reflexivity|].
  pose proof (Z.div_mod (- count) perPage ltac:(lia)) as Hdm.
  pose proof (Z.mod_pos_bound (- count) perPage Hpos) as Hmod.
  nia.
Qed.

(** X11. [count] is the number of rows of the table that match the where
    clause, whatever the page, cursor and order; for a positive [perPage]
    [totalPages] is the least number of pages of that size that hold
    [count] rows, and for [perPage] 0 it is [NaN] for no rows and
    [Infinity] otherwise. *)
Theorem queryAuditLogs_count_and_pages
    (envelope : Envelope) (page perPage : option Z)
    (orderBy : option OrderBy) (cursor : option string)
    (filterForRecentActivity : option bool) (r : FindResult) :
  let perPage' := default 30 perPage in
  queryAuditLogs parse table envelope page perPage orderBy cursor
    filterForRecentActivity = Some r ->
  r_count r
    = Z.of_nat (length (List.filter
                          (matches (buildAuditLogWhereClause envelope
                                      filterForRecentActivity)) table)) /\
  (0 < perPage' ->
     exists n, r_totalPages r = Finite n /\
               (n - 1) * perPage' < r_count r <= n * perPage') /\
  (perPage' = 0 ->
     r_totalPages r = if r_count r =? 0 then NaN else Infinity).
Proof.
  intros perPage' Hq.
  destruct (queryAuditLogs_inv envelope page perPage orderBy cursor
              filterForRecentActivity r Hq)
    as (_ & _ & Hcount & Htotal & _).
  fold perPage' in Htotal. rewrite Hcount, Htotal. repeat split.
  - intros Hpos. by apply ceil_div_bounds.
  - intros ->. reflexivity.
Qed.

End AuditLog_more.

(** ** Following the cursor *)

Section Cursor.

Import AuditLog.

Lemma insert_sorted_Permutation leb (x : DocumentAuditLog) (l : list DocumentAuditLog) :
  Permutation (insert_sorted leb x l) (x :: l).
Proof.
  induction l as [|y l IH]; simpl; [reflexivity|].
  destruct (leb x y); [reflexivity|].
  rewrite IH. apply perm_swap.
Qed.

Lemma sort_rows_Permutation leb (l : list DocumentAuditLog) :
  Permutation (sort_rows leb l) l.
Proof.
  induction l as [|x l IH]; simpl; [reflexivity|].
  rewrite insert_sorted_Permutation. by rewrite IH.
Qed.

Lemma NoDup_map_filter {A B : Type} (f : A -> B) (p : A -> bool) (l : list A) :
  List.NoDup (map f l) -> List.NoDup (map f (List.filter p l)).
Proof.
  induction l as [|x l IH]; simpl; [done|].
  intros H. inversion H as [|? ? Hnin Hnd]; subst.
  destruct (p x); simpl; [|by apply IH].
  constructor; [|by apply IH].
  intros Hin. apply Hnin. apply in_map_iff in Hin as (y & Hy & Hin).
  apply filter_In in Hin as [Hin _]. apply in_map_iff. by exists y.
Qed.

Lemma from_cursor_at (l : list DocumentAuditLog) (n : nat) (x : DocumentAuditLog) :
  List.NoDup (map log_id l) ->
  nth_error l n = Some x ->
  from_cursor (log_id x) l = skipn n l.
Proof.
  revert n. induction l as [|y l IH]; intros n Hnd Hn.
  - by destruct n.
  - inversion Hnd as [|? ? Hnin Hnd']; subst. destruct n as [|n]; simpl in *.
    + inversion Hn; subst. by rewrite String.eqb_refl.
    + destruct (String.eqb (log_id y) (log_id x)) eqn:E.
      * apply String.eqb_eq in E. exfalso. apply Hnin. rewrite E.
        apply in_map. by eapply nth_error_In.
      * by apply IH.
Qed.

Lemma from_cursor_suffix (id : string) (l : list DocumentAuditLog) :
  exists k, from_cursor id l = skipn k l.
Proof.
  induction l as [|y l [k IH]]; simpl.
  - by exists O.
  - destruct (String.eqb (log_id y) id); [by exists O|].
    exists (S k). exact IH.
Qed.

Lemma map_throwing_nth {A B : Type} (f : A -> option B) (l : list A) (ys : list B) :
  map_throwing f l = Some ys ->
  forall n y, nth_error ys n = Some y ->
              exists x, nth_error l n = Some x /\ f x = Some y.
Proof.
  revert ys. induction l as [|x l IH]; simpl; intros ys H n y Hn.
  - inversion H; subst. by destruct n.
  - destruct (f x) as [y0|] eqn:Hf; [|discriminate].
    destruct (map_throwing f l) as [ys0|] eqn:Hm; [|discriminate].
    inversion H; subst. destruct n as [|n]; simpl in Hn.
    + inversion Hn; subst. by exists x.
    + by apply (IH ys0).
Qed.

Lemma map_throwing_firstn {A B : Type} (f : A -> option B) (l : list A)
    (ys : list B) (n : nat) :
  map_throwing f l = Some ys ->
  map_throwing f (firstn n l) = Some (firstn n ys).
Proof.
  revert ys n. induction l as [|x l IH]; simpl; intros ys n H.
  - inversion H; subst. by destruct n.
  - destruct (f x) as [y0|] eqn:Hf; [|discriminate].
    destruct (map_throwing f l) as [ys0|] eqn:Hm; [|discriminate].
    inversion H; subst. destruct n as [|n]; simpl; [reflexivity|].
    by rewrite Hf, (IH ys0 n eq_refl).
Qed.

Lemma firstn_length_app {A : Type} (l1 l2 : list A) :
  firstn (length l1) (l1 ++ l2) = l1.
Proof. induction l1 as [|x l1 IH]; simpl; [by destruct l2 | by rewrite IH]. Qed.

Context (parse : DocumentAuditLog -> option DocumentAuditLog).
Context (table : list DocumentAuditLog).

(** X13. Rows have distinct ids, no two rows that the query selects have the
    same value in the order column, and parsing keeps the id. If a
    first-page query returns a non-empty next cursor, its [data] is the
    parse of the first [perPage] selected rows, and the same query started at
    that cursor returns the parse of the rows that follow directly, as many
    as [perPage] or as are left: no row is skipped or repeated. (Rows that
    tie in the order column are left aside: the database places the cursor
    by the value of that column, and may then return a tied row again.) *)
Theorem next_cursor_continues_the_listing
    (envelope : Envelope) (page perPage : option Z)
    (orderBy : option OrderBy) (cursor : option string)
    (filterForRecentActivity : option bool) (r : FindResult) (c : string) :
  let perPage' := default 30 perPage in
  let whereClause := buildAuditLogWhereClause envelope filterForRecentActivity in
  let col := default col_createdAt (column <$> orderBy) in
  let dir := default desc (direction <$> orderBy) in
  let rows :=
    selected table whereClause col dir
      (match cursor with
       | Some id => if String.eqb id "" then None else Some id
       | None => None
       end) 0 in
  List.NoDup (map log_id table) ->
  (forall x y, In x table -> In y table ->
               matches whereClause x = true -> matches whereClause y = true ->
               column_leb col x y = true -> column_leb col y x = true ->
               x = y) ->
  (forall x y, parse x = Some y -> log_id y = log_id x) ->
  default 1 page <= 1 ->
  c <> ""%string ->
  queryAuditLogs parse table envelope page perPage orderBy cursor
    filterForRecentActivity = Some r ->
  r_nextCursor r = Some c ->
  map_throwing parse (firstn (Z.to_nat perPage') rows) = Some (r_data r) /\
  forall r2,
    queryAuditLogs parse table envelope page perPage orderBy (Some c)
      filterForRecentActivity = Some r2 ->
    map_throwing parse
      (firstn (length (r_data r2)) (skipn (Z.to_nat perPage') rows))
      = Some (r_data r2) /\
    Z.of_nat (length (r_data r2))
      = Z.min perPage' (Z.of_nat (length rows) - perPage').
Proof.
  intros perPage' whereClause col dir rows Hnd _ Hid Hpage Hne Hq Hc.
  destruct (queryAuditLogs_inv parse table envelope page perPage orderBy cursor
              filterForRecentActivity r Hq)
    as (_ & _ & _ & _ & allParsedData & Hparse & Hshape).
  rewrite Hc in Hshape. destruct Hshape as (y & -> & Hy & Hlen).
  replace (Z.max (default 1 page) 1) with 1 in Hparse by lia.
  change ((1 - 1) * default 30 perPage) with 0 in Hparse.
  fold perPage' whereClause col dir rows in Hparse, Hlen.
  assert (Hpos : 0 <= perPage') by lia.
  assert (Hnth : nth_error (r_data r ++ [y]) (Z.to_nat perPage') = Some y).
  { rewrite nth_error_app2 by lia.
    replace (Z.to_nat perPage' - length (r_data r))%nat with O by lia.
    reflexivity. }
  destruct (map_throwing_nth _ _ _ Hparse _ _ Hnth) as (x & Hx & Hpx).
  assert (Hxrows : nth_error rows (Z.to_nat perPage') = Some x).
  { rewrite nth_error_firstn in Hx.
    destruct (Z.to_nat perPage' <? Z.to_nat (perPage' + 1))%nat; [done|discriminate]. }
  assert (Hcx : c = log_id x) by (rewrite <- (Hid x y Hpx); done).
  set (sorted := sort_rows (order_leb col dir) (List.filter (matches whereClause) table)).
  assert (Hsorted_nd : List.NoDup (map log_id sorted)).
  { eapply Permutation_NoDup.
    - apply Permutation_map. symmetry. apply sort_rows_Permutation.
    - by apply NoDup_map_filter. }
  assert (Hsuffix : exists k, rows = skipn k sorted).
  { unfold rows, selected. fold sorted. simpl skipn.
    destruct cursor as [id|]; [destruct (String.eqb id "")|].
    - by exists O.
    - apply from_cursor_suffix.
    - by exists O. }
  destruct Hsuffix as [k Hk].
  assert (Hsel : selected table whereClause col dir (Some c) 0
                 = skipn (Z.to_nat perPage') rows).
  { unfold selected at 1. fold sorted.
    rewrite Hk, skipn_skipn.
    rewrite Hk in Hxrows. rewrite nth_error_skipn in Hxrows.
    rewrite Hcx. rewrite (from_cursor_at sorted _ x Hsorted_nd Hxrows).
    change (Z.to_nat 0) with O. rewrite skipn_O. f_equal. lia. }
  split.
  - apply (map_throwing_firstn _ _ _ (Z.to_nat perPage')) in Hparse.
    rewrite firstn_firstn in Hparse.
    replace (Nat.min (Z.to_nat perPage') (Z.to_nat (perPage' + 1)))
      with (Z.to_nat perPage') in Hparse by lia.
    replace (Z.to_nat perPage') with (length (r_data r)) in Hparse at 2 by lia.
    by rewrite firstn_length_app in Hparse.
  - intros r2 Hq2.
    destruct (queryAuditLogs_inv parse table envelope page perPage orderBy
                (Some c) filterForRecentActivity r2 Hq2)
      as (_ & _ & _ & _ & parsed2 & Hparse2 & Hshape2).
    rewrite (proj2 (String.eqb_neq _ _) Hne) in Hparse2.
    replace (Z.max (default 1 page) 1) with 1 in Hparse2 by lia.
    change ((1 - 1) * default 30 perPage) with 0 in Hparse2.
    fold perPage' whereClause col dir in Hparse2. rewrite Hsel in Hparse2.
    pose proof (map_throwing_length _ _ _ Hparse2) as Hlen2.
    rewrite length_firstn in Hlen2.
    apply (map_throwing_firstn _ _ _ (length (r_data r2))) in Hparse2.
    rewrite firstn_firstn in Hparse2.
    rewrite length_skipn in Hlen2.
    assert (Hrows : (Z.to_nat perPage' < length rows)%nat)
      by (apply nth_error_Some; by rewrite Hxrows).
    assert (Hdata2 : firstn (length (r_data r2)) parsed2 = r_data r2
                     /\ (length (r_data r2) <= Z.to_nat (perPage' + 1))%nat
                     /\ Z.of_nat (length (r_data r2))
                        = Z.min perPage' (Z.of_nat (length rows) - perPage')).
    { destruct (r_nextCursor r2).
      - destruct Hshape2 as (y2 & -> & _ & Hl2).
        rewrite length_app in Hlen2. simpl in Hlen2.
        split; [apply firstn_length_app|]. split; lia.
      - destruct Hshape2 as [-> Hshort].
        split; [apply firstn_all|]. split; lia. }
    destruct Hdata2 as (Hd2 & Hl2 & Hcount). rewrite Hd2 in Hparse2.
    split; [|exact Hcount].
    by rewrite Nat.min_l in Hparse2 by lia.
Qed.

End Cursor.

Example queryAuditLogs_first_page_default :
  AuditLog.queryAuditLogs Some Scenario.audit_table Scenario.contract
    None (Some 2) None None None
  = Some {| AuditLog.r_data :=
              [ Scenario.audit_row "log_c" "DOCUMENT_OPENED" 300;
                Scenario.audit_row "log_b" "DOCUMENT_SENT" 200 ];
            AuditLog.r_count := 3;
            AuditLog.r_currentPage := 1;
            AuditLog.r_perPage := 2;
            AuditLog.r_totalPages := AuditLog.Finite 2;
            AuditLog.r_nextCursor := Some "log_a"%string |}.
Proof. vm_compute. reflexivity. Qed.

Lemma queryAuditLogs_negative_perPage_throws_witness :
  AuditLog.queryAuditLogs Some Scenario.audit_table Scenario.contract
    None (Some (-5)) None None None = None.
Proof.
  apply (queryAuditLogs_negative_perPage_throws Some Scenario.audit_table
           Scenario.contract None (-5) None None None).
  lia.
Defined.

Lemma data_and_cursor_cover_fetched_rows_witness :
  exists y,
    AuditLog.map_throwing Some
      (firstn (Z.to_nat (2 + 1))
         (AuditLog.selected Scenario.audit_table
            (AuditLog.buildAuditLogWhereClause Scenario.contract None)
            AuditLog.col_createdAt AuditLog.desc None ((Z.max 1 1 - 1) * 2)))
      = Some ([ Scenario.audit_row "log_c" "DOCUMENT_OPENED" 300;
                Scenario.audit_row "log_b" "DOCUMENT_SENT" 200 ] ++ [y]) /\
    AuditLog.log_id y = "log_a"%string /\
    Z.of_nat (length [ Scenario.audit_row "log_c" "DOCUMENT_OPENED" 300;
                       Scenario.audit_row "log_b" "DOCUMENT_SENT" 200 ]) = 2.
Proof.
  exact (data_and_cursor_cover_fetched_rows Some Scenario.audit_table
           Scenario.contract None (Some 2) None None None _
           queryAuditLogs_first_page_default).
Defined.

Lemma queryAuditLogs_rows_belong_to_envelope_witness :
  exists x,
    In x Scenario.audit_table /\
    Some x = Some (Scenario.audit_row "log_b" "DOCUMENT_SENT" 200) /\
    AuditLog.log_envelopeId x = envelope_id Scenario.contract /\
    (Some true = Some true ->
       In (AuditLog.log_type x) AuditLog.RECENT_ACTIVITY_EVENT_TYPES \/
       (AuditLog.log_type x = "EMAIL_SENT"%string /\
        AuditLog.log_isResending x = true)).
Proof.
  apply (queryAuditLogs_rows_belong_to_envelope Some Scenario.audit_table
           Scenario.contract None (Some 2) None None (Some true)
           {| AuditLog.r_data :=
                [ Scenario.audit_row "log_c" "DOCUMENT_OPENED" 300;
                  Scenario.audit_row "log_b" "DOCUMENT_SENT" 200 ];
              AuditLog.r_count := 3;
              AuditLog.r_currentPage := 1;
              AuditLog.r_perPage := 2;
              AuditLog.r_totalPages := AuditLog.Finite 2;
              AuditLog.r_nextCursor := Some "log_a"%string |}).
  - vm_compute. reflexivity.
  - right. left. reflexivity.
Defined.

Lemma queryAuditLogs_count_and_pages_witness :
  let r := {| AuditLog.r_data :=
                [ Scenario.audit_row "log_c" "DOCUMENT_OPENED" 300;
                  Scenario.audit_row "log_b" "DOCUMENT_SENT" 200 ];
              AuditLog.r_count := 3;
              AuditLog.r_currentPage := 1;
              AuditLog.r_perPage := 2;
              AuditLog.r_totalPages := AuditLog.Finite 2;
              AuditLog.r_nextCursor := Some "log_a"%string |} in
  AuditLog.r_count r
    = Z.of_nat (length (List.filter
                          (AuditLog.matches
                             (AuditLog.buildAuditLogWhereClause Scenario.contract None))
                          Scenario.audit_table)) /\
  (0 < 2 ->
     exists n, AuditLog.r_totalPages r = AuditLog.Finite n /\
               (n - 1) * 2 < AuditLog.r_count r <= n * 2) /\
  (2 = 0 ->
     AuditLog.r_totalPages r
     = if AuditLog.r_count r =? 0 then AuditLog.NaN else AuditLog.Infinity).
Proof.
  intros r.
  apply (queryAuditLogs_count_and_pages Some Scenario.audit_table
           Scenario.contract None (Some 2) None None None r).
  vm_compute. reflexivity.
Defined.

Lemma next_cursor_continues_the_listing_witness :
  let rows :=
    AuditLog.selected Scenario.audit_table
      (AuditLog.buildAuditLogWhereClause Scenario.contract None)
      AuditLog.col_createdAt AuditLog.desc None 0 in
  let r := {| AuditLog.r_data :=
                [ Scenario.audit_row "log_c" "DOCUMENT_OPENED" 300;
                  Scenario.audit_row "log_b" "DOCUMENT_SENT" 200 ];
              AuditLog.r_count := 3;
              AuditLog.r_currentPage := 1;
              AuditLog.r_perPage := 2;
              AuditLog.r_totalPages := AuditLog.Finite 2;
              AuditLog.r_nextCursor := Some "log_a"%string |} in
  AuditLog.map_throwing Some (firstn (Z.to_nat 2) rows) = Some (AuditLog.r_data r) /\
  forall r2,
    AuditLog.queryAuditLogs Some Scenario.audit_table Scenario.contract None
      (Some 2) None (Some "log_a"%string) None = Some r2 ->
    AuditLog.map_throwing Some
      (firstn (length (AuditLog.r_data r2)) (skipn (Z.to_nat 2) rows))
      = Some (AuditLog.r_data r2) /\
    Z.of_nat (length (AuditLog.r_data r2))
      = Z.min 2 (Z.of_nat (length rows) - 2).
Proof.
  intros rows r.
  apply (next_cursor_continues_the_listing Some Scenario.audit_table
           Scenario.contract None (Some 2) None None None r "log_a").
  - vm_compute. repeat constructor; simpl; intuition discriminate.
  - intros x y Hx Hy _ _ Hxy Hyx. simpl in Hx, Hy.
    destruct Hx as [<-|[<-|[<-|[]]]], Hy as [<-|[<-|[<-|[]]]];
      try reflexivity; vm_compute in Hxy, Hyx; discriminate.
  - intros x y [= <-]. reflexivity.
  - simpl. lia.
  - discriminate.
  - vm_compute. reflexivity.
  - reflexivity.
Defined.

(** ** Telemetry *)

Section Telemetry_facts.

Import Telemetry.

Lemma prefix_app (p s : string) : String.prefix p (p +:+ s) = true.
Proof.
  induction p as [|c p IH]; [by destruct s|].
  change (String c p +:+ s) with (String c (p +:+ s)). simpl.
  destruct (ascii_dec c c); [exact IH | done].
Qed.

Lemma extra_key_namespaced (key : string) : namespaced (extra_key key) = true.
Proof.
  unfold extra_key. fold (namespaced key).
  destruct (namespaced key) eqn:E; [exact E|].
  unfold namespaced, startsWith. by rewrite prefix_app.
Qed.

Lemma keys_namespaced_insert k v m :
  namespaced k = true -> keys_namespaced m -> keys_namespaced (<[k := v]> m).
Proof.
  intros Hk Hm k' Hsome. destruct (decide (k = k')) as [<-|Hne]; [exact Hk|].
  rewrite lookup_insert_ne in Hsome by done. by apply Hm.
Qed.

Lemma keys_namespaced_spread_if k value f m :
  namespaced k = true -> keys_namespaced m -> keys_namespaced (spread_if k value f m).
Proof.
  intros Hk Hm. unfold spread_if. destruct value as [v|]; [|exact Hm].
  destruct (truthy v); [by apply keys_namespaced_insert | exact Hm].
Qed.

Lemma keys_namespaced_reduce_extra entries acc :
  keys_namespaced acc -> keys_namespaced (reduce_extra entries acc).
Proof.
  unfold reduce_extra. revert acc.
  induction entries as [|[k v] entries IH]; intros acc Hacc; simpl; [exact Hacc|].
  apply IH. apply keys_namespaced_insert; [apply extra_key_namespaced | exact Hacc].
Qed.

Lemma reduce_extra_keeps entries acc (k : string) (v : JsValue) :
  ~ In k (map (fun kv => extra_key (fst kv)) entries) ->
  reduce_extra entries (<[k := v]> acc) !! k = Some v.
Proof.
  unfold reduce_extra. revert acc.
  induction entries as [|[k1 v1] entries IH]; intros acc Hnin; simpl.
  - apply lookup_insert_eq.
  - simpl in Hnin.
    rewrite insert_insert_ne by (intros E; apply Hnin; by left).
    apply IH. intros Hin. apply Hnin. by right.
Qed.

Lemma reduce_extra_lookup entries acc k v :
  List.NoDup (map (fun kv => extra_key (fst kv)) entries) ->
  In (k, v) entries ->
  reduce_extra entries acc !! extra_key k = Some v.
Proof.
  revert acc.
  induction entries as [|[k0 v0] entries IH]; intros acc Hnd Hin; [destruct Hin|].
  simpl in Hnd. inversion Hnd as [|? ? Hnin Hnd']; subst.
  destruct Hin as [[= -> ->]|Hin].
  - by apply (reduce_extra_keeps entries acc).
  - by apply IH.
Qed.

Lemma JSON_stringify_lookup (object : gmap string JsValue) (k : string) :
  JSON_stringify object !! k = object !! k ≫= JSON_value.
Proof. apply lookup_omap. Qed.

Lemma JSON_stringify_is_Some (object : gmap string JsValue) (k : string) :
  is_Some (JSON_stringify object !! k) -> is_Some (object !! k).
Proof.
  rewrite JSON_stringify_lookup. intros [v Hv].
  destruct (object !! k) as [v0|]; [by eexists | discriminate].
Qed.

Context (DD_SERVICE : option string) (now : string).

Lemma logEsignEvent_inv (opts : Options) (entry : gmap string JsValue) :
  logEsignEvent DD_SERVICE now opts = Log entry ->
  traceId opts <> ""%string /\ step opts <> ""%string /\
  exists logEntry,
    keys_namespaced logEntry /\
    (forall k v, List.NoDup (map (fun kv => extra_key (fst kv))
                               (default [] (extra opts))) ->
                 In (k, v) (default [] (extra opts)) ->
                 logEntry !! extra_key k = Some v) /\
    entry = JSON_stringify
              (logEntry ∪
               <["message" :=
                   JsString (if is_error (default ok (status opts)) (error_ opts)
                             then "[E-SIGN ERROR] " +:+ step opts
                             else "[E-SIGN] " +:+ step opts)]>
                 (<["level" :=
                      JsString (if is_error (default ok (status opts)) (error_ opts)
                                then "ERROR" else "INFO")]>
                    (<["timestamp" := JsString now]> ∅))).
Proof.
  unfold logEsignEvent.
  destruct (String.eqb (traceId opts) "") eqn:Ht; [discriminate|].
  destruct (String.eqb (step opts) "") eqn:Hs; [discriminate|].
  apply String.eqb_neq in Ht, Hs. intros [= <-].
  split; [done|]. split; [done|].
  eexists. split; [|split; [|reflexivity]].
  - apply keys_namespaced_reduce_extra.
    repeat (apply keys_namespaced_spread_if; [reflexivity|]).
    repeat (apply keys_namespaced_insert; [reflexivity|]).
    intros k [v Hv]. by rewrite lookup_empty in Hv.
  - intros k v Hnd Hin. by apply reduce_extra_lookup.
Qed.

(** X15. In every logged line [timestamp], [level] and [message] are the
    ones computed from the clock, the status, the error and the step, and
    every other key starts with [esign.], [org_], [user_] or [document_]:
    no field of [extra] can overwrite the three. *)
Theorem log_line_keeps_reserved_fields (opts : Options) (entry : gmap string JsValue) :
  logEsignEvent DD_SERVICE now opts = Log entry ->
  entry !! "timestamp" = Some (JsString now) /\
  entry !! "level"
    = Some (JsString (if is_error (default ok (status opts)) (error_ opts)
                      then "ERROR" else "INFO")) /\
  entry !! "message"
    = Some (JsString (if is_error (default ok (status opts)) (error_ opts)
                      then "[E-SIGN ERROR] " +:+ step opts
                      else "[E-SIGN] " +:+ step opts)) /\
  forall k, is_Some (entry !! k) ->
            k = "timestamp"%string \/ k = "level"%string \/ k = "message"%string \/
            startsWith k "esign." = true \/ startsWith k "org_" = true \/
            startsWith k "user_" = true \/ startsWith k "document_" = true.
Proof.
  intros Hlog.
  destruct (logEsignEvent_inv opts entry Hlog) as (_ & _ & logEntry & Hns & _ & ->).
  assert (Hfree : forall k, namespaced k = false -> logEntry !! k = None).
  { intros k Hk. destruct (logEntry !! k) eqn:E; [|done].
    rewrite (Hns k) in Hk by (by eexists). discriminate. }
  repeat split.
  - rewrite JSON_stringify_lookup, lookup_union_r by (by apply Hfree).
    repeat (rewrite lookup_insert_ne by done). by rewrite lookup_insert_eq.
  - rewrite JSON_stringify_lookup, lookup_union_r by (by apply Hfree).
    repeat (rewrite lookup_insert_ne by done). by rewrite lookup_insert_eq.
  - rewrite JSON_stringify_lookup, lookup_union_r by (by apply Hfree).
    by rewrite lookup_insert_eq.
  - intros k Hk. apply JSON_stringify_is_Some in Hk.
    apply lookup_union_is_Some in Hk as [Hk|Hk].
    + apply Hns in Hk. unfold namespaced in Hk.
      apply orb_prop in Hk as [Hk|Hk]; [|tauto].
      apply orb_prop in Hk as [Hk|Hk]; [|tauto].
      apply orb_prop in Hk as [Hk|Hk]; tauto.
    + destruct (decide (k = "message"%string)) as [->|H1]; [tauto|].
      destruct (decide (k = "level"%string)) as [->|H2]; [tauto|].
      destruct (decide (k = "timestamp"%string)) as [->|H3]; [tauto|].
      rewrite !lookup_insert_ne, lookup_empty in Hk by done. by destruct Hk.
Qed.


Context (now_ms random_suffix : string).


End Telemetry_facts.

(** ** The callers of [queryAuditLogs] *)

Section Callers_facts.

Import AuditLog AuditLogApi.

Lemma legacy_document_id_decimal (n : Z) :
  0 <= n -> legacy_document_id (decimal n) = Some n.
Proof.
  intros Hn. unfold legacy_document_id, decimal.
  pose proof (DecimalZ.of_to n) as Hof.
  destruct n as [|p|p]; [reflexivity | | lia].
  simpl in *. rewrite NilZero.usu.
  - simpl. by rewrite Hof.
  - intros E. rewrite E in Hof. discriminate.
Qed.

Context (parse : DocumentAuditLog -> option DocumentAuditLog).
Context (table : list DocumentAuditLog).
Context (findEnvelope :
  EnvelopeIdOptions -> option EnvelopeType -> Z -> Z -> Outcome (option Envelope)).

(** X18. An envelope id that is the decimal text of a document number is
    looked up and listed by [findEnvelopeAuditLogs] exactly as
    [findDocumentAuditLogs] does for that number. *)
Theorem legacy_id_string_is_document_id
    (userId teamId n : Z) (page perPage : option Z) (orderBy : option OrderBy)
    (cursor : option string) (filterForRecentActivity : option bool) :
  0 <= n <= 9007199254740992 ->
  findEnvelopeAuditLogs parse table findEnvelope userId teamId (decimal n)
    page perPage orderBy cursor filterForRecentActivity
  = findDocumentAuditLogs parse table findEnvelope userId teamId n
      page perPage orderBy cursor filterForRecentActivity.
Proof.
  intros [Hn _]. unfold findEnvelopeAuditLogs, findDocumentAuditLogs.
  by rewrite legacy_document_id_decimal.
Qed.

(** X19. [findEnvelopeAuditLogs] returns a result only when the lookup for
    the user and team found an envelope, and every entry of the result is
    the parse of a row of that envelope. *)
Theorem audit_logs_belong_to_the_found_envelope
    (userId teamId : Z) (envelopeId : string)
    (page perPage : option Z) (orderBy : option OrderBy)
    (cursor : option string) (filterForRecentActivity : option bool)
    (r : FindResult) :
  findEnvelopeAuditLogs parse table findEnvelope userId teamId envelopeId
    page perPage orderBy cursor filterForRecentActivity = Return r ->
  exists envelope,
    findEnvelope
      (match legacy_document_id envelopeId with
       | Some number => IdDocumentId number
       | None => IdEnvelopeId envelopeId
       end)
      (match legacy_document_id envelopeId with
       | Some _ => Some DOCUMENT
       | None => None
       end) userId teamId = Return (Some envelope) /\
    forall y, In y (r_data r) ->
      exists x, In x table /\ parse x = Some y /\
                log_envelopeId x = envelope_id envelope.
Proof.
  unfold findEnvelopeAuditLogs. cbv zeta.
  destruct (findEnvelope _ _ userId teamId) as [[envelope|]|e]; try discriminate.
  unfold query_or_throw.
  destruct (queryAuditLogs parse table envelope page perPage orderBy cursor
              filterForRecentActivity) as [r'|] eqn:Hq; [|discriminate].
  intros [= <-]. exists envelope. split; [reflexivity|].
  intros y Hy.
  destruct (data_rows_from_table parse table envelope page perPage orderBy cursor
              filterForRecentActivity r' y Hq Hy) as (x & Hx & Hpx).
  apply filter_In in Hx as [Hxt Hm].
  apply matches_buildAuditLogWhereClause in Hm as [He _].
  by exists x.
Qed.

End Callers_facts.

Section S3_event.

Import Telemetry.

Context (DD_SERVICE : option string) (now now_ms random_suffix : string).

(** X17. The event that [putFileInS3] logs for a finished upload is always
    written, as an [INFO] line with a generated trace id, the step
    [sign_s3_upload_complete], and the file name, size and key under
    [esign.fileName], [esign.fileSize] and [esign.s3Key]. *)
Theorem s3_upload_is_logged (file : File) (key : string) :
  exists entry,
    s3_upload_event DD_SERVICE now now_ms random_suffix file key = Log entry /\
    entry !! "esign.trace_id"
      = Some (JsString ("esign_" +:+ now_ms +:+ "_" +:+ random_suffix)) /\
    entry !! "esign.step" = Some (JsString "sign_s3_upload_complete") /\
    entry !! "esign.status" = Some (JsString "ok") /\
    entry !! "esign.fileName" = Some (JsString (file_name file)) /\
    entry !! "esign.fileSize" = Some (JsNumber (file_size file)) /\
    entry !! "esign.s3Key" = Some (JsString key) /\
    entry !! "level" = Some (JsString "INFO") /\
    entry !! "message" = Some (JsString "[E-SIGN] sign_s3_upload_complete").
Proof.
  eexists. split; [reflexivity|]. repeat split.
Qed.

End S3_event.

Lemma log_line_keeps_reserved_fields_witness :
  let opts := {| Telemetry.traceId := "trace_1";
                 Telemetry.step := "sign_received_request";
                 Telemetry.status := None;
                 Telemetry.orgId := None;
                 Telemetry.userId := Some (Telemetry.JsNumber 7);
                 Telemetry.documentId := None;
                 Telemetry.error_ := None;
                 Telemetry.extra :=
                   Some [("message"%string, Telemetry.JsString "hello")] |} in
  exists entry,
    Telemetry.logEsignEvent None "2026-01-01T00:00:00.000Z" opts
      = Telemetry.Log entry /\
    entry !! "timestamp" = Some (Telemetry.JsString "2026-01-01T00:00:00.000Z") /\
    entry !! "level" = Some (Telemetry.JsString "INFO") /\
    entry !! "message"
      = Some (Telemetry.JsString "[E-SIGN] sign_received_request") /\
    forall k, is_Some (entry !! k) ->
      k = "timestamp"%string \/ k = "level"%string \/ k = "message"%string \/
      startsWith k "esign." = true \/ startsWith k "org_" = true \/
      startsWith k "user_" = true \/ startsWith k "document_" = true.
Proof.
  intros opts. eexists. apply and_use_left.
  - reflexivity.
  - intros H.
    exact (log_line_keeps_reserved_fields None _ opts _ H).
Defined.


Lemma legacy_id_string_is_document_id_witness :
  AuditLogApi.findEnvelopeAuditLogs Some Scenario.audit_table
    (fun _ _ _ _ => Return (Some Scenario.contract)) 3 7
    (AuditLogApi.decimal 12345) None None None None None
  = AuditLogApi.findDocumentAuditLogs Some Scenario.audit_table
      (fun _ _ _ _ => Return (Some Scenario.contract)) 3 7 12345
      None None None None None.
Proof.
  apply (legacy_id_string_is_document_id Some Scenario.audit_table
           (fun _ _ _ _ => Return (Some Scenario.contract)) 3 7 12345).
  lia.
Defined.

Lemma audit_logs_belong_to_the_found_envelope_witness :
  exists r envelope,
    AuditLogApi.findEnvelopeAuditLogs Some Scenario.audit_table
      (fun _ _ _ _ => Return (Some Scenario.contract)) 3 7 "envelope_1"
      None (Some 2) None None None = Return r /\
    (fun _ _ _ _ => Return (Some Scenario.contract))
      (match AuditLogApi.legacy_document_id "envelope_1" with
       | Some number => AuditLogApi.IdDocumentId number
       | None => AuditLogApi.IdEnvelopeId "envelope_1"
       end)
      (match AuditLogApi.legacy_document_id "envelope_1" with
       | Some _ => Some AuditLogApi.DOCUMENT
       | None => None
       end) 3 7 = Return (Some envelope) /\
    forall y, In y (AuditLog.r_data r) ->
      exists x, In x Scenario.audit_table /\ Some x = Some y /\
                AuditLog.log_envelopeId x = envelope_id envelope.
Proof.
  eexists.
  assert (H : AuditLogApi.findEnvelopeAuditLogs Some Scenario.audit_table
                (fun _ _ _ _ => Return (Some Scenario.contract)) 3 7 "envelope_1"
                None (Some 2) None None None
              = Return
                  {| AuditLog.r_data :=
                       [ Scenario.audit_row "log_c" "DOCUMENT_OPENED" 300;
                         Scenario.audit_row "log_b" "DOCUMENT_SENT" 200 ];
                     AuditLog.r_count := 3;
                     AuditLog.r_currentPage := 1;
                     AuditLog.r_perPage := 2;
                     AuditLog.r_totalPages := AuditLog.Finite 2;
                     AuditLog.r_nextCursor := Some "log_a"%string |})
    by (vm_compute; reflexivity).
  destruct (audit_logs_belong_to_the_found_envelope Some Scenario.audit_table
              (fun _ _ _ _ => Return (Some Scenario.contract)) 3 7 "envelope_1"
              None (Some 2) None None None _ H) as (envelope & He & Hrows).
  exists envelope. split; [exact H|]. split; [exact He | exact Hrows].
Defined.
